(** * The OVOS skill loader ([ovos_workshop/skill_launcher.py])

    A shallow embedding of the skill loader: module loading with the purge
    of [sys.modules], class resolution ([get_skill_class]), instantiation
    with the two construction conventions, and the load / unload / reload
    operations of [SkillLoader] and [PluginSkillLoader].

    The launch functions of the same file and the event callbacks and
    the response loop of [OVOSSkill] ([ovos_workshop/skills/ovos.py])
    follow.

    Python objects are modelled up to the attributes the loader reads.
    Code written by skill authors (module bodies, constructors, [_startup],
    [default_shutdown]) is modelled by its outcome: the value it returns or
    the exception it raises. *)

From Stdlib Require Import Ascii String.
From stdpp Require Import base strings list gmap.

Open Scope string_scope.

(** ** Python values *)

(** Exceptions.  [except Exception] catches the first kind only, a bare
    [except:] catches both: [KeyboardInterrupt], [SystemExit] and
    [GeneratorExit] derive from [BaseException] and not from [Exception]. *)
Inductive exn : Type :=
  | Exception (cls : string)
  | BaseException (cls : string).

Definition is_Exception (e : exn) : bool :=
  match e with Exception _ => true | BaseException _ => false end.

(** What a call does: it returns a value or raises. *)
Inductive outcome (A : Type) : Type :=
  | Returns (a : A)
  | Raises (e : exn).
Arguments Returns {A} a.
Arguments Raises {A} e.

(** What the loader touches of a constructed object.  [truth_value] is
    [bool(obj)], which [if self.instance:] tests: it is [True] unless the
    class of the object defines [__bool__] or [__len__].  The two
    initialisation flags are optional: the loader probes the first with
    [hasattr] and reads the second unguarded.  A missing [_startup] or
    [default_shutdown] is the outcome [Raises (Exception "AttributeError")].
    [reload_skill], [name], [skill_id] and [root_dir] are the attributes of
    [BaseSkill], the declared type of [SkillLoader.instance]. *)
Module Skill.
Record t : Type := {
  truth_value : bool;
  is_fully_initialized : option bool;
  _is_fully_initialized : option bool;
  _startup : outcome unit;
  default_shutdown : outcome unit;
  reload_skill : bool;
  name : string;
  skill_id : string;
  root_dir : string
}.
End Skill.

(** A class object: its name (which stands for its identity), its direct
    bases, and what calling it does under each of the two conventions:
    [cls(bus=..., skill_id=...)] and [cls()]. *)
Local Unset Elimination Schemes.
Inductive pyclass : Type :=
  PyClass (qualname : string) (bases : list pyclass)
          (init_modern init_legacy : outcome Skill.t).
Local Set Elimination Schemes.

Definition qualname (c : pyclass) : string :=
  match c with PyClass n _ _ _ => n end.
Definition bases (c : pyclass) : list pyclass :=
  match c with PyClass _ bs _ _ => bs end.
Definition init_modern (c : pyclass) : outcome Skill.t :=
  match c with PyClass _ _ m _ => m end.
Definition init_legacy (c : pyclass) : outcome Skill.t :=
  match c with PyClass _ _ _ l => l end.

(** An object: its class and its attributes. *)
Record pyobject : Type := {
  class_of : pyclass;
  attrs : Skill.t
}.

(** A plain function, such as a module's [create_skill]. *)
Record pyfunction : Type := {
  fn_name : string;
  call_modern : outcome pyobject;
  call_legacy : outcome pyobject
}.

(** The callables a loader can be handed: a class or a function. *)
Inductive callable : Type :=
  | CClass (c : pyclass)
  | CFunc (f : pyfunction).

(** The values bound at the top level of a module. *)
Inductive pyval : Type :=
  | VClass (c : pyclass)
  | VFunc (f : pyfunction)
  | VOther.

(** A module: its name and the items of its [__dict__], in insertion order. *)
Record pymodule : Type := {
  mod_name : string;
  mod_dict : list (string * pyval)
}.

(** The argument of [get_skill_class]: a module, or a callable handed over
    by a plugin. *)
Inductive module_or_callable : Type :=
  | IsModule (m : pymodule)
  | IsCallable (c : callable).

(** A live object, with the identity it got when it was created. *)
Record live : Type := {
  oid : nat;
  obj : pyobject
}.

(** ** Equality and subclassing of class objects *)

Definition option_eqb {A} (eqb : A -> A -> bool) (x y : option A) : bool :=
  match x, y with
  | Some a, Some b => eqb a b
  | None, None => true
  | _, _ => false
  end.

Definition exn_eqb (x y : exn) : bool :=
  match x, y with
  | Exception a, Exception b => String.eqb a b
  | BaseException a, BaseException b => String.eqb a b
  | _, _ => false
  end.

Definition outcome_eqb {A} (eqb : A -> A -> bool) (x y : outcome A) : bool :=
  match x, y with
  | Returns a, Returns b => eqb a b
  | Raises e, Raises f => exn_eqb e f
  | _, _ => false
  end.

Definition unit_eqb (_ _ : unit) : bool := true.

Definition attrs_eqb (x y : Skill.t) : bool :=
  Bool.eqb (Skill.truth_value x) (Skill.truth_value y)
  && option_eqb Bool.eqb (Skill.is_fully_initialized x) (Skill.is_fully_initialized y)
  && option_eqb Bool.eqb (Skill._is_fully_initialized x) (Skill._is_fully_initialized y)
  && outcome_eqb unit_eqb (Skill._startup x) (Skill._startup y)
  && outcome_eqb unit_eqb (Skill.default_shutdown x) (Skill.default_shutdown y)
  && Bool.eqb (Skill.reload_skill x) (Skill.reload_skill y)
  && String.eqb (Skill.name x) (Skill.name y)
  && String.eqb (Skill.skill_id x) (Skill.skill_id y)
  && String.eqb (Skill.root_dir x) (Skill.root_dir y).

(** [a is b] on class objects. *)
Fixpoint class_is (a b : pyclass) {struct a} : bool :=
  match a, b with
  | PyClass n1 bs1 m1 l1, PyClass n2 bs2 m2 l2 =>
      String.eqb n1 n2
      && (fix all2 (xs ys : list pyclass) {struct xs} : bool :=
            match xs, ys with
            | [], [] => true
            | x :: xs', y :: ys' => class_is x y && all2 xs' ys'
            | _, _ => false
            end) bs1 bs2
      && outcome_eqb attrs_eqb m1 m2
      && outcome_eqb attrs_eqb l1 l2
  end.

(** [issubclass(a, b)]: [b] is [a] or is reachable from [a] through bases. *)
Fixpoint issubclass (a b : pyclass) {struct a} : bool :=
  class_is a b
  || match a with
     | PyClass _ bs _ _ =>
         (fix any (xs : list pyclass) : bool :=
            match xs with
            | [] => false
            | x :: xs' => issubclass x b || any xs'
            end) bs
     end.

(** Nesting depth of a class below the root of its hierarchy. *)
Fixpoint depth (a : pyclass) : nat :=
  match a with
  | PyClass _ bs _ _ =>
      S ((fix dmax (xs : list pyclass) : nat :=
            match xs with
            | [] => 0
            | x :: xs' => Nat.max (depth x) (dmax xs')
            end) bs)
  end.

(** ** The process: module cache, disk, file watching, configuration, bus *)

(** What executing a source file does: the top-level bindings it makes (in
    order), the exception that ends it (if any), and the modules it imports
    and thereby caches in [sys.modules]. *)
Record exec_result : Type := {
  bound : list (string * pyval);
  raised : option exn;
  imported : list (string * pymodule)
}.

(** A source file denotes a function of the name it is executed under and
    of the module cache it finds: an import of a cached module resolves to
    the cached module, not to the disk. *)
Definition source : Type := string -> gmap string pymodule -> exec_result.

Inductive level : Type := DEBUG | INFO | WARNING | ERROR.

(** A bus message: its type and its payload, an ordered dict. *)
Record Message : Type := {
  msg_type : string;
  data : list (string * option string)
}.

(** The calls into code outside the loader, in the order they are made:
    executing a source file; calling a creator, with keyword arguments or
    without; the object a creator returned; the [_startup] and
    [default_shutdown] hooks of an object; a file watcher that was started,
    with its handle, and the shutdown of a file watcher; a garbage
    collection; the creation of a bus client and the start of its
    thread. *)
Inductive effect : Type :=
  | ExecModule (module_name path : string)
  | Construct (skill_creator : option callable) (kwargs : bool)
  | Created (i : live)
  | Startup (i : nat)
  | Shutdown (i : nat)
  | WatcherStart (h : nat) (path : option string)
  | WatcherShutdown (h : nat)
  | GcCollect
  | MessageBusClient
  | run_in_thread.

(** The process.  [FileWatcher path] is what the imported
    [FileWatcher([path], ...)] does in this process: [Some e] when it
    raises [e] (a missing directory, a path that is [None]), and [None]
    when it starts a watcher. *)
Record world : Type := {
  sys_modules : gmap string pymodule;
  disk : gmap string source;
  FileWatcher : option string -> option exn;
  blacklisted_skills : option (list string);
  debug : bool;
  clock : nat;
  fresh : nat;
  bus : list Message;
  trace : list effect;
  log : list (level * string)
}.

Definition set_sys_modules (v : gmap string pymodule) (w : world) : world :=
  {| sys_modules := v; disk := disk w;
     FileWatcher := FileWatcher w;
     blacklisted_skills := blacklisted_skills w; debug := debug w;
     clock := clock w; fresh := fresh w; bus := bus w; trace := trace w;
     log := log w |}.
Definition set_clock (v : nat) (w : world) : world :=
  {| sys_modules := sys_modules w; disk := disk w;
     FileWatcher := FileWatcher w;
     blacklisted_skills := blacklisted_skills w; debug := debug w;
     clock := v; fresh := fresh w; bus := bus w; trace := trace w;
     log := log w |}.
Definition set_fresh (v : nat) (w : world) : world :=
  {| sys_modules := sys_modules w; disk := disk w;
     FileWatcher := FileWatcher w;
     blacklisted_skills := blacklisted_skills w; debug := debug w;
     clock := clock w; fresh := v; bus := bus w; trace := trace w;
     log := log w |}.
Definition set_bus (v : list Message) (w : world) : world :=
  {| sys_modules := sys_modules w; disk := disk w;
     FileWatcher := FileWatcher w;
     blacklisted_skills := blacklisted_skills w; debug := debug w;
     clock := clock w; fresh := fresh w; bus := v; trace := trace w;
     log := log w |}.
Definition set_trace (v : list effect) (w : world) : world :=
  {| sys_modules := sys_modules w; disk := disk w;
     FileWatcher := FileWatcher w;
     blacklisted_skills := blacklisted_skills w; debug := debug w;
     clock := clock w; fresh := fresh w; bus := bus w; trace := v;
     log := log w |}.
Definition set_log (v : list (level * string)) (w : world) : world :=
  {| sys_modules := sys_modules w; disk := disk w;
     FileWatcher := FileWatcher w;
     blacklisted_skills := blacklisted_skills w; debug := debug w;
     clock := clock w; fresh := fresh w; bus := bus w; trace := trace w;
     log := v |}.

(** ** A state and exception monad *)

Definition M (S A : Type) : Type := S -> outcome A * S.

#[export] Instance M_ret {S} : MRet (M S) := fun A a s => (Returns a, s).
#[export] Instance M_bind {S} : MBind (M S) := fun A B k m s =>
  match m s with
  | (Returns a, s') => k a s'
  | (Raises e, s') => (Raises e, s')
  end.

Definition raise {S A} (e : exn) : M S A := fun s => (Raises e, s).
Definition get {S} : M S S := fun s => (Returns s, s).
Definition modify {S} (f : S -> S) : M S unit := fun s => (Returns tt, f s).

(** [try: body except <caught>: handler]. *)
Definition try_except {S A} (body : M S A) (caught : exn -> bool)
    (handler : exn -> M S A) : M S A := fun s =>
  match body s with
  | (Returns a, s') => (Returns a, s')
  | (Raises e, s') => if caught e then handler e s' else (Raises e, s')
  end.

Definition of_outcome {S A} (o : outcome A) : M S A := fun s => (o, s).

(** Functions at module level act on the process alone. *)
Definition LOG (lv : level) (text : string) : M world unit :=
  modify (fun w => set_log (log w ++ [(lv, text)]) w).
Definition call (e : effect) : M world unit :=
  modify (fun w => set_trace (trace w ++ [e]) w).
Definition emit (m : Message) : M world unit :=
  modify (fun w => set_bus (bus w ++ [m]) w).
Definition new_id : M world nat := fun w => (Returns (fresh w), set_fresh (S (fresh w)) w).
(** [time()]: the clock is read, and has moved on at the next reading. *)
Definition time : M world nat := fun w => (Returns (clock w), set_clock (S (clock w)) w).

(** ** String helpers of the Python library *)

(** [s.startswith(p)]. *)
Definition startswith (s p : string) : bool := String.prefix p s.

(** [s.replace('.', '_')]. *)
Fixpoint replace_dots (s : string) : string :=
  match s with
  | EmptyString => EmptyString
  | String c s' =>
      String (if Ascii.eqb c "."%char then "_"%char else c) (replace_dots s')
  end.

Fixpoint basename_from (acc p : string) : string :=
  match p with
  | EmptyString => acc
  | String c p' =>
      if Ascii.eqb c "/"%char then basename_from "" p'
      else basename_from (acc ++ String c "") p'
  end.
(** [os.path.basename(p)]: what follows the last slash. *)
Definition basename (p : string) : string := basename_from "" p.

Fixpoint ends_with_slash (p : string) : bool :=
  match p with
  | EmptyString => false
  | String c EmptyString => Ascii.eqb c "/"%char
  | String _ p' => ends_with_slash p'
  end.
(** [os.path.join(a, b)] for a relative [b]. *)
Definition path_join (a b : string) : string :=
  if String.eqb a "" then b
  else if ends_with_slash a then a ++ b
  else a ++ "/" ++ b.

(** Truth value of a [str]-or-[None]. *)
Definition truthy (s : option string) : bool :=
  match s with
  | Some s => negb (String.eqb s "")
  | None => false
  end.

(** ** Module loader *)

Definition SKILL_MAIN_MODULE : string := "__init__.py".

(** The loop [for m in submodules: del sys.modules[m]]. *)
Definition del_all (submodules : list string) (mods : gmap string pymodule)
    : gmap string pymodule :=
  foldl (fun acc m => delete m acc) mods submodules.

(** The loop [for m in sys.modules: if m.startswith(module_name + '.')]. *)
Definition collect_submodules (module_name : string)
    (mods : gmap string pymodule) : list string :=
  List.filter (fun m => startswith m (module_name ++ "."))
              (map fst (map_to_list mods)).

Definition remove_submodule_refs (module_name : string) : M world unit :=
  LOG DEBUG "Skill module";;
  w ← get;
  let submodules := collect_submodules module_name (sys_modules w) in
  modify (fun w =>
    set_log (log w ++ map (fun _ => (DEBUG, "Removing sys.modules ref")) submodules)
      (set_sys_modules (del_all submodules (sys_modules w)) w)).

(** [spec.loader.exec_module(mod)]: the source at [path] runs against the
    current module cache; the modules it imports enter the cache, and the
    module object, which [sys.modules] already refers to, receives the
    bindings made. *)
Definition exec_module (module_name path : string) : M world pymodule :=
  call (ExecModule module_name path);;
  w ← get;
  match disk w !! path with
  | None => raise (Exception "FileNotFoundError")
  | Some src =>
      let r := src module_name (sys_modules w) in
      let mod_ := {| mod_name := module_name; mod_dict := bound r |} in
      modify (fun w =>
        set_sys_modules
          (<[module_name := mod_]>
             (foldl (fun acc km => <[km.1 := km.2]> acc) (sys_modules w) (imported r)))
          w);;
      match raised r with
      | None => mret mod_
      | Some e => raise e
      end
  end.

Definition load_skill_module (path : string) (skill_id : option string)
    : M world pymodule :=
  match skill_id with
  | None => raise (Exception "AttributeError")
  | Some skill_id =>
      let module_name := replace_dots skill_id in
      remove_submodule_refs module_name;;
      (* spec_from_file_location, module_from_spec *)
      let mod_ := {| mod_name := module_name; mod_dict := [] |} in
      modify (fun w => set_sys_modules (<[module_name := mod_]> (sys_modules w)) w);;
      exec_module module_name path
  end.

(** ** The loader object *)

Record SkillLoader : Type := {
  _skill_directory : option string;
  _skill_id : option string;
  _skill_class : option callable;
  _loaded : option bool;
  load_attempted : bool;
  last_loaded : nat;
  instance : option live;
  active : bool;
  _watchdog : option nat;
  skill_module : option pymodule
}.

(** [SkillLoader(bus, skill_directory, skill_id)]. *)
Definition __init__ (skill_directory skill_id : option string) : SkillLoader :=
  {| _skill_directory := skill_directory; _skill_id := skill_id;
     _skill_class := None; _loaded := None; load_attempted := false;
     last_loaded := 0; instance := None; active := true; _watchdog := None;
     skill_module := None |}.

Definition set__skill_class (v : option callable) (l : SkillLoader) : SkillLoader :=
  {| _skill_directory := _skill_directory l; _skill_id := _skill_id l;
     _skill_class := v; _loaded := _loaded l;
     load_attempted := load_attempted l; last_loaded := last_loaded l;
     instance := instance l; active := active l; _watchdog := _watchdog l;
     skill_module := skill_module l |}.
Definition set_loaded (v : option bool) (l : SkillLoader) : SkillLoader :=
  {| _skill_directory := _skill_directory l; _skill_id := _skill_id l;
     _skill_class := _skill_class l; _loaded := v;
     load_attempted := load_attempted l; last_loaded := last_loaded l;
     instance := instance l; active := active l; _watchdog := _watchdog l;
     skill_module := skill_module l |}.
Definition set_load_attempted (v : bool) (l : SkillLoader) : SkillLoader :=
  {| _skill_directory := _skill_directory l; _skill_id := _skill_id l;
     _skill_class := _skill_class l; _loaded := _loaded l;
     load_attempted := v; last_loaded := last_loaded l;
     instance := instance l; active := active l; _watchdog := _watchdog l;
     skill_module := skill_module l |}.
Definition set_last_loaded (v : nat) (l : SkillLoader) : SkillLoader :=
  {| _skill_directory := _skill_directory l; _skill_id := _skill_id l;
     _skill_class := _skill_class l; _loaded := _loaded l;
     load_attempted := load_attempted l; last_loaded := v;
     instance := instance l; active := active l; _watchdog := _watchdog l;
     skill_module := skill_module l |}.
Definition set_instance (v : option live) (l : SkillLoader) : SkillLoader :=
  {| _skill_directory := _skill_directory l; _skill_id := _skill_id l;
     _skill_class := _skill_class l; _loaded := _loaded l;
     load_attempted := load_attempted l; last_loaded := last_loaded l;
     instance := v; active := active l; _watchdog := _watchdog l;
     skill_module := skill_module l |}.
Definition set_active (v : bool) (l : SkillLoader) : SkillLoader :=
  {| _skill_directory := _skill_directory l; _skill_id := _skill_id l;
     _skill_class := _skill_class l; _loaded := _loaded l;
     load_attempted := load_attempted l; last_loaded := last_loaded l;
     instance := instance l; active := v; _watchdog := _watchdog l;
     skill_module := skill_module l |}.
Definition set__watchdog (v : option nat) (l : SkillLoader) : SkillLoader :=
  {| _skill_directory := _skill_directory l; _skill_id := _skill_id l;
     _skill_class := _skill_class l; _loaded := _loaded l;
     load_attempted := load_attempted l; last_loaded := last_loaded l;
     instance := instance l; active := active l; _watchdog := v;
     skill_module := skill_module l |}.
Definition set_skill_module (v : option pymodule) (l : SkillLoader) : SkillLoader :=
  {| _skill_directory := _skill_directory l; _skill_id := _skill_id l;
     _skill_class := _skill_class l; _loaded := _loaded l;
     load_attempted := load_attempted l; last_loaded := last_loaded l;
     instance := instance l; active := active l; _watchdog := _watchdog l;
     skill_module := v |}.

(** Methods run on the loader and the process together. *)
Definition state : Type := SkillLoader * world.

Definition self : M state SkillLoader := fun s => (Returns s.1, s).
Definition update (f : SkillLoader -> SkillLoader) : M state unit :=
  fun s => (Returns tt, (f s.1, s.2)).
Definition lift {A} (m : M world A) : M state A := fun s =>
  match m s.2 with
  | (r, w') => (r, (s.1, w'))
  end.

(** The skill base classes are imported from modules that are not part of
    the loader; they are taken as given. *)
Record SkillBases : Type := {
  BaseSkill : pyclass;
  MycroftSkill : pyclass;
  OVOSSkill : pyclass;
  OVOSFallbackSkill : pyclass;
  OVOSCommonPlaybackSkill : pyclass;
  CommonQuerySkill : pyclass;
  ActiveSkill : pyclass;
  FallbackSkill : pyclass;
  UniversalSkill : pyclass;
  UniversalFallback : pyclass
}.

Section Loader.

Context (K : SkillBases).

Definition SKILL_BASE_CLASSES : list pyclass := [
  BaseSkill K; MycroftSkill K; OVOSSkill K; OVOSFallbackSkill K;
  OVOSCommonPlaybackSkill K; OVOSFallbackSkill K; CommonQuerySkill K;
  ActiveSkill K; FallbackSkill K; UniversalSkill K; UniversalFallback K
].

(** ** Class resolver *)

(** The test applied to each class of the module: a subclass of some base
    class that is none of the base classes. *)
Definition is_skill_class (obj : pyclass) : bool :=
  existsb (fun c => issubclass obj c) SKILL_BASE_CLASSES
  && negb (existsb (fun c => class_is obj c) SKILL_BASE_CLASSES).

(** The first loop: [for name, obj in skill_module.__dict__.items()]. *)
Fixpoint scan (items : list (string * pyval)) : list pyclass :=
  match items with
  | [] => []
  | (_, VClass obj) :: items' =>
      if is_skill_class obj then obj :: scan items' else scan items'
  | _ :: items' => scan items'
  end.

(** [l.remove(x)]: drops the first element equal to [x]; [None] stands for
    the [ValueError] raised when there is none. *)
Fixpoint list_remove (x : pyclass) (l : list pyclass) : option (list pyclass) :=
  match l with
  | [] => None
  | y :: l' =>
      if class_is y x then Some l'
      else match list_remove x l' with
           | Some r => Some (y :: r)
           | None => None
           end
  end.

(** The second loop: [for candidate in list(candidates)], which iterates
    over a copy ([todo]) and shrinks [candidates] itself. *)
Fixpoint discard_supertypes (todo candidates : list pyclass)
    : option (list pyclass) :=
  match todo with
  | [] => Some candidates
  | candidate :: todo' =>
      let others :=
        List.filter (fun clazz => negb (class_is clazz candidate)) candidates in
      if existsb (fun clazz => issubclass clazz candidate) others
      then match list_remove candidate candidates with
           | Some candidates' => discard_supertypes todo' candidates'
           | None => None
           end
      else discard_supertypes todo' candidates
  end.

Definition get_skill_class (skill_module : module_or_callable)
    : M world (option callable) :=
  match skill_module with
  | IsCallable c => mret (Some c)
  | IsModule m =>
      let candidates := scan (mod_dict m) in
      match discard_supertypes candidates candidates with
      | None => raise (Exception "ValueError")
      | Some [] => mret None
      | Some (c :: rest) =>
          (if (1 <? length (c :: rest))%nat
           then LOG WARNING "Multiple skills found in a single file!"
           else mret tt);;
          LOG DEBUG "Loading skill class";;
          mret (Some (CClass c))
      end
  end.

(** [hasattr(module, name)] and [module.name] on the module's dict. *)
Fixpoint getattr (name : string) (items : list (string * pyval)) : option pyval :=
  match items with
  | [] => None
  | (k, v) :: items' => if String.eqb k name then Some v else getattr name items'
  end.

Definition get_create_skill_function (skill_module : option pymodule)
    : option callable :=
  match skill_module with
  | None => None
  | Some m =>
      match getattr "create_skill" (mod_dict m) with
      | Some (VClass c) => Some (CClass c)
      | Some (VFunc f) => Some (CFunc f)
      | _ => None
      end
  end.

(** ** Properties of [SkillLoader] *)

Definition loaded (l : SkillLoader) : option bool := _loaded l.

(** The instance when [if self.instance:] holds: an instance is held and
    its truth value is [True]. *)
Definition true_instance (l : SkillLoader) : option live :=
  match instance l with
  | Some i => if Skill.truth_value (attrs (obj i)) then Some i else None
  | None => None
  end.

Definition skill_directory (l : SkillLoader) : option string :=
  let skill_dir := _skill_directory l in
  match true_instance l with
  | Some i =>
      if negb (truthy skill_dir) then Some (Skill.root_dir (attrs (obj i)))
      else skill_dir
  | None => skill_dir
  end.

Definition skill_id (l : SkillLoader) : option string :=
  let skill_id := _skill_id l in
  let skill_id :=
    match true_instance l with
    | Some i =>
        if negb (truthy skill_id) then Some (Skill.skill_id (attrs (obj i)))
        else skill_id
    | None => skill_id
    end in
  match skill_directory l with
  | Some d =>
      if truthy (Some d) && negb (truthy skill_id) then Some (basename d)
      else skill_id
  | None => skill_id
  end.

Definition skill_class : M state (option callable) :=
  l ← self;
  let skill_class := _skill_class l in
  let skill_class :=
    match true_instance l, skill_class with
    | Some i, None => Some (CClass (class_of (obj i)))
    | _, _ => skill_class
    end in
  match skill_module l, skill_class with
  | Some m, None => lift (get_skill_class (IsModule m))
  | _, _ => mret skill_class
  end.

(** The configuration is a shared object of the process: it is read anew
    at each evaluation of the property. *)
Definition is_blacklisted : M state bool :=
  s ← get;
  let blacklist := default [] (blacklisted_skills s.2) in
  match skill_id s.1 with
  | Some id => mret (existsb (String.eqb id) blacklist)
  | None => mret false
  end.

Definition reload_allowed (l : SkillLoader) : bool :=
  active l &&
  match instance l with
  | None => true
  | Some i => Skill.reload_skill (attrs (obj i))
  end.

(** ** Instance lifecycle *)

(** Calling the creator, with keyword arguments or without.  Calling
    [None] raises [TypeError]; calling a class yields an object of that
    class. *)
Definition apply_creator (skill_creator : option callable) (kwargs : bool)
    : outcome pyobject :=
  match skill_creator with
  | None => Raises (Exception "TypeError")
  | Some (CClass c) =>
      match (if kwargs then init_modern c else init_legacy c) with
      | Returns a => Returns {| class_of := c; attrs := a |}
      | Raises e => Raises e
      end
  | Some (CFunc f) => if kwargs then call_modern f else call_legacy f
  end.

Definition invoke (skill_creator : option callable) (kwargs : bool)
    : M state live :=
  lift (call (Construct skill_creator kwargs));;
  o ← of_outcome (apply_creator skill_creator kwargs);
  n ← lift new_id;
  let i := {| oid := n; obj := o |} in
  lift (call (Created i));;
  mret i.

Definition _execute_instance_shutdown : M state unit :=
  l ← self;
  try_except
    (match instance l with
     | None => raise (Exception "AttributeError")
     | Some i =>
         lift (call (Shutdown (oid i)));;
         of_outcome (Skill.default_shutdown (attrs (obj i)))
     end;;
     lift (LOG INFO "shut down successfully"))
    is_Exception
    (fun _ => lift (LOG ERROR "An error occurred while shutting down"));;
  update (set_instance None).

(** [sys.getrefcount(self.instance)] is taken on [None] wherever the loader
    calls this, and is never below 3. *)
Definition _garbage_collect : M state unit :=
  lift (call GcCollect);;
  lift (LOG WARNING "there are still references remaining").

Definition _emit_skill_shutdown_event : M state unit :=
  l ← self;
  lift (emit {| msg_type := "mycroft.skills.shutdown";
                data := [("path", skill_directory l); ("id", skill_id l)] |}).

(** The inner [try] of [_create_skill_instance]: the creator is called
    with the bus and the skill id, and without arguments when that raises
    anything at all. *)
Definition construct (skill_creator : option callable) : M state unit :=
  try_except
    (i ← invoke skill_creator true;
     update (set_instance (Some i)))
    (fun _ => true)
    (fun _ =>
     i ← invoke skill_creator false;
     update (set_instance (Some i))).

(** The rest of the outer [try]: the initialisation flag is read, and
    [_startup] is called on an instance that is not initialised. *)
Definition finish_initialization : M state unit :=
  l ← self;
  match instance l with
  | None => raise (Exception "AttributeError")
  | Some i =>
      let a := attrs (obj i) in
      is_initialized ←
        match Skill.is_fully_initialized a with
        | Some b =>
            lift (LOG WARNING "Deprecated skill signature!");;
            mret b
        | None =>
            match Skill._is_fully_initialized a with
            | Some b => mret b
            | None => raise (Exception "AttributeError")
            end
        end;
      if negb is_initialized
      then lift (call (Startup (oid i)));;
           of_outcome (Skill._startup a)
      else mret tt
  end.

Definition _create_skill_instance (skill_module_arg : option pymodule)
    : M state bool :=
  l ← self;
  let skill_module :=
    match skill_module_arg with
    | Some m => Some m
    | None => skill_module l
    end in
  try_except
    (skill_creator ←
       match get_create_skill_function skill_module with
       | Some f => mret (Some f)
       | None => skill_class
       end;
     construct skill_creator;;
     finish_initialization)
    is_Exception
    (fun _ =>
     lift (LOG ERROR "Skill __init__ failed");;
     update (set_instance None));;
  l ← self;
  mret (bool_decide (is_Some (instance l))).

(** ** Loader state machine *)

Definition _prepare_for_load : M state unit :=
  update (set_load_attempted true);;
  update (set_instance None).

Definition _skip_load : M state unit :=
  lift (LOG INFO "is blacklisted - it will not be loaded").

Definition _load_skill_source : M state (option pymodule) :=
  l ← self;
  main_file_path ←
    match skill_directory l with
    | None => raise (Exception "TypeError")
    | Some d => mret (path_join d SKILL_MAIN_MODULE)
    end;
  s ← get;
  if negb (bool_decide (is_Some (disk s.2 !! main_file_path)))
  then lift (LOG ERROR "Failed to load due to a missing file.");;
       mret None
  else
    try_except
      (m ← lift (load_skill_module main_file_path (skill_id l));
       mret (Some m))
      is_Exception
      (fun _ => lift (LOG ERROR "Failed to load skill");;
                mret None).

Definition _communicate_load_status : M state unit :=
  l ← self;
  if default false (loaded l)
  then
    name ←
      match instance l with
      | None => raise (Exception "AttributeError")
      | Some i => mret (Skill.name (attrs (obj i)))
      end;
    lift (emit {| msg_type := "mycroft.skills.loaded";
                  data := [("path", skill_directory l); ("id", skill_id l);
                           ("name", Some name)] |});;
    lift (LOG INFO "loaded successfully")
  else
    lift (emit {| msg_type := "mycroft.skills.loading_failure";
                  data := [("path", skill_directory l); ("id", skill_id l)] |});;
    b ← is_blacklisted;
    if negb b then lift (LOG ERROR "failed to load")
    else lift (LOG INFO "not loaded").

(** [FileWatcher([self.skill_directory], ...)] raises, or starts a watcher,
    which gets a new handle. *)
Definition _start_filewatcher : M state unit :=
  l ← self;
  match _watchdog l with
  | Some _ => mret tt
  | None =>
      s ← get;
      match FileWatcher s.2 (skill_directory l) with
      | Some e => raise e
      | None =>
          h ← lift new_id;
          lift (call (WatcherStart h (skill_directory l)));;
          update (set__watchdog (Some h))
      end
  end.

Definition _load : M state (option bool) :=
  _prepare_for_load;;
  b ← is_blacklisted;
  (if (b : bool) then _skip_load
   else
     m ← _load_skill_source;
     update (set_skill_module m);;
     r ← _create_skill_instance None;
     update (set_loaded (Some r)));;
  t ← lift time;
  update (set_last_loaded t);;
  _communicate_load_status;;
  _start_filewatcher;;
  l ← self;
  mret (loaded l).

Definition load : M state (option bool) :=
  lift (LOG INFO "ATTEMPTING TO LOAD SKILL");;
  _load.

Definition _unload : M state unit :=
  l ← self;
  match _watchdog l with
  | Some h =>
      lift (call (WatcherShutdown h));;
      update (set__watchdog None)
  | None => mret tt
  end;;
  _execute_instance_shutdown;;
  s ← get;
  (if debug s.2 then _garbage_collect else mret tt);;
  _emit_skill_shutdown_event.

Definition unload : M state unit :=
  l ← self;
  match true_instance l with
  | Some _ => _execute_instance_shutdown
  | None => mret tt
  end.

Definition reload : M state (option bool) :=
  lift (LOG INFO "ATTEMPTING TO RELOAD SKILL");;
  l ← self;
  match true_instance l with
  | Some i =>
      if negb (Skill.reload_skill (attrs (obj i)))
      then lift (LOG INFO "skill does not allow reloading!");;
           mret (Some false)
      else _unload;; _load
  | None => _load
  end.

Definition activate : M state unit :=
  update (set_active true);;
  load;;
  mret tt.

Definition deactivate : M state unit :=
  update (set_active false);;
  unload.

Definition _handle_filechange : M state unit :=
  lift (LOG INFO "Skill change detected!");;
  try_except
    (l ← self;
     if reload_allowed l then reload;; mret tt else mret tt)
    is_Exception
    (fun _ => lift (LOG ERROR "Unhandled exception occurred while reloading")).

(** [PluginSkillLoader.load(skill_class)]: no module loading, no watcher.
    The log line concatenates [self.skill_id] to a [str]. *)
Definition PluginSkillLoader_load (skill_class : option callable)
    : M state (option bool) :=
  l ← self;
  match skill_id l with
  | None => raise (Exception "TypeError")
  | Some _ => lift (LOG INFO "ATTEMPTING TO LOAD PLUGIN SKILL")
  end;;
  update (set__skill_class skill_class);;
  _prepare_for_load;;
  b ← is_blacklisted;
  (if (b : bool) then _skip_load
   else
     r ← _create_skill_instance None;
     update (set_loaded (Some r)));;
  t ← lift time;
  update (set_last_loaded t);;
  _communicate_load_status;;
  l ← self;
  mret (loaded l).

End Loader.

(** ** Skill directories *)

(** [os.path.join(a, b)]: an absolute [b] replaces [a]. *)
Definition os_path_join (a b : string) : string :=
  if startswith b "/" then b
  else if String.eqb a "" then b
  else if ends_with_slash a then a ++ b
  else a ++ "/" ++ b.

(** The entry [skills] of a configuration, as far as the launcher reads
    it, and a configuration: its entry [skills], if it has one, and
    whether it has other entries (an empty configuration is false). *)
Record skills_conf : Type := {
  directory : option string;
  extra_directories : option (list string)
}.
Record config : Type := {
  skills : option skills_conf;
  has_other_entries : bool
}.

Definition config_truthy (conf : config) : bool :=
  bool_decide (is_Some (skills conf)) || has_other_entries conf.

(** The comprehension [[os.path.join(p, folder) for p in ...]]: joining
    with [None] raises [TypeError], at the first element. *)
Definition join_each (folder : option string) (dirs : list string)
    : outcome (list string) :=
  match dirs, folder with
  | [], _ => Returns []
  | _ :: _, None => Raises (Exception "TypeError")
  | _ :: _, Some f => Returns (map (fun p => os_path_join p f) dirs)
  end.

(** The terminal a script runs in: what it printed, and the process. *)
Record terminal : Type := {
  stdout : list string;
  process : world
}.

Definition print (line : string) : M terminal unit :=
  modify (fun t => {| stdout := (stdout t ++ [line])%list; process := process t |}).

Definition lift_process {A} (m : M world A) : M terminal A := fun t =>
  match m (process t) with
  | (r, w') => (r, {| stdout := stdout t; process := w' |})
  end.

(** [except KeyboardInterrupt]. *)
Definition is_KeyboardInterrupt (e : exn) : bool :=
  match e with
  | BaseException cls => String.eqb cls "KeyboardInterrupt"
  | Exception _ => false
  end.

(** [try: body except KeyboardInterrupt: on_interrupt except Exception:
    on_error]: what a handler raises is not handled by the other one. *)
Definition try_except_interrupt {S A} (body on_interrupt on_error : M S A)
    : M S A := fun s =>
  match body s with
  | (Returns a, s') => (Returns a, s')
  | (Raises e, s') =>
      if is_KeyboardInterrupt e then on_interrupt s'
      else if is_Exception e then on_error s'
      else (Raises e, s')
  end.

(** A loader that is local to a function: it is gone when the function
    ends. *)
Definition with_loader {A} (skill_loader : SkillLoader) (m : M state A)
    : M world A := fun w =>
  match m (skill_loader, w) with
  | (r, (_, w')) => (r, w')
  end.

Section Launchers.

Context (K : SkillBases).

(** What the launchers import from other packages is taken as given: the
    XDG data directories, the configuration of the process, the plugins
    found, what [wait_for_exit_signal()] does, and [os.path.isdir]. *)
Context (get_xdg_data_dirs : list string).
Context (Configuration : config).
Context (find_skill_plugins : gmap string callable).
Context (wait_for_exit_signal : outcome unit).
Context (isdir : string -> bool).

Definition get_skill_directories (conf : option config)
    : outcome (list string) :=
  let conf :=
    match conf with
    | Some c => if config_truthy c then c else Configuration
    | None => Configuration
    end in
  match skills conf with
  | None => Raises (Exception "KeyError")
  | Some s =>
      match join_each (directory s) get_xdg_data_dirs with
      | Raises e => Raises e
      | Returns joined =>
          let skill_locations := rev joined in
          Returns (skill_locations ++ default [] (extra_directories s))%list
      end
  end.

(** [MessageBusClient()] and [bus.run_in_thread()] are calls into the bus
    package, taken to return; the messages of the loader go to that
    client. *)
Definition launch_plugin_skill (skill_id : string) : M world unit :=
  call MessageBusClient;;
  call run_in_thread;;
  let plugins := find_skill_plugins in
  match plugins !! skill_id with
  | None => raise (Exception "ValueError")
  | Some skill_plugin =>
      with_loader (__init__ None (Some skill_id))
        (try_except_interrupt
           (PluginSkillLoader_load K (Some skill_plugin);;
            of_outcome wait_for_exit_signal)
           deactivate
           (lift (LOG ERROR "Load of skill failed!")))
  end.

Definition launch_standalone_skill (skill_directory skill_id : string)
    : M world unit :=
  call MessageBusClient;;
  call run_in_thread;;
  with_loader (__init__ (Some skill_directory) (Some skill_id))
    (try_except_interrupt
       (load K;;
        of_outcome wait_for_exit_signal)
       deactivate
       (lift (LOG ERROR "Load of skill failed!"))).

(** The loop [for p in get_skill_directories(): if isdir(f"{p}/{skill_id}")]
    of [_launch_script], up to its [break]; [None] is its [else]. *)
Fixpoint find_local_skill (skill_id : string) (dirs : list string)
    : option string :=
  match dirs with
  | [] => None
  | p :: dirs' =>
      if isdir (p ++ "/" ++ skill_id) then Some (p ++ "/" ++ skill_id)
      else find_local_skill skill_id dirs'
  end.

(** [_launch_script()], with [sys.argv] as argument. *)
Definition _launch_script (argv : list string) : M terminal unit :=
  match argv with
  | [_; skill_id] =>
      dirs ← of_outcome (get_skill_directories None);
      match find_local_skill skill_id dirs with
      | Some skill_directory =>
          lift_process (LOG INFO "found local skill, loading");;
          lift_process (launch_standalone_skill skill_directory skill_id)
      | None =>
          lift_process (LOG INFO "found plugin skill");;
          lift_process (launch_plugin_skill skill_id)
      end
  | [_; skill_id; skill_directory] =>
      lift_process (launch_standalone_skill skill_directory skill_id)
  | _ =>
      print "USAGE: ovos-skill-launcher {skill_id} [path/to/my/skill_id]";;
      raise (BaseException "SystemExit")
  end.

End Launchers.

(** * [OVOSSkill] ([ovos_workshop/skills/ovos.py])

    The callbacks that [add_event] wraps around an event handler, and the
    loop that waits for a response of the user.  What the class inherits
    or imports (speaking, dialogs, the settings store, the wrapper that
    calls the callbacks) is taken as given. *)
Module OVOSSkill.

(** [d[k] = v] on a dict, kept as its items in insertion order: a key that
    is present keeps its place. *)
Fixpoint dict_set (k v : string) (d : list (string * string))
    : list (string * string) :=
  match d with
  | [] => [(k, v)]
  | (k', v') :: d' =>
      if String.eqb k' k then (k', v) :: d' else (k', v') :: dict_set k v d'
  end.

(** [d.get(k)]. *)
Fixpoint dict_get (k : string) (d : list (string * string)) : option string :=
  match d with
  | [] => None
  | (k', v') :: d' => if String.eqb k' k then Some v' else dict_get k d'
  end.

Section Events.

Context {Settings : Type} `{EqDecision Settings}.

(** Imported functions: [camel_case_split], [dialog.get('skill.error',
    lang, {'skill': name})], [repr] of an exception, and
    [isinstance(e, AbortEvent)]. *)
Context (camel_case_split : string -> string).
Context (dialog_get : string -> string -> string).
Context (repr : exn -> string).
Context (is_AbortEvent : exn -> bool).

(** The skill object and its surroundings, as far as the callbacks touch
    them, and the dict [skill_data] that the three callbacks of one
    [add_event] call share. *)
Record env : Type := {
  name : string;
  lang : string;
  settings : Settings;
  _initial_settings : Settings;
  skill_data : list (string * string);
  emitted : list (string * list (string * string));
  spoken : list string;
  saved : list Settings;
  logged : list (level * string)
}.

Definition set_skill_data (v : list (string * string)) (s : env) : env :=
  {| name := name s; lang := lang s; settings := settings s;
     _initial_settings := _initial_settings s; skill_data := v;
     emitted := emitted s; spoken := spoken s; saved := saved s;
     logged := logged s |}.

(** [self.speak(msg)]. *)
Definition speak (msg : string) (s : env) : env :=
  {| name := name s; lang := lang s; settings := settings s;
     _initial_settings := _initial_settings s; skill_data := skill_data s;
     emitted := emitted s; spoken := (spoken s ++ [msg])%list; saved := saved s;
     logged := logged s |}.

Definition LOG (lv : level) (text : string) (s : env) : env :=
  {| name := name s; lang := lang s; settings := settings s;
     _initial_settings := _initial_settings s; skill_data := skill_data s;
     emitted := emitted s; spoken := spoken s; saved := saved s;
     logged := (logged s ++ [(lv, text)])%list |}.

(** [self.bus.emit(message.forward(msg_type, skill_data))]: the message
    goes out with the items that [skill_data] has at that moment. *)
Definition emit_forward (msg_type : string) (s : env) : env :=
  {| name := name s; lang := lang s; settings := settings s;
     _initial_settings := _initial_settings s; skill_data := skill_data s;
     emitted := (emitted s ++ [(msg_type, skill_data s)])%list;
     spoken := spoken s; saved := saved s; logged := logged s |}.

(** [save_settings(...)] followed by
    [self._initial_settings = deepcopy(self.settings)]. *)
Definition save_and_remember (s : env) : env :=
  {| name := name s; lang := lang s; settings := settings s;
     _initial_settings := settings s; skill_data := skill_data s;
     emitted := emitted s; spoken := spoken s;
     saved := (saved s ++ [settings s])%list; logged := logged s |}.

(** The dict that [add_event] creates: [{'name': get_handler_name(handler)}]. *)
Definition new_skill_data (handler_name : string) : list (string * string) :=
  [("name", handler_name)].

Definition on_error (e : exn) (s : env) : env :=
  let s :=
    if negb (is_AbortEvent e)
    then
      let handler_name := camel_case_split (name s) in
      let msg := dialog_get (lang s) handler_name in
      LOG ERROR msg (speak msg s)
    else LOG INFO "Skill execution aborted" s in
  set_skill_data (dict_set "exception" (repr e) (skill_data s)) s.

Definition on_start (handler_info : option string) (s : env) : env :=
  match handler_info with
  | Some info =>
      if truthy handler_info then emit_forward (info ++ ".start") s else s
  | None => s
  end.

Definition on_end (handler_info : option string) (s : env) : env :=
  let s :=
    if bool_decide (settings s <> _initial_settings s)
    then save_and_remember s
    else s in
  match handler_info with
  | Some info =>
      if truthy handler_info then emit_forward (info ++ ".complete") s else s
  | None => s
  end.

End Events.

Section Response.

(** The arguments of [_wait_response]. *)
Context (is_cancel validator : string -> bool).
Context (on_fail : option string -> option string).
Context (num_retries : Z).

(** [self._response]: [False] while no response is there, else the
    response, a string or [None]. *)
Inductive response_slot : Type :=
  | Unset
  | Given (v : option string).

Definition is_unset (r : response_slot) : bool :=
  match r with Unset => true | Given _ => false end.

(** What the skill does towards the user while it waits. *)
Inductive output : Type :=
  | MakeActive
  | Speak (line : string)
  | Listen
  | Debug (text : string).

Record conversation : Type := {
  _response : response_slot;
  outputs : list output
}.

Definition set_response (v : response_slot) (c : conversation) : conversation :=
  {| _response := v; outputs := outputs c |}.
Definition out (o : output) (c : conversation) : conversation :=
  {| _response := _response c; outputs := (outputs c ++ [o])%list |}.

(** What happens during one call of [__get_response]: the conversation
    handler is called with utterances, or the timeout passes, or
    [self._response] is set from outside. *)
Inductive listening : Type :=
  | Heard (utterances : list string)
  | TimedOut
  | Overridden (v : option string).

Definition __get_response (ev : listening) (c : conversation)
    : option string * conversation :=
  let c := out MakeActive c in
  match ev with
  | Heard utterances => (head utterances, c)
  | TimedOut => (None, c)
  | Overridden v =>
      let c := set_response (Given v) c in
      (v, match v with None => out (Debug "get_response aborted") c | Some _ => c end)
  end.

Definition _handle_killed_wait_response (c : conversation) : conversation :=
  set_response (Given None) c.

(** The loop of [_real_wait_response], one round for each call of
    [__get_response]; [None] when the rounds given do not end it. *)
Fixpoint real_wait_loop (events : list listening) (num_fails : Z)
    (c : conversation) : option conversation :=
  match _response c with
  | Given _ => Some c
  | Unset =>
      match events with
      | [] => None
      | ev :: events' =>
          let '(response, c) := __get_response ev c in
          let next (c : conversation) : option conversation :=
            let num_fails := (num_fails + 1)%Z in
            if ((0 <? num_retries)%Z && (num_retries <? num_fails)%Z)
               || negb (is_unset (_response c))
            then Some (set_response (Given None) c)
            else
              let line := on_fail response in
              let c :=
                match line with
                | Some text =>
                    if truthy line then out (Speak text) c else out Listen c
                | None => out Listen c
                end in
              real_wait_loop events' num_fails c in
          match response with
          | None =>
              let num_none_fails :=
                if (num_retries <? 0)%Z then 1%Z else num_retries in
              if (num_none_fails <=? num_fails)%Z
              then Some (set_response (Given None) c)
              else next c
          | Some r =>
              if validator r then Some (set_response (Given (Some r)) c)
              else if is_cancel r then Some (set_response (Given None) c)
              else next c
          end
      end
  end.

Definition _real_wait_response (events : list listening) (c : conversation)
    : option conversation :=
  real_wait_loop events 0 c.

(** [_wait_response]: the slot is reset, the loop runs, and the slot is
    returned once it is no longer [False]. *)
Definition _wait_response (events : list listening) (c : conversation)
    : option (option string * conversation) :=
  match _real_wait_response events (set_response Unset c) with
  | Some c' =>
      match _response c' with
      | Given v => Some (v, c')
      | Unset => None
      end
  | None => None
  end.

End Response.

End OVOSSkill.

(** ** Notions used to state the properties of class resolution *)

(** A candidate is maximal when no other candidate is a subclass of it. *)
Definition maximal (candidates : list pyclass) (c : pyclass) : bool :=
  negb (existsb (fun d => negb (class_is d c) && issubclass d c) candidates).

Definition occurrences (x : pyclass) (l : list pyclass) : nat :=
  length (List.filter (fun y => class_is y x) l).

Definition max_depth (l : list pyclass) : nat :=
  foldr (fun x acc => Nat.max (depth x) acc) 0 l.

(** ** Notions used to state the properties of the module loader *)

(** The keys of [sys.modules] that belong to a module: its own name and
    every name under it. *)
Definition in_namespace (module_name k : string) : bool :=
  String.eqb k module_name || startswith k (module_name ++ ".").

(** The module cache the source is executed against by
    [load_skill_module]: purged, with the new empty module registered. *)
Definition cache_at_exec (module_name : string) (w : world)
    : gmap string pymodule :=
  <[module_name := {| mod_name := module_name; mod_dict := [] |}]>
    (sys_modules (remove_submodule_refs module_name w).2).

(** ** A sample installation: the skill [weather] *)

Module Sample.

Definition attrs_named (name : string) : Skill.t :=
  {| Skill.truth_value := true;
     Skill.is_fully_initialized := None;
     Skill._is_fully_initialized := Some true;
     Skill._startup := Returns tt;
     Skill.default_shutdown := Returns tt;
     Skill.reload_skill := true;
     Skill.name := name;
     Skill.skill_id := "weather";
     Skill.root_dir := "/skills/weather" |}.

Definition class_named (name : string) (bs : list pyclass) : pyclass :=
  PyClass name bs (Returns (attrs_named name)) (Returns (attrs_named name)).

Definition cBaseSkill := class_named "BaseSkill" [].
Definition cMycroftSkill := class_named "MycroftSkill" [cBaseSkill].
Definition cOVOSSkill := class_named "OVOSSkill" [cMycroftSkill].
Definition cFallbackSkill := class_named "FallbackSkill" [cOVOSSkill].
Definition cOVOSFallbackSkill := class_named "OVOSFallbackSkill" [cFallbackSkill].
Definition cUniversalSkill := class_named "UniversalSkill" [cOVOSSkill].

Definition K : SkillBases :=
  {| BaseSkill := cBaseSkill;
     MycroftSkill := cMycroftSkill;
     OVOSSkill := cOVOSSkill;
     OVOSFallbackSkill := cOVOSFallbackSkill;
     OVOSCommonPlaybackSkill := class_named "OVOSCommonPlaybackSkill" [cOVOSSkill];
     CommonQuerySkill := class_named "CommonQuerySkill" [cOVOSSkill];
     ActiveSkill := class_named "ActiveSkill" [cOVOSSkill];
     FallbackSkill := cFallbackSkill;
     UniversalSkill := cUniversalSkill;
     UniversalFallback :=
       class_named "UniversalFallback" [cUniversalSkill; cOVOSFallbackSkill] |}.

(** [class WeatherSkill(OVOSSkill)], with the modern constructor. *)
Definition WeatherSkill : pyclass :=
  PyClass "WeatherSkill" [cOVOSSkill]
          (Returns (attrs_named "WeatherSkill"))
          (Raises (Exception "TypeError")).

(** A local intermediate base and the skill derived from it. *)
Definition LocalBase : pyclass := class_named "LocalBase" [cOVOSSkill].
Definition DerivedSkill : pyclass := class_named "DerivedSkill" [LocalBase].
Definition derived_module : pymodule :=
  {| mod_name := "derived";
     mod_dict := [("OVOSSkill", VClass cOVOSSkill);
                  ("LocalBase", VClass LocalBase);
                  ("helper", VOther);
                  ("DerivedSkill", VClass DerivedSkill)] |}.

(** Two helper modules: the one on disk, and an older one. *)
Definition helpers_on_disk : pymodule :=
  {| mod_name := "weather.helpers"; mod_dict := [("Forecast", VOther)] |}.
Definition helpers_before : pymodule :=
  {| mod_name := "weather.helpers";
     mod_dict := [("Forecast", VOther);
                  ("OldSkill", VClass (class_named "OldSkill" [cOVOSSkill]))] |}.

(** The source of [weather/__init__.py]:
    [from .helpers import *], then the skill class. *)
Definition weather_source : source := fun module_name cache =>
  let helpers := default helpers_on_disk (cache !! (module_name ++ ".helpers")) in
  {| bound := ("OVOSSkill", VClass cOVOSSkill) :: mod_dict helpers
              ++ [("WeatherSkill", VClass WeatherSkill)];
     raised := None;
     imported := [(module_name ++ ".helpers", helpers)] |}.

(** The same file with a syntax defect. *)
Definition broken_source : source := fun _ _ =>
  {| bound := []; raised := Some (Exception "SyntaxError"); imported := [] |}.

Definition main_file : string := "/skills/weather/__init__.py".

(** The file watcher of a process in which every directory exists: it
    raises for a path that is [None] only. *)
Definition watcher (path : option string) : option exn :=
  match path with
  | None => Some (Exception "TypeError")
  | Some _ => None
  end.

Definition process (mods : gmap string pymodule) (src : source)
    (blacklist : option (list string)) : world :=
  {| sys_modules := mods; disk := {[ main_file := src ]};
     FileWatcher := watcher;
     blacklisted_skills := blacklist; debug := false; clock := 0;
     fresh := 0; bus := []; trace := []; log := [] |}.

(** A process that has not loaded the skill yet. *)
Definition w0 : world := process ∅ weather_source None.

(** A process whose module cache holds an older version of the skill. *)
Definition w_stale : world :=
  process {[ "weather" := {| mod_name := "weather";
                             mod_dict := mod_dict helpers_before |};
             "weather.helpers" := helpers_before ]}
          weather_source None.

Definition w_broken : world := process ∅ broken_source None.

Definition l0 : SkillLoader := __init__ (Some "/skills/weather") None.

(** A plugin loader that was handed a class. *)
Definition plugin_loader (c : pyclass) : SkillLoader :=
  set__skill_class (Some (CClass c)) (__init__ None (Some "weather")).

(** A class whose constructor takes no keyword arguments and is
    interrupted when called without. *)
Definition InterruptedSkill : pyclass :=
  PyClass "InterruptedSkill" [cOVOSSkill]
          (Raises (Exception "TypeError"))
          (Raises (BaseException "KeyboardInterrupt")).

(** A class whose objects have neither initialisation flag. *)
Definition bare_attrs : Skill.t :=
  {| Skill.truth_value := true;
     Skill.is_fully_initialized := None;
     Skill._is_fully_initialized := None;
     Skill._startup := Returns tt;
     Skill.default_shutdown := Returns tt;
     Skill.reload_skill := true;
     Skill.name := "BareSkill";
     Skill.skill_id := "weather";
     Skill.root_dir := "/skills/weather" |}.
Definition BareSkill : pyclass :=
  PyClass "BareSkill" [] (Returns bare_attrs) (Returns bare_attrs).

(** A loader holding an instance that does not permit reloading. *)
Definition pinned : live :=
  {| oid := 0;
     obj := {| class_of := WeatherSkill;
               attrs := {| Skill.truth_value := true;
                           Skill.is_fully_initialized := None;
                           Skill._is_fully_initialized := Some true;
                           Skill._startup := Returns tt;
                           Skill.default_shutdown := Returns tt;
                           Skill.reload_skill := false;
                           Skill.name := "WeatherSkill";
                           Skill.skill_id := "weather";
                           Skill.root_dir := "/skills/weather" |} |} |}.
Definition l_pinned : SkillLoader :=
  set_loaded (Some true) (set_instance (Some pinned) l0).





(** The state after the first [load] of the skill. *)
Definition after_load : state := (load K (l0, w0)).2.
Definition l_loaded : SkillLoader := after_load.1.
Definition w_loaded : world := after_load.2.

(** The blacklist of a process is replaced. *)
Definition configure (blacklist : option (list string)) (w : world) : world :=
  {| sys_modules := sys_modules w; disk := disk w;
     FileWatcher := FileWatcher w;
     blacklisted_skills := blacklist; debug := debug w; clock := clock w;
     fresh := fresh w; bus := bus w; trace := trace w; log := log w |}.

End Sample.

(** ** Notions used to state the properties of the loader *)

(** What an object says about its initialisation, as the loader reads it:
    [is_fully_initialized] when it has the attribute, else
    [_is_fully_initialized]; [None] when it has neither. *)
Definition reports_initialized (a : Skill.t) : option bool :=
  match Skill.is_fully_initialized a with
  | Some b => Some b
  | None => Skill._is_fully_initialized a
  end.

(** The keys of a message payload. *)
Definition payload_keys (m : Message) : list string := map fst (data m).

(** The calls made while instantiating a skill. *)
Definition is_instantiation (e : effect) : bool :=
  match e with
  | Construct _ _ | Created _ | Startup _ => true
  | _ => false
  end.

(** The execution of a source file. *)
Definition is_module_execution (e : effect) : bool :=
  match e with
  | ExecModule _ _ => true
  | _ => false
  end.

(** The value of the property [is_blacklisted]. *)
Definition blacklisted (l : SkillLoader) (w : world) : bool :=
  match skill_id l with
  | Some id => existsb (String.eqb id) (default [] (blacklisted_skills w))
  | None => false
  end.

(** The two status messages of a load. *)
Definition loaded_message (l : SkillLoader) (i : live) : Message :=
  {| msg_type := "mycroft.skills.loaded";
     data := [("path", skill_directory l); ("id", skill_id l);
              ("name", Some (Skill.name (attrs (obj i))))] |}.
Definition failure_message (l : SkillLoader) : Message :=
  {| msg_type := "mycroft.skills.loading_failure";
     data := [("path", skill_directory l); ("id", skill_id l)] |}.

(** The calls that concern the watcher. *)
Definition is_watcher_start (e : effect) : bool :=
  match e with
  | WatcherStart _ _ => true
  | _ => false
  end.
Definition is_shutdown (e : effect) : bool :=
  match e with
  | Shutdown _ => true
  | _ => false
  end.

(** The calls a load makes before it reports. *)
Definition is_load_step (e : effect) : bool :=
  is_module_execution e || is_instantiation e.

(** The message that ends an unload. *)
Definition shutdown_message (l : SkillLoader) : Message :=
  {| msg_type := "mycroft.skills.shutdown";
     data := [("path", skill_directory l); ("id", skill_id l)] |}.

(** Whether a name contains a path separator. *)
Fixpoint has_slash (s : string) : bool :=
  match s with
  | EmptyString => false
  | String c s' => Ascii.eqb c "/"%char || has_slash s'
  end.

(** Whether a name contains a dot. *)
Fixpoint has_dot (s : string) : bool :=
  match s with
  | EmptyString => false
  | String c s' => Ascii.eqb c "."%char || has_dot s'
  end.

(** The status message of the load that left the loader [l]. *)
Definition status_reported (l : SkillLoader) (before after : list Message) : Prop :=
  if default false (_loaded l)
  then exists i, instance l = Some i
         /\ after = (before ++ [loaded_message l i])%list
  else instance l = None
       /\ after = (before ++ [failure_message l])%list.

(** ** Notions used to state the properties of [OVOSSkill] *)

(** An answer that is neither accepted nor a cancellation. *)
Definition rejected (is_cancel validator : string -> bool)
    (ev : OVOSSkill.listening) : Prop :=
  exists u us,
    ev = OVOSSkill.Heard (u :: us) /\ validator u = false /\ is_cancel u = false.
(** An induction principle that reaches the bases of a class. *)
Lemma pyclass_rect' (P : pyclass -> Prop)
    (step : forall n bs m l, Forall P bs -> P (PyClass n bs m l)) :
  forall c, P c.
Proof.
  fix IH 1. intros [n bs m l]. apply step.
  induction bs as [|b bs IHbs]; constructor; [apply IH | exact IHbs].
Qed.

Lemma option_eqb_spec {A} (eqb : A -> A -> bool) :
  (forall a b, eqb a b = true <-> a = b) ->
  forall x y, option_eqb eqb x y = true <-> x = y.
Proof.
  intros H [a|] [b|]; simpl; rewrite ?H; split; congruence.
Qed.

Lemma bool_eqb_spec (a b : bool) : Bool.eqb a b = true <-> a = b.
Proof. destruct a, b; simpl; split; congruence. Qed.

Lemma exn_eqb_spec (x y : exn) : exn_eqb x y = true <-> x = y.
Proof.
  destruct x, y; simpl; rewrite ?String.eqb_eq; split; congruence.
Qed.

Lemma outcome_eqb_spec {A} (eqb : A -> A -> bool) :
  (forall a b, eqb a b = true <-> a = b) ->
  forall x y, outcome_eqb eqb x y = true <-> x = y.
Proof.
  intros H [a|e] [b|f]; simpl; rewrite ?H, ?exn_eqb_spec; split; congruence.
Qed.

Lemma unit_eqb_spec (a b : unit) : unit_eqb a b = true <-> a = b.
Proof. destruct a, b; split; reflexivity. Qed.

Lemma attrs_eqb_spec (x y : Skill.t) : attrs_eqb x y = true <-> x = y.
Proof.
  destruct x, y; unfold attrs_eqb; simpl.
  rewrite !andb_true_iff, !(option_eqb_spec _ bool_eqb_spec),
    !(outcome_eqb_spec _ unit_eqb_spec), !bool_eqb_spec, !String.eqb_eq.
  split; [intros [[[[[[[[-> ->] ->] ->] ->] ->] ->] ->] ->]; reflexivity|].
  intros H; injection H; intros; subst; repeat split.
Qed.

Lemma class_is_spec : forall a b, class_is a b = true <-> a = b.
Proof.
  induction a as [n1 bs1 m1 l1 IH] using pyclass_rect'.
  intros [n2 bs2 m2 l2]. simpl.
  rewrite !andb_true_iff, String.eqb_eq,
    !(outcome_eqb_spec _ attrs_eqb_spec).
  assert (Hbs : forall ys,
    (fix all2 (xs ys : list pyclass) {struct xs} : bool :=
       match xs, ys with
       | [], [] => true
       | x :: xs', y :: ys' => class_is x y && all2 xs' ys'
       | _, _ => false
       end) bs1 ys = true <-> bs1 = ys).
  { induction IH as [|x xs Hx _ IHxs]; intros [|y ys]; try (split; congruence).
    rewrite andb_true_iff, Hx, IHxs. split; [intros [-> ->]; reflexivity|].
    intros H; injection H; auto. }
  rewrite Hbs. split; [intros [[[-> ->] ->] ->]; reflexivity|].
  intros H; injection H; intros; subst; auto.
Qed.

Lemma class_is_refl a : class_is a a = true.
Proof. apply class_is_spec; reflexivity. Qed.

Lemma class_is_false a b : class_is a b = false <-> a <> b.
Proof.
  rewrite <- class_is_spec. destruct (class_is a b); split; congruence.
Qed.

Lemma issubclass_unfold a b :
  issubclass a b = class_is a b || existsb (fun x => issubclass x b) (bases a).
Proof.
  destruct a as [n bs m l]. reflexivity.
Qed.

Lemma issubclass_refl a : issubclass a a = true.
Proof. rewrite issubclass_unfold, class_is_refl. reflexivity. Qed.

Lemma issubclass_trans : forall a b c,
  issubclass a b = true -> issubclass b c = true -> issubclass a c = true.
Proof.
  induction a as [n bs m l IH] using pyclass_rect'. intros b c Hab Hbc.
  rewrite issubclass_unfold in Hab. apply orb_true_iff in Hab as [Hab|Hab].
  - apply class_is_spec in Hab. now subst.
  - rewrite issubclass_unfold. apply orb_true_iff. right.
    simpl in *. apply existsb_exists in Hab as (x & Hx & Hxb).
    apply existsb_exists. exists x. split; [assumption|].
    rewrite Forall_forall in IH.
    apply (IH x (proj2 (list_elem_of_In _ _) Hx) b c Hxb Hbc).
Qed.

Lemma depth_unfold a :
  depth a = S (foldr (fun x acc => Nat.max (depth x) acc) 0 (bases a)).
Proof.
  destruct a as [n bs m l]. reflexivity.
Qed.

Lemma depth_base x bs :
  In x bs -> depth x <= foldr (fun x acc => Nat.max (depth x) acc) 0 bs.
Proof.
  induction bs as [|y ys IH]; simpl; [tauto|]. intros [->|H]; [lia|].
  specialize (IH H). lia.
Qed.

(** A proper subclass lies strictly deeper than its superclass. *)
Lemma issubclass_depth : forall a b,
  issubclass a b = true -> a = b \/ depth b < depth a.
Proof.
  induction a as [n bs m l IH] using pyclass_rect'. intros b Hab.
  rewrite issubclass_unfold in Hab. apply orb_true_iff in Hab as [Hab|Hab].
  - left. now apply class_is_spec.
  - right. simpl bases in Hab. apply existsb_exists in Hab as (x & Hx & Hxb).
    rewrite Forall_forall in IH.
    assert (Hd : depth b <= depth x).
    { destruct (IH x (proj2 (list_elem_of_In _ _) Hx) b Hxb) as [->|]; lia. }
    rewrite (depth_unfold (PyClass n bs m l)). simpl bases.
    pose proof (depth_base x bs Hx). lia.
Qed.

Lemma issubclass_antisym a b :
  issubclass a b = true -> issubclass b a = true -> a = b.
Proof.
  intros Hab Hba.
  destruct (issubclass_depth _ _ Hab) as [|H1]; [assumption|].
  destruct (issubclass_depth _ _ Hba) as [|H2]; [congruence|]. lia.
Qed.

Lemma maximal_false C x :
  maximal C x = false ->
  exists d, In d C /\ d <> x /\ issubclass d x = true.
Proof.
  unfold maximal. intros H. apply negb_false_iff, existsb_exists in H.
  destruct H as (d & Hd & H). apply andb_true_iff in H as [H1 H2].
  exists d. repeat split; [assumption| |assumption].
  apply class_is_false. now apply negb_true_iff.
Qed.

Lemma maximal_true C x d :
  maximal C x = true -> In d C -> issubclass d x = true -> d = x.
Proof.
  unfold maximal. intros H Hd Hs. apply negb_true_iff in H.
  destruct (class_is d x) eqn:E; [now apply class_is_spec|].
  exfalso. rewrite <- not_true_iff_false in H. apply H.
  apply existsb_exists. exists d. rewrite E, Hs. auto.
Qed.

(** Every candidate has a maximal candidate among its subclasses. *)
Lemma maximal_exists C : forall k x,
  max_depth C - depth x <= k -> In x C ->
  exists y, In y C /\ maximal C y = true /\ issubclass y x = true.
Proof.
  induction k as [|k IH]; intros x Hk Hx.
  - destruct (maximal C x) eqn:E.
    { exists x. auto using issubclass_refl. }
    apply maximal_false in E as (d & Hd & Hne & Hs).
    pose proof (depth_base d C Hd) as Hb. fold (max_depth C) in Hb.
    destruct (issubclass_depth _ _ Hs); [congruence|lia].
  - destruct (maximal C x) eqn:E.
    { exists x. auto using issubclass_refl. }
    apply maximal_false in E as (d & Hd & Hne & Hs).
    pose proof (depth_base d C Hd) as Hb. fold (max_depth C) in Hb.
    destruct (issubclass_depth _ _ Hs) as [|Hlt]; [congruence|].
    destruct (IH d ltac:(lia) Hd) as (y & Hy & Hmax & Hyd).
    exists y. eauto using issubclass_trans.
Qed.

Lemma maximal_above C x :
  In x C -> maximal C x = false ->
  exists y, In y C /\ maximal C y = true /\ y <> x /\ issubclass y x = true.
Proof.
  intros Hx E. apply maximal_false in E as (d & Hd & Hne & Hs).
  destruct (maximal_exists C _ d (le_n _) Hd) as (y & Hy & Hmax & Hyd).
  exists y. repeat split; eauto using issubclass_trans.
  intros ->. apply Hne. now apply issubclass_antisym.
Qed.

Lemma occurrences_In x l : In x l <-> 0 < occurrences x l.
Proof.
  unfold occurrences. induction l as [|y l IH]; simpl; [split; [tauto|lia]|].
  destruct (class_is y x) eqn:E; simpl.
  - apply class_is_spec in E. split; [lia|auto].
  - apply class_is_false in E. rewrite <- IH. split; [intros [|]; congruence|auto].
Qed.

Lemma occurrences_cons x y l :
  occurrences x (y :: l) = (if class_is y x then 1 else 0) + occurrences x l.
Proof. unfold occurrences. simpl. destruct (class_is y x); reflexivity. Qed.

Lemma list_remove_Some x l :
  In x l -> exists l', list_remove x l = Some l'.
Proof.
  induction l as [|y l IH]; simpl; [tauto|]. intros H.
  destruct (class_is y x) eqn:E; [eauto|].
  apply class_is_false in E. destruct H as [|H]; [congruence|].
  destruct (IH H) as [l' ->]. eauto.
Qed.

Lemma list_remove_In x l l' z :
  list_remove x l = Some l' -> In z l' -> In z l.
Proof.
  revert l'. induction l as [|y l IH]; simpl; intros l'; [congruence|].
  destruct (class_is y x); [intros [= ->]; auto|].
  destruct (list_remove x l); [|congruence]. intros [= <-] [|]; eauto.
Qed.

Lemma list_remove_filter (f : pyclass -> bool) x l l' :
  list_remove x l = Some l' -> f x = false ->
  List.filter f l' = List.filter f l.
Proof.
  revert l'. induction l as [|y l IH]; simpl; intros l'; [congruence|].
  destruct (class_is y x) eqn:E.
  - apply class_is_spec in E as ->. intros [= ->] ->. reflexivity.
  - destruct (list_remove x l); [|congruence]. intros [= <-] Hf. simpl.
    now rewrite (IH _ eq_refl Hf).
Qed.

Lemma list_remove_occurrences x l l' z :
  list_remove x l = Some l' ->
  occurrences z l = (if class_is x z then 1 else 0) + occurrences z l'.
Proof.
  revert l'. induction l as [|y l IH]; simpl; intros l'; [congruence|].
  destruct (class_is y x) eqn:E.
  - apply class_is_spec in E as ->. intros [= ->]. apply occurrences_cons.
  - destruct (list_remove x l); [|congruence]. intros [= <-].
    rewrite !occurrences_cons, (IH _ eq_refl). lia.
Qed.

Lemma filter_all (f : pyclass -> bool) l :
  (forall x, In x l -> f x = true) -> List.filter f l = l.
Proof.
  induction l as [|y l IH]; simpl; intros H; [reflexivity|].
  rewrite (H y (or_introl eq_refl)), IH; auto.
Qed.

(** The loop invariant of [discard_supertypes]: the maximal candidates are
    all still there, and each other candidate is there as often as it is
    still to be visited. *)
Lemma discard_supertypes_inv C : forall todo cur,
  (forall x, In x cur -> In x C) ->
  (forall x, In x todo -> In x C) ->
  List.filter (maximal C) cur = List.filter (maximal C) C ->
  (forall x, maximal C x = false -> occurrences x cur = occurrences x todo) ->
  discard_supertypes todo cur = Some (List.filter (maximal C) C).
Proof.
  induction todo as [|x todo IH]; intros cur Hcur Htodo Hmax Hocc; simpl.
  - rewrite <- Hmax, filter_all; [reflexivity|].
    intros x Hx. destruct (maximal C x) eqn:E; [reflexivity|].
    apply occurrences_In in Hx. rewrite (Hocc x E) in Hx.
    unfold occurrences in Hx. simpl in Hx. lia.
  - destruct (maximal C x) eqn:E.
    + assert (Hno : existsb (fun clazz => issubclass clazz x)
                (List.filter (fun clazz => negb (class_is clazz x)) cur) = false).
      { apply not_true_iff_false. intros H.
        apply existsb_exists in H as (z & Hz & Hs).
        apply filter_In in Hz as [Hz Hne].
        apply negb_true_iff, class_is_false in Hne.
        apply Hne, (maximal_true C); auto. }
      rewrite Hno. apply IH; auto.
      * intros y Hy. apply Htodo. now right.
      * intros y Hy. rewrite (Hocc y Hy), occurrences_cons.
        destruct (class_is x y) eqn:Exy; [|reflexivity].
        apply class_is_spec in Exy. congruence.
    + assert (Hx : In x C) by (apply Htodo; now left).
      destruct (maximal_above C x Hx E) as (y & Hy & Hymax & Hne & Hs).
      assert (Hyes : existsb (fun clazz => issubclass clazz x)
                (List.filter (fun clazz => negb (class_is clazz x)) cur) = true).
      { apply existsb_exists. exists y. split; [|assumption].
        apply filter_In. split.
        - assert (In y (List.filter (maximal C) cur)) as Hin.
          { rewrite Hmax. apply filter_In. auto. }
          now apply filter_In in Hin as [? _].
        - now apply negb_true_iff, class_is_false. }
      rewrite Hyes.
      assert (Hin : In x cur).
      { apply occurrences_In. rewrite (Hocc x E), occurrences_cons, class_is_refl. lia. }
      destruct (list_remove_Some x cur Hin) as [cur' Hrm]. rewrite Hrm.
      apply IH.
      * intros z Hz. eauto using list_remove_In.
      * intros z Hz. apply Htodo. now right.
      * now rewrite (list_remove_filter _ _ _ _ Hrm E).
      * intros z Hz. pose proof (Hocc z Hz) as Ho.
        rewrite (list_remove_occurrences _ _ _ z Hrm), occurrences_cons in Ho. lia.
Qed.

(** The second loop never raises, and keeps exactly the maximal candidates,
    in their order. *)
Lemma discard_supertypes_maximal C :
  discard_supertypes C C = Some (List.filter (maximal C) C).
Proof. apply discard_supertypes_inv; auto. Qed.

Lemma maximal_nonempty C : C <> [] -> List.filter (maximal C) C <> [].
Proof.
  destruct C as [|x C']; [congruence|]. intros _ H.
  destruct (maximal_exists (x :: C') _ x (le_n _) (or_introl eq_refl))
    as (y & Hy & Hmax & _).
  assert (In y (List.filter (maximal (x :: C')) (x :: C'))) as Hin
    by (apply filter_In; auto).
  rewrite H in Hin. destruct Hin.
Qed.

(** ** The module loader *)

(** Unfolds the operations of the monad, so that a run computes. *)
Ltac run_monad :=
  unfold mbind, mret, M_bind, M_ret, raise, get, modify, try_except,
    of_outcome, lift, self, update, LOG, call, emit, new_id, time;
  cbn.

Tactic Notation "run_monad" "in" hyp(H) :=
  unfold mbind, mret, M_bind, M_ret, raise, get, modify, try_except,
    of_outcome, lift, self, update, LOG, call, emit, new_id, time in H;
  cbn in H.

Lemma set_log_set_log a b w : set_log a (set_log b w) = set_log a w.
Proof. reflexivity. Qed.

(** Class resolution on a module: the first of the maximal candidates, with
    a warning when there are several. *)
Lemma get_skill_class_module K m w :
  get_skill_class K (IsModule m) w =
    let candidates := scan K (mod_dict m) in
    match List.filter (maximal candidates) candidates with
    | [] => (Returns None, w)
    | c :: rest =>
        (Returns (Some (CClass c)),
         set_log (log w
                  ++ match rest with
                     | [] => []
                     | _ => [(WARNING, "Multiple skills found in a single file!")]
                     end
                  ++ [(DEBUG, "Loading skill class")]) w)
    end.
Proof.
  unfold get_skill_class. rewrite discard_supertypes_maximal. cbn zeta.
  destruct (List.filter _ _) as [|c [|d rest]]; try reflexivity.
  run_monad. unfold set_log; cbn. now rewrite <- ?app_assoc.
Qed.

Lemma del_all_lookup ks : forall (mods : gmap string pymodule) k,
  del_all ks mods !! k = if decide (k ∈ ks) then None else mods !! k.
Proof.
  unfold del_all. induction ks as [|x ks IH]; intros mods k; cbn [foldl].
  - destruct (decide (k ∈ [])) as [H|_]; [|reflexivity].
    now apply elem_of_nil in H.
  - rewrite IH. destruct (decide (x = k)) as [->|Hne].
    + rewrite lookup_delete_eq.
      destruct (decide (k ∈ ks)), (decide (k ∈ k :: ks)) as [|Hn];
        try reflexivity; exfalso; apply Hn; left.
    + rewrite (lookup_delete_ne _ _ _ Hne).
      destruct (decide (k ∈ ks)) as [Hin|Hin],
               (decide (k ∈ x :: ks)) as [Hin'|Hin']; try reflexivity.
      * exfalso. apply Hin'. now right.
      * exfalso. apply elem_of_cons in Hin' as [->|]; [now apply Hne|now apply Hin].
Qed.

Lemma collect_submodules_elem module_name (mods : gmap string pymodule) k :
  k ∈ collect_submodules module_name mods <->
  is_Some (mods !! k) /\ startswith k (module_name ++ ".") = true.
Proof.
  unfold collect_submodules. rewrite list_elem_of_In, filter_In, <- list_elem_of_In.
  rewrite list_elem_of_fmap. split.
  - intros [((k' & v) & -> & Hin) Hs]. split; [|assumption].
    apply elem_of_map_to_list in Hin. eauto.
  - intros [[v Hv] Hs]. split; [|assumption].
    exists (k, v). split; [reflexivity|]. now apply elem_of_map_to_list.
Qed.

(** After the purge, no key under [module_name.] is left, and every other
    key is as before. *)
Lemma remove_submodule_refs_lookup module_name w k :
  sys_modules (remove_submodule_refs module_name w).2 !! k =
    if startswith k (module_name ++ ".") then None else sys_modules w !! k.
Proof.
  unfold remove_submodule_refs. run_monad. rewrite del_all_lookup. case_decide as H.
  - apply collect_submodules_elem in H as [_ ->]. reflexivity.
  - destruct (startswith k (module_name ++ ".")) eqn:E; [|reflexivity].
    destruct (sys_modules w !! k) eqn:El; [|reflexivity].
    exfalso. apply H, collect_submodules_elem. eauto.
Qed.

Lemma startswith_self_dot s : startswith s (s ++ ".") = false.
Proof.
  unfold startswith. induction s as [|c s IH]; [reflexivity|].
  change (String c s +:+ ".") with (String c (s +:+ ".")). cbn.
  destruct (Ascii.ascii_dec c c); [assumption|congruence].
Qed.

Lemma in_namespace_false module_name k :
  in_namespace module_name k = false <->
  k <> module_name /\ startswith k (module_name ++ ".") = false.
Proof.
  unfold in_namespace. rewrite orb_false_iff, String.eqb_neq. reflexivity.
Qed.

Lemma cache_at_exec_lookup module_name w k :
  cache_at_exec module_name w !! k =
    if String.eqb k module_name
    then Some {| mod_name := module_name; mod_dict := [] |}
    else if startswith k (module_name ++ ".") then None
    else sys_modules w !! k.
Proof.
  unfold cache_at_exec. destruct (String.eqb_spec k module_name) as [->|Hne].
  - apply lookup_insert_eq.
  - rewrite lookup_insert_ne by congruence.
    apply remove_submodule_refs_lookup.
Qed.

Lemma imported_lookup (l : list (string * pymodule)) :
  forall (c : gmap string pymodule) k v,
  foldl (fun acc km => <[km.1 := km.2]> acc) c l !! k = Some v ->
  (k, v) ∈ l \/ c !! k = Some v.
Proof.
  induction l as [|[k' v'] l IH]; intros c k v H; cbn [foldl] in H; [now right|].
  apply IH in H as [H|H]; [left; now right|].
  cbn in H. destruct (decide (k' = k)) as [->|Hne].
  - rewrite lookup_insert_eq in H. injection H as ->. left. left.
  - rewrite lookup_insert_ne in H by assumption. now right.
Qed.

(** What [load_skill_module] computes when the file is there. *)
Lemma load_skill_module_eq path id w src :
  disk w !! path = Some src ->
  let module_name := replace_dots id in
  let r := src module_name (cache_at_exec module_name w) in
  let m := {| mod_name := module_name; mod_dict := bound r |} in
  (load_skill_module path (Some id) w).1 =
    match raised r with None => Returns m | Some e => Raises e end
  /\ sys_modules (load_skill_module path (Some id) w).2 =
       <[module_name := m]>
         (foldl (fun acc km => <[km.1 := km.2]> acc)
                (cache_at_exec module_name w) (imported r))
  /\ trace (load_skill_module path (Some id) w).2 =
       (trace w ++ [ExecModule module_name path])%list.
Proof.
  intros Hdisk. unfold load_skill_module, exec_module, cache_at_exec,
    remove_submodule_refs. run_monad. rewrite Hdisk. cbn.
  destruct (raised _); cbn; auto.
Qed.

Lemma load_skill_module_missing path id w :
  disk w !! path = None ->
  (load_skill_module path (Some id) w).1 = Raises (Exception "FileNotFoundError")
  /\ sys_modules (load_skill_module path (Some id) w).2 =
       cache_at_exec (replace_dots id) w.
Proof.
  intros Hdisk. unfold load_skill_module, exec_module, cache_at_exec,
    remove_submodule_refs. run_monad. unfold source in *.
  rewrite Hdisk. cbn. auto.
Qed.

(** C2: loading a skill module first purges every [sys.modules] entry under
    the module's name, then executes the source found on disk against the
    purged cache (in which the new, empty module is registered under the
    name) and leaves the executed module registered under the name; every
    entry under the name that is left was imported by this execution; and
    the outcome does not depend on what was cached under the name before,
    so that a reload never resolves what only the previous version
    defined. *)
Theorem load_skill_module_purges_and_reloads (path id : string) :
  let module_name := replace_dots id in
  let load := load_skill_module path (Some id) in
  (forall w k, startswith k (module_name ++ ".") = true ->
     sys_modules (remove_submodule_refs module_name w).2 !! k = None)
  /\ (forall w src, disk w !! path = Some src ->
      exists cache : gmap string pymodule,
        (forall k, startswith k (module_name ++ ".") = true -> cache !! k = None)
        /\ cache !! module_name = Some {| mod_name := module_name; mod_dict := [] |}
        /\ (forall k, in_namespace module_name k = false ->
              cache !! k = sys_modules w !! k)
        /\ let r := src module_name cache in
           let m := {| mod_name := module_name; mod_dict := bound r |} in
           (load w).1 = match raised r with None => Returns m | Some e => Raises e end
           /\ sys_modules (load w).2 !! module_name = Some m
           /\ (forall k m', startswith k (module_name ++ ".") = true ->
                 sys_modules (load w).2 !! k = Some m' -> (k, m') ∈ imported r)
           /\ trace (load w).2 = (trace w ++ [ExecModule module_name path])%list)
  /\ (forall w1 w2, disk w1 !! path = disk w2 !! path ->
      (forall k, in_namespace module_name k = false ->
         sys_modules w1 !! k = sys_modules w2 !! k) ->
      (load w1).1 = (load w2).1
      /\ sys_modules (load w1).2 = sys_modules (load w2).2).
Proof.
  intros module_name load. split; [|split].
  - intros w k Hk. rewrite remove_submodule_refs_lookup, Hk. reflexivity.
  - intros w src Hdisk. exists (cache_at_exec module_name w).
    destruct (load_skill_module_eq path id w src Hdisk) as (Hr & Hm & Ht).
    fold module_name in Hr, Hm, Ht. fold load in Hr, Hm, Ht.
    split; [|split; [|split; [|split; [|split; [|split]]]]].
    + intros k Hk. rewrite cache_at_exec_lookup, Hk.
      destruct (String.eqb_spec k module_name) as [->|]; [|reflexivity].
      now rewrite startswith_self_dot in Hk.
    + now rewrite cache_at_exec_lookup, String.eqb_refl.
    + intros k Hk. apply in_namespace_false in Hk as [Hne Hk].
      rewrite cache_at_exec_lookup, Hk.
      now destruct (String.eqb_spec k module_name).
    + exact Hr.
    + rewrite Hm. apply lookup_insert_eq.
    + intros k m' Hk Hl. rewrite Hm in Hl.
      assert (k <> module_name) as Hne
        by (intros ->; now rewrite startswith_self_dot in Hk).
      rewrite lookup_insert_ne in Hl by congruence.
      apply imported_lookup in Hl as [Hl|Hl]; [assumption|].
      rewrite cache_at_exec_lookup, Hk in Hl.
      now destruct (String.eqb_spec k module_name).
    + exact Ht.
  - intros w1 w2 Hdisk Hagree.
    assert (Hcache : cache_at_exec module_name w1 = cache_at_exec module_name w2).
    { apply map_eq. intros k. rewrite !cache_at_exec_lookup.
      destruct (String.eqb_spec k module_name) as [|Hne]; [reflexivity|].
      destruct (startswith k (module_name ++ ".")) eqn:Hk; [reflexivity|].
      apply Hagree, in_namespace_false. auto. }
    subst load. destruct (disk w1 !! path) as [src|] eqn:Hd1.
    + symmetry in Hdisk.
      destruct (load_skill_module_eq path id w1 src Hd1) as (Hr1 & Hm1 & _).
      destruct (load_skill_module_eq path id w2 src Hdisk) as (Hr2 & Hm2 & _).
      fold module_name in Hr1, Hm1, Hr2, Hm2.
      rewrite Hr1, Hr2, Hm1, Hm2, Hcache. auto.
    + symmetry in Hdisk.
      destruct (load_skill_module_missing path id w1 Hd1) as (Hr1 & Hm1).
      destruct (load_skill_module_missing path id w2 Hdisk) as (Hr2 & Hm2).
      fold module_name in Hm1, Hm2.
      rewrite Hr1, Hr2, Hm1, Hm2, Hcache. auto.
Qed.

(** The sample skill, loaded in a process whose cache still holds the
    previous version (with a class [OldSkill] in its helper module), gives
    what it gives in a process that never loaded it. *)
Lemma load_skill_module_purges_and_reloads_witness :
  (load_skill_module Sample.main_file (Some "weather") Sample.w_stale).1 =
  (load_skill_module Sample.main_file (Some "weather") Sample.w0).1
  /\ sys_modules (load_skill_module Sample.main_file (Some "weather") Sample.w_stale).2 =
     sys_modules (load_skill_module Sample.main_file (Some "weather") Sample.w0).2.
Proof.
  pose proof (load_skill_module_purges_and_reloads Sample.main_file "weather") as H.
  cbv zeta in H. destruct H as (_ & _ & H). apply H.
  - reflexivity.
  - intros k Hk. apply in_namespace_false in Hk as [Hne Hpre].
    change (replace_dots "weather") with "weather" in *.
    unfold Sample.w_stale, Sample.w0, Sample.process. cbn [sys_modules].
    rewrite lookup_insert_ne by congruence.
    apply lookup_insert_ne. intros <-. discriminate Hpre.
Defined.

Example reload_drops_old_definitions :
  (load_skill_module Sample.main_file (Some "weather") Sample.w_stale).1 =
  Returns {| mod_name := "weather";
             mod_dict := [("OVOSSkill", VClass Sample.cOVOSSkill);
                          ("Forecast", VOther);
                          ("WeatherSkill", VClass Sample.WeatherSkill)] |}.
Proof. vm_compute. reflexivity. Qed.

(** ** Class resolution *)

Lemma is_skill_class_spec K c :
  is_skill_class K c = true <->
  (exists b, In b (SKILL_BASE_CLASSES K) /\ issubclass c b = true)
  /\ (forall b, In b (SKILL_BASE_CLASSES K) -> c <> b).
Proof.
  unfold is_skill_class.
  rewrite andb_true_iff, negb_true_iff, existsb_exists,
    <- not_true_iff_false, existsb_exists.
  split; intros [H1 H2]; (split; [exact H1|]).
  - intros b Hb ->. apply H2. exists b. auto using class_is_refl.
  - intros (b & Hb & His). apply class_is_spec in His. now apply (H2 b).
Qed.

Lemma scan_In K items c :
  In c (scan K items) <->
  (exists name, In (name, VClass c) items) /\ is_skill_class K c = true.
Proof.
  induction items as [|[name v] items IH]; cbn [scan].
  - split; [intros []|intros [[? []] _]].
  - destruct v as [obj|f|].
    + destruct (is_skill_class K obj) eqn:E; cbn [In]; rewrite IH.
      * split.
        -- intros [->|[[n Hn] Hc]]; [split; [exists name; now left|assumption]|].
           split; [exists n; now right|assumption].
        -- intros [[n [Hn|Hn]] Hc]; [left; congruence|right; eauto].
      * split.
        -- intros [[n Hn] Hc]. split; [exists n; now right|assumption].
        -- intros [[n [Hn|Hn]] Hc]; [|eauto].
           injection Hn as _ ->. congruence.
    + rewrite IH. split.
      * intros [[n Hn] Hc]. split; [exists n; now right|assumption].
      * intros [[n [Hn|Hn]] Hc]; [discriminate|eauto].
    + rewrite IH. split.
      * intros [[n Hn] Hc]. split; [exists n; now right|assumption].
      * intros [[n [Hn|Hn]] Hc]; [discriminate|eauto].
Qed.

Lemma maximal_spec C c :
  maximal C c = true <->
  forall d, In d C -> d <> c -> issubclass d c = false.
Proof.
  split.
  - intros H d Hd Hne. apply not_true_iff_false. intros Hs.
    apply Hne. eapply maximal_true; eauto.
  - intros H. destruct (maximal C c) eqn:E; [reflexivity|].
    apply maximal_false in E as (d & Hd & Hne & Hs).
    rewrite (H d Hd Hne) in Hs. discriminate.
Qed.

(** C3: class resolution.  A callable is returned unchanged.  For a module,
    the candidates are the classes bound at its top level that subclass a
    skill base class and are none of the base classes; the candidates that
    remain are those without another candidate below them, so a candidate
    with a proper subclass among the candidates is never returned (of a
    base [B] and its subclass [S], [S] wins); the first remaining candidate
    is returned, with a warning when more than one remains; [None] is
    returned exactly when there is no candidate; and no exception is
    raised. *)
Theorem get_skill_class_resolves (K : SkillBases) :
  (forall c w, get_skill_class K (IsCallable c) w = (Returns (Some c), w))
  /\ forall m w,
     let candidates := scan K (mod_dict m) in
     let remaining := List.filter (maximal candidates) candidates in
     let result := get_skill_class K (IsModule m) w in
     (forall c, In c candidates <->
        (exists name, In (name, VClass c) (mod_dict m))
        /\ (exists b, In b (SKILL_BASE_CLASSES K) /\ issubclass c b = true)
        /\ (forall b, In b (SKILL_BASE_CLASSES K) -> c <> b))
     /\ (forall c, In c remaining <->
           In c candidates
           /\ forall d, In d candidates -> d <> c -> issubclass d c = false)
     /\ (forall B S, In B candidates -> In S candidates -> S <> B ->
           issubclass S B = true -> result.1 <> Returns (Some (CClass B)))
     /\ (candidates = [] <-> result.1 = Returns None)
     /\ (candidates = [] -> result = (Returns None, w))
     /\ (candidates <> [] ->
           exists c rest, remaining = c :: rest
             /\ result.1 = Returns (Some (CClass c))
             /\ result.2 =
                  set_log (log w
                           ++ match rest with
                              | [] => []
                              | _ => [(WARNING, "Multiple skills found in a single file!")]
                              end
                           ++ [(DEBUG, "Loading skill class")]) w).
Proof.
  split; [reflexivity|]. intros m w candidates remaining result.
  assert (Hres : result = match remaining with
    | [] => (Returns None, w)
    | c :: rest =>
        (Returns (Some (CClass c)),
         set_log (log w
                  ++ match rest with
                     | [] => []
                     | _ => [(WARNING, "Multiple skills found in a single file!")]
                     end
                  ++ [(DEBUG, "Loading skill class")]) w)
    end) by apply get_skill_class_module.
  assert (Hrem : forall c, In c remaining <->
            In c candidates
            /\ forall d, In d candidates -> d <> c -> issubclass d c = false).
  { intros c. unfold remaining. rewrite filter_In, maximal_spec. reflexivity. }
  assert (Hne : candidates <> [] -> remaining <> []) by apply maximal_nonempty.
  split; [|split; [exact Hrem|split; [|split; [|split]]]].
  - intros c. unfold candidates. rewrite scan_In, is_skill_class_spec. tauto.
  - intros B S HB HS Hneq Hsub Hr. rewrite Hres in Hr.
    destruct remaining as [|c rest] eqn:E; [discriminate|].
    injection Hr as ->.
    assert (In B (B :: rest)) as Hin by now left.
    apply Hrem in Hin as [_ Hmax]. rewrite (Hmax S HS Hneq) in Hsub. discriminate.
  - split.
    + intros Hc. rewrite Hres. unfold remaining. now rewrite Hc.
    + intros Hr. destruct candidates as [|x xs] eqn:E; [reflexivity|].
      exfalso. rewrite Hres in Hr.
      destruct remaining; [apply Hne; congruence|discriminate].
  - intros Hc. rewrite Hres. unfold remaining. now rewrite Hc.
  - intros Hc. specialize (Hne Hc).
    destruct remaining as [|c rest]; [congruence|].
    exists c, rest. rewrite Hres. auto.
Qed.

(** A module with a local base and the skill derived from it: the derived
    class is resolved, without a warning. *)
Lemma get_skill_class_resolves_witness :
  get_skill_class Sample.K (IsModule Sample.derived_module) Sample.w0 =
    (Returns (Some (CClass Sample.DerivedSkill)),
     set_log (log Sample.w0 ++ [(DEBUG, "Loading skill class")]) Sample.w0).
Proof.
  destruct (get_skill_class_resolves Sample.K) as [_ H].
  specialize (H Sample.derived_module Sample.w0). cbv zeta in H.
  destruct H as (_ & _ & _ & _ & _ & H).
  destruct H as (c & rest & Hrem & Hr & Hw); [discriminate|].
  vm_compute in Hrem. injection Hrem as <- <-.
  rewrite (surjective_pairing (get_skill_class _ _ _)), Hr, Hw. reflexivity.
Defined.

(** ** The loader state machine *)

Arguments get_skill_class : simpl never.

Lemma set_log_nil w : set_log (log w ++ []) w = w.
Proof. destruct w. unfold set_log. cbn. now rewrite app_nil_r. Qed.

(** Evaluating the [skill_class] property only logs. *)
Lemma skill_class_returns K l w :
  exists c lg,
    skill_class K (l, w) = (Returns c, (l, set_log (log w ++ lg) w)).
Proof.
  unfold skill_class. run_monad.
  destruct (skill_module l) as [m|], (true_instance l), (_skill_class l); cbn;
    try (eexists _, []; now rewrite set_log_nil).
  rewrite get_skill_class_module. cbv zeta.
  destruct (List.filter _ _); [eexists _, []; now rewrite set_log_nil|].
  cbn. eauto.
Qed.

Arguments skill_class : simpl never.
Arguments load_skill_module : simpl never.


(** ** Instantiation *)

Arguments apply_creator : simpl never.

(** Splits on the next thing the run depends on. *)
Ltac case_step :=
  match goal with
  | |- context [match ?x with _ => _ end] =>
      lazymatch x with
      | context [match _ with _ => _ end] => fail
      | _ => destruct x eqn:?
      end
  end.

Ltac prepare_case :=
  cbn in *; destruct_or?; destruct_and?; simplify_eq/=.

(** Settles one property of one explicit run. *)
Ltac solve_case :=
  unfold not; intros; try discriminate;
  lazymatch goal with
  | |- exists x fr lg, _ = _ /\ _ <= _ =>
      eexists _, _, _; split;
      [unfold set_log, set_trace, set_fresh; cbn;
       rewrite <- ?app_assoc; reflexivity|lia]
  | |- _ \/ _ \/ (exists i, _) =>
      first [left; reflexivity
            |right; left; reflexivity
            |right; right; eexists; split; [reflexivity|cbn; auto 6]]
  | |- exists rest, _ = _ :: rest /\ _ =>
      eexists; split;
      [reflexivity|split; unfold not; intros; prepare_case; eauto; congruence]
  | |- exists i, _ =>
      eexists; split; [reflexivity|split; [cbn; auto 6|cbn; congruence]]
  | |- _ =>
      prepare_case; try done; try congruence; auto 6
  end.

(** The construction step, in full. *)
Lemma construct_run c l w :
  construct c (l, w) =
    match apply_creator c true with
    | Returns o =>
        let i := {| oid := fresh w; obj := o |} in
        (Returns tt,
         (set_instance (Some i) l,
          set_trace (trace w ++ [Construct c true; Created i])
                    (set_fresh (S (fresh w)) w)))
    | Raises _ =>
        match apply_creator c false with
        | Returns o =>
            let i := {| oid := fresh w; obj := o |} in
            (Returns tt,
             (set_instance (Some i) l,
              set_trace (trace w ++ [Construct c true; Construct c false; Created i])
                        (set_fresh (S (fresh w)) w)))
        | Raises e =>
            (Raises e,
             (l, set_trace (trace w ++ [Construct c true; Construct c false]) w))
        end
    end.
Proof.
  unfold construct, invoke. run_monad.
  destruct (apply_creator c true); cbn;
    [|destruct (apply_creator c false); cbn];
    unfold set_trace, set_fresh; cbn; rewrite <- ?app_assoc; reflexivity.
Qed.

(** The initialisation step on a loader that holds an instance. *)
Lemma finish_initialization_run l w i :
  instance l = Some i ->
  finish_initialization (l, w) =
    let a := attrs (obj i) in
    let w1 :=
      set_log (log w ++ match Skill.is_fully_initialized a with
                        | Some _ => [(WARNING, "Deprecated skill signature!")]
                        | None => []
                        end) w in
    match reports_initialized a with
    | None => (Raises (Exception "AttributeError"), (l, w1))
    | Some true => (Returns tt, (l, w1))
    | Some false =>
        (Skill._startup a, (l, set_trace (trace w ++ [Startup (oid i)]) w1))
    end.
Proof.
  intros Hi. unfold finish_initialization, reports_initialized. run_monad.
  rewrite Hi. cbn.
  destruct (Skill.is_fully_initialized (attrs (obj i))) as [[]|]; cbn;
    try reflexivity.
  rewrite set_log_nil.
  destruct (Skill._is_fully_initialized (attrs (obj i))) as [[]|]; reflexivity.
Qed.

Arguments construct : simpl never.
Arguments finish_initialization : simpl never.

Lemma _create_skill_instance_cases (K : SkillBases)
    (arg : option pymodule) (l : SkillLoader) (w : world) :
  let module := match arg with Some m => Some m | None => skill_module l end in
  let run := _create_skill_instance K arg (l, w) in
  exists (creator : option callable) (evs : list effect),
    trace run.2.2 = (trace w ++ evs)%list
    /\ (forall f, get_create_skill_function module = Some f -> creator = Some f)
    /\ (get_create_skill_function module = None ->
        (skill_class K (l, w)).1 = Returns creator)
    /\ (exists rest, evs = Construct creator true :: rest
        /\ (forall o, apply_creator creator true = Returns o ->
              ~ In (Construct creator false) rest)
        /\ (forall e, apply_creator creator true = Raises e ->
              exists rest', rest = Construct creator false :: rest'))
    /\ (forall i, In (Created i) evs ->
          (In (Startup (oid i)) evs <->
           reports_initialized (attrs (obj i)) = Some false))
    /\ (forall c, run.1 <> Raises (Exception c))
    /\ (forall b, run.1 = Returns b ->
          b = bool_decide (is_Some (instance run.2.1)))
    /\ (forall e c, apply_creator creator true = Raises e ->
          apply_creator creator false = Raises (Exception c) ->
          run.1 = Returns false /\ instance run.2.1 = None)
    /\ (forall i, In (Created i) evs ->
          reports_initialized (attrs (obj i)) = None ->
          run.1 = Returns false /\ instance run.2.1 = None)
    /\ (forall i c, In (Created i) evs ->
          reports_initialized (attrs (obj i)) = Some false ->
          Skill._startup (attrs (obj i)) = Raises (Exception c) ->
          run.1 = Returns false /\ instance run.2.1 = None)
    /\ (forall i, In (Created i) evs ->
          reports_initialized (attrs (obj i)) = Some true
          \/ (reports_initialized (attrs (obj i)) = Some false
              /\ Skill._startup (attrs (obj i)) = Returns tt) ->
          run.1 = Returns true /\ instance run.2.1 = Some i)
    /\ (forall e c, apply_creator creator true = Raises e ->
          apply_creator creator false = Raises (BaseException c) ->
          run.1 = Raises (BaseException c))
    /\ (forall i c, In (Created i) evs ->
          reports_initialized (attrs (obj i)) = Some false ->
          Skill._startup (attrs (obj i)) = Raises (BaseException c) ->
          run.1 = Raises (BaseException c))
    /\ (run.1 = Returns true ->
          exists i, instance run.2.1 = Some i /\ In (Created i) evs
            /\ reports_initialized (attrs (obj i)) <> None)
    /\ (run.1 = Returns false -> instance run.2.1 = None)
    /\ forallb is_instantiation evs = true
    /\ (instance run.2.1 = instance l \/ instance run.2.1 = None
        \/ exists i, instance run.2.1 = Some i /\ In (Created i) evs)
    /\ exists x fr lg,
         run.2 = (set_instance x l,
                  set_log lg (set_trace (trace w ++ evs) (set_fresh fr w)))
         /\ fresh w <= fr.
Proof.
  intros module run.
  assert (Hrun : exists creator lg,
    (forall f, get_create_skill_function module = Some f -> creator = Some f)
    /\ (get_create_skill_function module = None ->
        (skill_class K (l, w)).1 = Returns creator)
    /\ run =
       (try_except (construct creator;; finish_initialization) is_Exception
          (fun _ => lift (LOG ERROR "Skill __init__ failed");;
                    update (set_instance None));;
        l' ← self;
        mret (bool_decide (is_Some (instance l'))))
         (l, set_log (log w ++ lg) w)).
  { subst run. unfold _create_skill_instance. run_monad. fold module.
    destruct (get_create_skill_function module) as [f|] eqn:Ef.
    - exists (Some f), []. rewrite set_log_nil.
      split; [intros ? [= <-]; reflexivity|]. split; [discriminate|reflexivity].
    - destruct (skill_class_returns K l w) as (creator & lg & Hsc).
      exists creator, lg. rewrite Hsc.
      split; [discriminate|]. split; reflexivity. }
  destruct Hrun as (creator & lg & Hfac & Hcls & ->).
  exists creator.
  run_monad. rewrite construct_run. destruct l.
  destruct (apply_creator creator true) as [o|e] eqn:Em;
    [|destruct (apply_creator creator false) as [o|e'] eqn:El]; cbn.
  1, 2: erewrite finish_initialization_run by reflexivity; cbn.
  1, 2: destruct (reports_initialized (attrs o)) as [[]|] eqn:Er; cbn;
        [| destruct (Skill._startup (attrs o)) as [[]|[]] eqn:Es; cbn |].
  all: try (destruct e' as [c'|c']; cbn).
  all: eexists; (split; [rewrite <- ?app_assoc; reflexivity|]).
  all: split; [exact Hfac|split; [exact Hcls|]]; clear Hfac Hcls.
  all: repeat split; solve_case.
Qed.

(** C4 (as amended): instantiation.  A callable [create_skill] of the module
    is the creator, in preference to the resolved class.  The creator is
    first called with keyword arguments; when that call raises anything at
    all, it is called again without arguments, and not otherwise.
    [_startup] is called exactly on a constructed object that reports
    itself not initialised.  The call never ends in an exception derived
    from [Exception]: one raised by the call without arguments, by the
    reading of the initialisation flag or by [_startup] is caught, leaving
    no instance and the result [False]; an exception that does not derive
    from [Exception] propagates instead.  The result [True] comes with the
    constructed object as instance. *)
Theorem create_skill_instance_conventions (K : SkillBases)
    (arg : option pymodule) (l : SkillLoader) (w : world) :
  let module := match arg with Some m => Some m | None => skill_module l end in
  let run := _create_skill_instance K arg (l, w) in
  exists (creator : option callable) (evs : list effect),
    trace run.2.2 = (trace w ++ evs)%list
    /\ (forall f, get_create_skill_function module = Some f -> creator = Some f)
    /\ (get_create_skill_function module = None ->
        (skill_class K (l, w)).1 = Returns creator)
    /\ (exists rest, evs = Construct creator true :: rest
        /\ (forall o, apply_creator creator true = Returns o ->
              ~ In (Construct creator false) rest)
        /\ (forall e, apply_creator creator true = Raises e ->
              exists rest', rest = Construct creator false :: rest'))
    /\ (forall i, In (Created i) evs ->
          (In (Startup (oid i)) evs <->
           reports_initialized (attrs (obj i)) = Some false))
    /\ (forall c, run.1 <> Raises (Exception c))
    /\ (forall b, run.1 = Returns b ->
          b = bool_decide (is_Some (instance run.2.1)))
    /\ (forall e c, apply_creator creator true = Raises e ->
          apply_creator creator false = Raises (Exception c) ->
          run.1 = Returns false /\ instance run.2.1 = None)
    /\ (forall i, In (Created i) evs ->
          reports_initialized (attrs (obj i)) = None ->
          run.1 = Returns false /\ instance run.2.1 = None)
    /\ (forall i c, In (Created i) evs ->
          reports_initialized (attrs (obj i)) = Some false ->
          Skill._startup (attrs (obj i)) = Raises (Exception c) ->
          run.1 = Returns false /\ instance run.2.1 = None)
    /\ (forall i, In (Created i) evs ->
          reports_initialized (attrs (obj i)) = Some true
          \/ (reports_initialized (attrs (obj i)) = Some false
              /\ Skill._startup (attrs (obj i)) = Returns tt) ->
          run.1 = Returns true /\ instance run.2.1 = Some i)
    /\ (forall e c, apply_creator creator true = Raises e ->
          apply_creator creator false = Raises (BaseException c) ->
          run.1 = Raises (BaseException c))
    /\ (forall i c, In (Created i) evs ->
          reports_initialized (attrs (obj i)) = Some false ->
          Skill._startup (attrs (obj i)) = Raises (BaseException c) ->
          run.1 = Raises (BaseException c)).
Proof.
  intros module run.
  destruct (_create_skill_instance_cases K arg l w) as (creator & evs & H).
  exists creator, evs. fold module run in H. tauto.
Qed.

(** C4 as stated fails: a constructor interrupted in its call without
    arguments ends [_create_skill_instance] with the interrupt, not with
    the result [False]. *)
Lemma create_skill_instance_propagates_interrupt :
  let l := Sample.plugin_loader Sample.InterruptedSkill in
  let run := _create_skill_instance Sample.K None (l, Sample.w0) in
  apply_creator (Some (CClass Sample.InterruptedSkill)) false =
    Raises (BaseException "KeyboardInterrupt")
  /\ run.1 = Raises (BaseException "KeyboardInterrupt")
  /\ run.1 <> Returns false.
Proof. vm_compute. repeat split; discriminate. Qed.

(** C10: an object that a creator returned, under either convention, and
    that has neither [is_fully_initialized] nor [_is_fully_initialized]
    makes [_create_skill_instance] return [False] with no instance: the
    attribute error is caught.  Hence after a [load] that returned [True],
    the instance is an object that has one of the two attributes. *)
Theorem object_without_flags_is_rejected (K : SkillBases) :
  (forall arg l w evs i,
     let run := _create_skill_instance K arg (l, w) in
     trace run.2.2 = (trace w ++ evs)%list ->
     In (Created i) evs ->
     Skill.is_fully_initialized (attrs (obj i)) = None ->
     Skill._is_fully_initialized (attrs (obj i)) = None ->
     run.1 = Returns false /\ instance run.2.1 = None)
  /\ (forall arg l w,
     let run := _create_skill_instance K arg (l, w) in
     run.1 = Returns true ->
     exists i, instance run.2.1 = Some i
       /\ (Skill.is_fully_initialized (attrs (obj i)) <> None
           \/ Skill._is_fully_initialized (attrs (obj i)) <> None)).
Proof.
  split.
  - intros arg l w evs i run Ht Hin H1 H2.
    destruct (_create_skill_instance_cases K arg l w) as (creator & evs' & H).
    fold run in H. destruct H as (Ht' & _ & _ & _ & _ & _ & _ & _ & Hnone & _).
    rewrite Ht in Ht'. apply app_inv_head in Ht'. subst evs'.
    apply (Hnone i Hin). unfold reports_initialized. now rewrite H1.
  - intros arg l w run Hr.
    destruct (_create_skill_instance_cases K arg l w) as (creator & evs' & H).
    fold run in H.
    destruct H as (_ & _ & _ & _ & _ & _ & _ & _ & _ & _ & _ & _ & _ & Hok & _).
    destruct (Hok Hr) as (i & Hi & _ & Hrep). exists i. split; [assumption|].
    unfold reports_initialized in Hrep.
    destruct (Skill.is_fully_initialized (attrs (obj i))); [left|right]; congruence.
Qed.

(** ** Loading, unloading, reloading *)

Lemma world_eta w :
  set_log (log w ++ []) (set_trace (trace w ++ []) (set_sys_modules (sys_modules w) w)) = w.
Proof. destruct w. unfold set_log, set_trace, set_sys_modules. cbn. now rewrite !app_nil_r. Qed.

(** Module loading touches the module cache, the trace and the log only. *)
Lemma load_skill_module_frame p id w :
  exists sm lg evs,
    (load_skill_module p id w).2 =
      set_log (log w ++ lg) (set_trace (trace w ++ evs) (set_sys_modules sm w))
    /\ forallb is_module_execution evs = true.
Proof.
  unfold load_skill_module, exec_module, remove_submodule_refs.
  destruct id as [id|]; run_monad.
  - repeat (case_step; cbn).
    all: eexists _, _, _;
      (split; [unfold set_log, set_trace, set_sys_modules; cbn;
               rewrite <- ?app_assoc; reflexivity|reflexivity]).
  - exists (sys_modules w), [], []. now rewrite world_eta.
Qed.

(** Source loading: the loader is untouched; only the module cache, the
    trace and the log of the process change; and an exception that leaves
    it is the [TypeError] of a missing skill directory or does not derive
    from [Exception]. *)
Lemma _load_skill_source_frame l w :
  exists sm lg evs,
    (_load_skill_source (l, w)).2 =
      (l, set_log (log w ++ lg) (set_trace (trace w ++ evs) (set_sys_modules sm w)))
    /\ forallb is_module_execution evs = true
    /\ (forall c, (_load_skill_source (l, w)).1 = Raises (Exception c) ->
          skill_directory l = None /\ evs = [] /\ c = "TypeError").
Proof.
  unfold _load_skill_source. run_monad.
  destruct (skill_directory l) as [d|]; cbn.
  - destruct (load_skill_module_frame (path_join d SKILL_MAIN_MODULE) (skill_id l) w)
      as (sm & lg & evs & Hw & Hev).
    case_step; cbn.
    + exists (sys_modules w), [(ERROR, "Failed to load due to a missing file.")], [].
      split; [|split; [reflexivity|discriminate]].
      destruct w. unfold set_log, set_trace, set_sys_modules. cbn.
      now rewrite app_nil_r.
    + destruct (load_skill_module _ _ w) as [[m|[c|c]] w']; cbn in *; subst w'.
      * eexists _, _, _. split; [reflexivity|]. split; [assumption|discriminate].
      * eexists _, _, _. split; [|split; [exact Hev|discriminate]].
        unfold set_log, set_trace, set_sys_modules; cbn.
        rewrite <- ?app_assoc. reflexivity.
      * eexists _, _, _. split; [reflexivity|]. split; [assumption|discriminate].
  - exists (sys_modules w), [], []. rewrite world_eta.
    split; [reflexivity|]. split; [reflexivity|]. intros c [= <-]. auto.
Qed.

(** Shutting the instance down, in full. *)
Lemma _execute_instance_shutdown_run l w :
  _execute_instance_shutdown (l, w) =
    match instance l with
    | None =>
        (Returns tt,
         (set_instance None l,
          set_log (log w ++ [(ERROR, "An error occurred while shutting down")]) w))
    | Some i =>
        let w1 := set_trace (trace w ++ [Shutdown (oid i)]) w in
        match Skill.default_shutdown (attrs (obj i)) with
        | Returns _ =>
            (Returns tt,
             (set_instance None l,
              set_log (log w ++ [(INFO, "shut down successfully")]) w1))
        | Raises (Exception _) =>
            (Returns tt,
             (set_instance None l,
              set_log (log w ++ [(ERROR, "An error occurred while shutting down")]) w1))
        | Raises (BaseException c) => (Raises (BaseException c), (l, w1))
        end
    end.
Proof.
  unfold _execute_instance_shutdown. run_monad.
  destruct (instance l) as [i|]; cbn; [|reflexivity].
  destruct (Skill.default_shutdown (attrs (obj i))) as [[]|[c|c]]; reflexivity.
Qed.

Lemma unload_run l w :
  unload (l, w) =
    match true_instance l with
    | Some _ => _execute_instance_shutdown (l, w)
    | None => (Returns tt, (l, w))
    end.
Proof. unfold unload. run_monad. destruct (true_instance l); reflexivity. Qed.

Lemma true_instance_Some l i :
  true_instance l = Some i <->
  instance l = Some i /\ Skill.truth_value (attrs (obj i)) = true.
Proof.
  unfold true_instance. destruct (instance l) as [j|]; [|split; [|intros []]; discriminate].
  destruct (Skill.truth_value (attrs (obj j))) eqn:E.
  - split; [intros [= <-]; auto|intros [[= <-] _]; reflexivity].
  - split; [discriminate|intros [[= <-] Hc]; congruence].
Qed.

Lemma true_instance_None l :
  true_instance l = None <->
  instance l = None
  \/ exists i, instance l = Some i /\ Skill.truth_value (attrs (obj i)) = false.
Proof.
  unfold true_instance. destruct (instance l) as [j|]; [|split; auto].
  destruct (Skill.truth_value (attrs (obj j))) eqn:E.
  - split; [discriminate|intros [H|(i & [= <-] & H)]; congruence].
  - split; [right; eauto|reflexivity].
Qed.

Arguments _execute_instance_shutdown : simpl never.
Arguments unload : simpl never.


Lemma is_blacklisted_run l w :
  is_blacklisted (l, w) = (Returns (blacklisted l w), (l, w)).
Proof.
  unfold is_blacklisted, blacklisted. run_monad.
  destruct (skill_id l); reflexivity.
Qed.

Arguments is_blacklisted : simpl never.

(** Reporting the outcome, in full. *)
Lemma _communicate_load_status_run l w :
  _communicate_load_status (l, w) =
    if default false (loaded l)
    then match instance l with
         | None => (Raises (Exception "AttributeError"), (l, w))
         | Some i =>
             (Returns tt,
              (l, set_log (log w ++ [(INFO, "loaded successfully")])
                    (set_bus (bus w ++ [loaded_message l i]) w)))
         end
    else (Returns tt,
          (l, set_log (log w ++ [if blacklisted l w then (INFO, "not loaded")
                                 else (ERROR, "failed to load")])
                (set_bus (bus w ++ [failure_message l]) w))).
Proof.
  unfold _communicate_load_status. run_monad.
  destruct (default false (loaded l)); cbn.
  - destruct (instance l); reflexivity.
  - rewrite is_blacklisted_run. unfold failure_message.
    assert (E : forall m, blacklisted l (set_bus m w) = blacklisted l w)
      by reflexivity.
    rewrite E. destruct (blacklisted l w); reflexivity.
Qed.

Lemma _start_filewatcher_run l w :
  _start_filewatcher (l, w) =
    match _watchdog l with
    | Some _ => (Returns tt, (l, w))
    | None =>
        match FileWatcher w (skill_directory l) with
        | Some e => (Raises e, (l, w))
        | None =>
            (Returns tt,
             (set__watchdog (Some (fresh w)) l,
              set_trace (trace w ++ [WatcherStart (fresh w) (skill_directory l)])
                        (set_fresh (S (fresh w)) w)))
        end
    end.
Proof.
  unfold _start_filewatcher. run_monad. destruct (_watchdog l); [reflexivity|].
  cbn. destruct (FileWatcher w (skill_directory l)); reflexivity.
Qed.

(** What instantiation leaves behind. *)
Lemma _create_skill_instance_frame K arg l w :
  let run := _create_skill_instance K arg (l, w) in
  exists x fr lg evs,
    run.2 = (set_instance x l,
             set_log lg (set_trace (trace w ++ evs) (set_fresh fr w)))
    /\ fresh w <= fr
    /\ forallb is_instantiation evs = true
    /\ (forall c, run.1 <> Raises (Exception c))
    /\ (forall b, run.1 = Returns b -> b = bool_decide (is_Some x))
    /\ (x = instance l \/ x = None \/ exists i, x = Some i /\ In (Created i) evs)
    /\ (run.1 = Returns true ->
        exists i, x = Some i /\ reports_initialized (attrs (obj i)) <> None)
    /\ exists creator rest, evs = Construct creator true :: rest.
Proof.
  intros run.
  destruct (_create_skill_instance_cases K arg l w) as (creator & evs & H).
  fold run in H.
  destruct H as (_ & _ & _ & (rest & Hcons & _) & _ & Hexc & Hret & _ & _ & _
                 & _ & _ & _ & Hok & _ & Hev & Horigin & x & fr & lg & Hst & Hfr).
  exists x, fr, lg, evs. rewrite Hst in *. cbn in *.
  repeat split; try assumption; [|eauto].
  intros Hr. destruct (Hok Hr) as (i & Hi & _ & Hrep). eauto.
Qed.

Arguments _communicate_load_status : simpl never.
Arguments _start_filewatcher : simpl never.
Arguments _load_skill_source : simpl never.
Arguments _create_skill_instance : simpl never.

(** ** The load cycle *)

Lemma forallb_weaken {A} (f g : A -> bool) (l : list A) :
  (forall x, f x = true -> g x = true) ->
  forallb f l = true -> forallb g l = true.
Proof.
  intros Hfg. rewrite !forallb_forall. auto.
Qed.

Lemma is_load_step_app evs1 evs2 :
  forallb is_module_execution evs1 = true ->
  forallb is_instantiation evs2 = true ->
  forallb is_load_step (evs1 ++ evs2) = true.
Proof.
  intros H1 H2. rewrite forallb_app. apply andb_true_iff. split.
  - revert H1. apply forallb_weaken. unfold is_load_step. now intros x ->.
  - revert H2. apply forallb_weaken. unfold is_load_step.
    intros x ->. apply orb_true_r.
Qed.

(** Runs [_load] up to the calls of the source loader and of the
    instantiation, and splits on their results. *)
Ltac run_load K :=
  let Hst := fresh "Hst" in
  let Hst2 := fresh "Hst2" in
  let Hret := fresh "Hret" in
  unfold _load, _prepare_for_load, _skip_load; run_monad;
  rewrite is_blacklisted_run; cbn;
  destruct (blacklisted _ _) eqn:Hb; cbn;
  [ rewrite _communicate_load_status_run; cbn
  | match goal with |- context [_load_skill_source (?a, ?b)] =>
      destruct (_load_skill_source_frame a b)
        as (sm & lg & evs & Hst & Hev & Hexc);
      destruct (_load_skill_source (a, b)) as [[m|e] [l' w']] eqn:Hsrc
    end; cbn in Hst; injection Hst as -> ->; cbn;
    [ match goal with |- context [_create_skill_instance K None (?a, ?b)] =>
        destruct (_create_skill_instance_frame K None a b)
          as (x & fr & lg2 & evs2 & Hst2 & Hfr & Hev2 & Hexc2 & Hret
              & Horigin & Hok & Hcons);
        destruct (_create_skill_instance K None (a, b))
          as [[r|e] [l' w']] eqn:Hcr
      end; cbn in Hst2; injection Hst2 as -> ->; cbn;
      [ rewrite _communicate_load_status_run; cbn;
        specialize (Hret _ eq_refl); cbn in Hret; subst
      | ]
    | ] ].

Ltac finish_core :=
  repeat (first
    [ progress simplify_eq/=
    | match goal with
      | |- _ /\ _ => split
      | |- forall _, _ => intro
      | H : ?a = _ |- context [if ?a then _ else _] => rewrite H
      | |- exists _, _ => eexists
      end ]);
  rewrite ?app_nil_r, <- ?app_assoc;
  try done; try lia; try (apply in_app_iff; right; auto; left; reflexivity);
  eauto using is_load_step_app.

Ltac finish_load :=
  finish_core;
  try first [ solve [left; finish_core]
            | solve [right; left; finish_core]
            | solve [right; right; finish_core]
            | solve [right; finish_core] ].

Lemma _load_cases K l w :
  let run := _load K (l, w) in
  let l1 := set_instance None (set_load_attempted true l) in
  exists (evs : list effect) (h : nat),
    forallb is_load_step evs = true
    /\ fresh w <= h
    /\ (blacklisted l1 w = true -> evs = [])
    /\ (blacklisted l1 w = true ->
        default false (_loaded l) = true ->
        run.1 = Raises (Exception "AttributeError") /\ bus run.2.2 = bus w)
    /\ (blacklisted l1 w = true ->
        default false (_loaded l) = false ->
        _loaded run.2.1 = _loaded l
        /\ status_reported run.2.1 (bus w) (bus run.2.2))
    /\ (forall r, run.1 = Returns r ->
        r = _loaded run.2.1
        /\ (blacklisted l1 w = false ->
            exists creator, In (Construct creator true) evs)
        /\ trace run.2.2 =
             (trace w ++ evs
              ++ match _watchdog l with
                 | Some _ => []
                 | None => [WatcherStart h (skill_directory run.2.1)]
                 end)%list
        /\ _watchdog run.2.1 =
             Some (match _watchdog l with Some h0 => h0 | None => h end)
        /\ (_watchdog l = None -> FileWatcher w (skill_directory run.2.1) = None)
        /\ if default false r
           then blacklisted l1 w = false
                /\ exists i, instance run.2.1 = Some i
                     /\ In (Created i) evs
                     /\ reports_initialized (attrs (obj i)) <> None
                     /\ bus run.2.2 = (bus w ++ [loaded_message run.2.1 i])%list
           else instance run.2.1 = None
                /\ bus run.2.2 = (bus w ++ [failure_message run.2.1])%list)
    /\ (forall e, run.1 = Raises e ->
        trace run.2.2 = (trace w ++ evs)%list
        /\ _watchdog run.2.1 = _watchdog l
        /\ (bus run.2.2 = bus w
            \/ (_watchdog l = None
                /\ FileWatcher w (skill_directory run.2.1) = Some e
                /\ status_reported run.2.1 (bus w) (bus run.2.2)
                /\ (blacklisted l1 w = false ->
                    exists creator, In (Construct creator true) evs))))
    /\ (forall c, run.1 = Raises (Exception c) ->
        (blacklisted l1 w = true /\ default false (_loaded l) = true
         /\ c = "AttributeError" /\ bus run.2.2 = bus w)
        \/ (blacklisted l1 w = false /\ skill_directory l1 = None
            /\ c = "TypeError" /\ bus run.2.2 = bus w)
        \/ (_watchdog l = None
            /\ FileWatcher w (skill_directory run.2.1) = Some (Exception c)))
    /\ load_attempted run.2.1 = true
    /\ _skill_directory run.2.1 = _skill_directory l
    /\ _skill_id run.2.1 = _skill_id l
    /\ _skill_class run.2.1 = _skill_class l
    /\ active run.2.1 = active l
    /\ disk run.2.2 = disk w
    /\ blacklisted_skills run.2.2 = blacklisted_skills w
    /\ FileWatcher run.2.2 = FileWatcher w
    /\ (forall r, run.1 = Returns r ->
        last_loaded run.2.1 = clock w /\ clock run.2.2 = S (clock w)).
Proof.
  intros run l1. subst run l1. unfold status_reported. run_load K.
  - exists [], (fresh w).
    destruct (default false (_loaded l)) eqn:Hl; cbn.
    + finish_load.
    + rewrite _start_filewatcher_run; cbn.
      destruct (_watchdog l) eqn:Hw; cbn;
        [|destruct (FileWatcher _ _) eqn:Hfw; cbn]; finish_load.
  - exists (evs ++ evs2)%list, fr. destruct Hcons as (creator & rest & ->).
    destruct x as [i|]; cbn; rewrite _start_filewatcher_run; cbn.
    + destruct Horigin as [Ho|[Ho|(i0 & [= <-] & Hin)]]; [discriminate..|].
      destruct (Hok eq_refl) as (i1 & [= <-] & Hrep).
      destruct (_watchdog l) eqn:Hw; cbn;
        [|destruct (FileWatcher _ _) eqn:Hfw; cbn]; finish_load.
    + destruct (_watchdog l) eqn:Hw; cbn;
        [|destruct (FileWatcher _ _) eqn:Hfw; cbn]; finish_load.
  - exists (evs ++ evs2)%list, fr.
    destruct e as [c|c]; [exfalso; eapply Hexc2; reflexivity|]. finish_load.
  - exists evs, (fresh w).
    destruct e as [c|c]; [destruct (Hexc c eq_refl) as (Hd & -> & ->)|];
      finish_load.
    rewrite <- (app_nil_r evs). now apply is_load_step_app.
Qed.

Lemma load_run K l w :
  load K (l, w) =
    _load K (l, set_log (log w ++ [(INFO, "ATTEMPTING TO LOAD SKILL")]) w).
Proof. unfold load. run_monad. reflexivity. Qed.

Arguments _load : simpl never.
Arguments load : simpl never.

(** C1: when [load] returns a true value, the loader holds an instance,
    which was created during the call, and the call emitted exactly one
    message, [mycroft.skills.loaded] with the payload keys [path], [id],
    [name]; when it returns a false value ([False] or [None]), the loader
    holds no instance and the call emitted exactly one message,
    [mycroft.skills.loading_failure] with the payload keys [path], [id]. *)
Theorem load_reports_outcome (K : SkillBases) (l : SkillLoader) (w : world)
    (r : option bool) :
  (load K (l, w)).1 = Returns r ->
  let after := (load K (l, w)).2 in
  exists m new,
    bus after.2 = (bus w ++ [m])%list
    /\ trace after.2 = (trace w ++ new)%list
    /\ if default false r
       then (exists i, instance after.1 = Some i /\ In (Created i) new)
            /\ msg_type m = "mycroft.skills.loaded"
            /\ payload_keys m = ["path"; "id"; "name"]
       else instance after.1 = None
            /\ msg_type m = "mycroft.skills.loading_failure"
            /\ payload_keys m = ["path"; "id"].
Proof.
  rewrite load_run. intros Hr after. subst after.
  destruct (_load_cases K l (set_log (log w ++ [(INFO, "ATTEMPTING TO LOAD SKILL")]) w))
    as (evs & h & _ & _ & _ & _ & _ & Hret & _).
  destruct (Hret r Hr) as (_ & _ & Ht & _ & _ & Hcase). cbn in Ht, Hcase.
  destruct (default false r).
  - destruct Hcase as (_ & i & Hi & Hin & _ & Hbus).
    eexists _, _. split; [exact Hbus|]. split; [exact Ht|].
    split; [|split; reflexivity].
    exists i. split; [assumption|]. apply in_app_iff. now left.
  - destruct Hcase as (Hi & Hbus).
    eexists _, _. split; [exact Hbus|]. split; [exact Ht|].
    split; [assumption|split; reflexivity].
Qed.

(** The first load of the sample skill. *)
Lemma load_reports_outcome_witness :
  exists m new,
    bus (load Sample.K (Sample.l0, Sample.w0)).2.2 = (bus Sample.w0 ++ [m])%list
    /\ trace (load Sample.K (Sample.l0, Sample.w0)).2.2 =
         (trace Sample.w0 ++ new)%list
    /\ (exists i, instance (load Sample.K (Sample.l0, Sample.w0)).2.1 = Some i
          /\ In (Created i) new)
    /\ msg_type m = "mycroft.skills.loaded"
    /\ payload_keys m = ["path"; "id"; "name"].
Proof.
  apply (load_reports_outcome Sample.K Sample.l0 Sample.w0 (Some true)).
  vm_compute. reflexivity.
Defined.

Lemma skill_directory_no_instance l :
  instance l = None -> skill_directory l = _skill_directory l.
Proof. unfold skill_directory, true_instance. now intros ->. Qed.

Lemma app_singleton_neq {A} (xs : list A) (x : A) : (xs ++ [x])%list <> xs.
Proof.
  intros H. apply (f_equal (@length A)) in H. rewrite length_app in H.
  cbn in H. lia.
Qed.

(** C7: the blacklist is read from the configuration at each [load].  A
    load of a blacklisted skill executes no module and calls no creator.
    With a loaded flag that is not true, it emits one
    [mycroft.skills.loading_failure] message and holds no instance; it then
    returns that flag (a false value) when the loader has a watcher or the
    watcher starts, and ends in the exception of [FileWatcher] otherwise.
    The loaded flag is not reset, though: a blacklisted load that follows a
    successful one ends in an [AttributeError], with nothing emitted.  A
    load of a skill that is not blacklisted and that returns has called the
    creator. *)
Theorem load_blacklist_reevaluated (K : SkillBases) (l : SkillLoader)
    (w : world) :
  let l1 := set_instance None (set_load_attempted true l) in
  let run := load K (l, w) in
  (blacklisted l1 w = true ->
     (forall e, In e (trace run.2.2) -> is_load_step e = true -> In e (trace w))
     /\ (default false (_loaded l) = false ->
         instance run.2.1 = None
         /\ bus run.2.2 = (bus w ++ [failure_message run.2.1])%list
         /\ (forall r, run.1 = Returns r -> r = _loaded l)
         /\ (_watchdog l <> None \/ FileWatcher w (_skill_directory l) = None ->
             run.1 = Returns (_loaded l))
         /\ (forall e, _watchdog l = None ->
               FileWatcher w (_skill_directory l) = Some e ->
               run.1 = Raises e))
     /\ (default false (_loaded l) = true ->
         run.1 = Raises (Exception "AttributeError")
         /\ bus run.2.2 = bus w))
  /\ (blacklisted l1 w = false ->
      forall r, run.1 = Returns r ->
      exists creator, In (Construct creator true) (trace run.2.2)).
Proof.
  intros l1 run. subst run. rewrite load_run.
  set (w' := set_log _ w).
  destruct (_load_cases K l w')
    as (evs & h & _ & _ & Hnil & Hstale & Hres & Hret & Hexc & Hexc' & _).
  change (blacklisted (set_instance None (set_load_attempted true l)) w')
    with (blacklisted l1 w) in *.
  change (trace w') with (trace w) in *. change (bus w') with (bus w) in *.
  change (FileWatcher w') with (FileWatcher w) in *.
  split.
  - intros Hb. specialize (Hnil Hb). specialize (Hres Hb).
    specialize (Hstale Hb). subst evs.
    split; [|split].
    + intros e Hin He. destruct (_load K (l, w')).1 as [r|e'] eqn:Hr.
      * destruct (Hret r eq_refl) as (_ & _ & Ht & _). rewrite Ht in Hin.
        apply in_app_iff in Hin as [Hin|Hin]; [assumption|]. cbn in Hin.
        destruct (_watchdog l); [destruct Hin|].
        destruct Hin as [<-|[]]. discriminate He.
      * destruct (Hexc e' eq_refl) as (Ht & _). rewrite Ht in Hin.
        now rewrite app_nil_r in Hin.
    + intros Hl. destruct (Hres Hl) as (Hkeep & Hst).
      unfold status_reported in Hst. rewrite Hkeep, Hl in Hst.
      destruct Hst as (Hi & Hbus).
      pose proof (skill_directory_no_instance _ Hi) as Hd.
      assert (Hsd : _skill_directory (_load K (l, w')).2.1 = _skill_directory l).
      { destruct (_load_cases K l w') as (? & ? & H). tauto. }
      rewrite Hsd in Hd.
      split; [assumption|]. split; [assumption|].
      destruct (_load K (l, w')).1 as [r|e'] eqn:Hr.
      * destruct (Hret r eq_refl) as (-> & _ & _ & _ & Hfw & _).
        rewrite Hd in Hfw.
        split; [intros r' [= <-]; assumption|].
        split; [intros _; now rewrite Hkeep|].
        intros e Hw He. rewrite (Hfw Hw) in He. discriminate He.
      * destruct (Hexc e' eq_refl) as (_ & _ & [Hsame|(Hw & Hfw & _)]).
        { exfalso. rewrite Hbus in Hsame. now apply app_singleton_neq in Hsame. }
        rewrite Hd in Hfw.
        split; [discriminate|].
        split; [intros [Hne|Hnone]; [contradiction|congruence]|].
        intros e _ He. congruence.
    + intros Hl. exact (Hstale Hl).
  - intros Hb r Hr. destruct (Hret r Hr) as (_ & Hcons & Ht & _).
    destruct (Hcons Hb) as (creator & Hin). exists creator.
    rewrite Ht, !in_app_iff. auto.
Qed.

(** The sample skill is loaded, then blacklisted, then loaded again: the
    second load ends in an [AttributeError] and emits nothing. *)
Lemma load_blacklist_reevaluated_witness :
  (load Sample.K (Sample.after_load.1,
                  Sample.configure (Some ["weather"]) Sample.after_load.2)).1 =
    Raises (Exception "AttributeError")
  /\ bus (load Sample.K (Sample.after_load.1,
                         Sample.configure (Some ["weather"]) Sample.after_load.2)).2.2 =
     bus (Sample.configure (Some ["weather"]) Sample.after_load.2).
Proof.
  pose proof (load_blacklist_reevaluated Sample.K Sample.after_load.1
                (Sample.configure (Some ["weather"]) Sample.after_load.2)) as H.
  cbv zeta in H. destruct H as [H _].
  destruct H as (_ & _ & H); [vm_compute; reflexivity|].
  apply H. vm_compute. reflexivity.
Defined.

(** ** Unloading before a reload *)

Lemma set__watchdog_same l : _watchdog l = None -> set__watchdog None l = l.
Proof. destruct l. cbn. now intros ->. Qed.

(** [_unload] on a loader that holds an instance, in full. *)
Lemma _unload_run l w i :
  instance l = Some i ->
  _unload (l, w) =
    let wd := match _watchdog l with
              | Some h => [WatcherShutdown h]
              | None => []
              end in
    let w1 := set_trace (trace w ++ wd ++ [Shutdown (oid i)]) w in
    let l' := set_instance None (set__watchdog None l) in
    let finish (line : level * string) :=
      let w2 := set_log (log w ++ [line]) w1 in
      let w3 :=
        if debug w
        then set_log (log w2 ++ [(WARNING, "there are still references remaining")])
                     (set_trace (trace w2 ++ [GcCollect]) w2)
        else w2 in
      (Returns tt, (l', set_bus (bus w ++ [shutdown_message l']) w3)) in
    match Skill.default_shutdown (attrs (obj i)) with
    | Returns _ => finish (INFO, "shut down successfully")
    | Raises (Exception _) => finish (ERROR, "An error occurred while shutting down")
    | Raises (BaseException c) =>
        (Raises (BaseException c), (set__watchdog None l, w1))
    end.
Proof.
  intros Hi. unfold _unload. run_monad.
  destruct (_watchdog l) as [h|] eqn:Hw; cbn.
  all: rewrite _execute_instance_shutdown_run; cbn; rewrite Hi; cbn.
  all: rewrite ?(set__watchdog_same l Hw).
  all: destruct (Skill.default_shutdown (attrs (obj i))) as [[]|[c|c]]; cbn.
  all: unfold _garbage_collect, _emit_skill_shutdown_event; run_monad.
  all: destruct (debug w); cbn.
  all: unfold set_trace, set_log, set_bus; cbn; rewrite <- ?app_assoc; reflexivity.
Qed.

Lemma reload_run K l w i :
  true_instance l = Some i ->
  Skill.reload_skill (attrs (obj i)) = true ->
  reload K (l, w) =
    match _unload (l, set_log (log w ++ [(INFO, "ATTEMPTING TO RELOAD SKILL")]) w) with
    | (Returns _, s) => _load K s
    | (Raises e, s) => (Raises e, s)
    end.
Proof.
  intros Hi Hr. unfold reload. run_monad. rewrite Hi, Hr. cbn.
  destruct (_unload _) as [[[]|e] s]; reflexivity.
Qed.

Lemma reload_fresh K l w :
  true_instance l = None ->
  reload K (l, w) =
    _load K (l, set_log (log w ++ [(INFO, "ATTEMPTING TO RELOAD SKILL")]) w).
Proof. intros Hi. unfold reload. run_monad. now rewrite Hi. Qed.

Arguments _unload : simpl never.
Arguments reload : simpl never.

(** What a load adds to the trace: module execution and instantiation,
    then the start of a watcher when the loader held none. *)
Lemma _load_trace K l w :
  exists new,
    trace (_load K (l, w)).2.2 = (trace w ++ new)%list
    /\ (forall e, In e new ->
          is_load_step e = true
          \/ (is_watcher_start e = true /\ _watchdog l = None))
    /\ (forall r j, (_load K (l, w)).1 = Returns r ->
          instance (_load K (l, w)).2.1 = Some j -> In (Created j) new).
Proof.
  destruct (_load_cases K l w)
    as (evs & h & Hev & _ & _ & _ & _ & Hret & Hexc & _).
  rewrite forallb_forall in Hev.
  destruct (_load K (l, w)).1 as [r|e] eqn:Hr.
  - destruct (Hret r eq_refl) as (_ & _ & Ht & _ & _ & Hcase).
    eexists. split; [exact Ht|]. split.
    + intros e [Hin|Hin]%in_app_iff; [left; auto|right].
      destruct (_watchdog l); [destruct Hin|].
      destruct Hin as [<-|[]]. auto.
    + intros r' j [= <-] Hj. apply in_app_iff. left.
      destruct (default false r).
      * destruct Hcase as (_ & i & Hi & Hin & _). congruence.
      * destruct Hcase as [Hi _]. congruence.
  - destruct (Hexc e eq_refl) as (Ht & _).
    exists evs. split; [exact Ht|]. split; [auto|discriminate].
Qed.

Lemma is_load_step_not_shutdown e : is_load_step e = true -> is_shutdown e = false.
Proof. now destruct e. Qed.

(** C8 (as amended): the loader has one slot for an instance.  [load]
    never calls [default_shutdown]: an instance held before is dropped
    without being shut down, and the instance held after a [load] that
    returned was created by it.  [reload] on a loader whose instance is
    true and permits reloading first calls the [default_shutdown] of that
    instance, before any creator is called, and the instance held after a
    [reload] that returned was created after that shutdown.  [reload] on a
    loader whose instance is false behaves as [load] does, whatever the
    instance permits: the instance is dropped without being shut down. *)
Theorem load_drops_and_reload_shuts_down (K : SkillBases) :
  (forall l w,
     let run := load K (l, w) in
     exists new,
       trace run.2.2 = (trace w ++ new)%list
       /\ (forall e, In e new -> is_shutdown e = false)
       /\ (forall r j, run.1 = Returns r -> instance run.2.1 = Some j ->
             In (Created j) new))
  /\ (forall l w i,
     instance l = Some i ->
     Skill.truth_value (attrs (obj i)) = true ->
     Skill.reload_skill (attrs (obj i)) = true ->
     let run := reload K (l, w) in
     exists pre post,
       trace run.2.2 = (trace w ++ pre ++ Shutdown (oid i) :: post)%list
       /\ (forall e, In e pre -> is_instantiation e = false)
       /\ (forall e, In e post -> is_shutdown e = false)
       /\ (forall r j, run.1 = Returns r -> instance run.2.1 = Some j ->
             In (Created j) post))
  /\ (forall l w i,
     instance l = Some i ->
     Skill.truth_value (attrs (obj i)) = false ->
     let run := reload K (l, w) in
     exists new,
       trace run.2.2 = (trace w ++ new)%list
       /\ (forall e, In e new -> is_shutdown e = false)
       /\ (forall r j, run.1 = Returns r -> instance run.2.1 = Some j ->
             In (Created j) new)).
Proof.
  split; [|split].
  - intros l w run. subst run. rewrite load_run.
    destruct (_load_trace K l (set_log (log w ++ [(INFO, "ATTEMPTING TO LOAD SKILL")]) w))
      as (new & Ht & Hnew & Hinst).
    exists new. split; [exact Ht|]. split; [|exact Hinst].
    intros e He. destruct (Hnew e He) as [H|[H _]];
      [now apply is_load_step_not_shutdown|now destruct e].
  - intros l w i Hi Htrue Hr run. subst run.
    assert (Hti : true_instance l = Some i) by now apply true_instance_Some.
    rewrite (reload_run K l w i Hti Hr), (_unload_run _ _ i Hi). cbv zeta.
    exists (match _watchdog l with Some h => [WatcherShutdown h] | None => [] end).
    assert (Hpre : forall e,
      In e (match _watchdog l with Some h => [WatcherShutdown h] | None => [] end) ->
      is_instantiation e = false).
    { destruct (_watchdog l); [intros e [<-|[]]; reflexivity|intros e []]. }
    destruct (Skill.default_shutdown (attrs (obj i))) as [[]|[c|c]]; cbn.
    3: { exists []. split; [reflexivity|]. split; [exact Hpre|].
         split; [intros e []|discriminate]. }
    all: destruct (debug w); cbn.
    all: match goal with |- context [_load ?k (?a, ?b)] =>
           destruct (_load_trace k a b) as (new & Ht & Hnew & Hinst) end.
    all: rewrite Ht; cbn.
    all: eexists; (split; [rewrite <- ?app_assoc; cbn; reflexivity|]).
    all: split; [exact Hpre|].
    all: split;
      [intros e He; try (destruct He as [<-|He]; [reflexivity|]);
       destruct (Hnew e He) as [H|[H _]];
       [now apply is_load_step_not_shutdown|now destruct e]
      |intros r j Hret Hj; cbn; eauto].
  - intros l w i Hi Hfalse run. subst run.
    assert (Hti : true_instance l = None)
      by (apply true_instance_None; right; eauto).
    rewrite (reload_fresh K l w Hti).
    destruct (_load_trace K l (set_log (log w ++ [(INFO, "ATTEMPTING TO RELOAD SKILL")]) w))
      as (new & Ht & Hnew & Hinst).
    exists new. split; [exact Ht|]. split; [|exact Hinst].
    intros e He. destruct (Hnew e He) as [H|[H _]];
      [now apply is_load_step_not_shutdown|now destruct e].
Qed.

(** C8 as stated fails for [load]: a second [load] of the sample skill
    replaces the instance by a new one, and the first instance is never
    shut down. *)
Lemma load_replaces_without_shutdown :
  let run := load Sample.K (Sample.l_loaded, Sample.w_loaded) in
  exists i0 i1,
    instance Sample.l_loaded = Some i0
    /\ run.1 = Returns (Some true)
    /\ instance run.2.1 = Some i1
    /\ oid i1 <> oid i0
    /\ In (Created i1) (trace run.2.2)
    /\ ~ In (Shutdown (oid i0)) (trace run.2.2).
Proof.
  vm_compute. eexists _, _.
  split; [reflexivity|]. split; [reflexivity|]. split; [reflexivity|].
  split; [discriminate|]. split; [auto 10|].
  intros H. repeat (destruct H as [H|H]; [discriminate H|]). exact H.
Qed.

(** A reload of the sample skill: the instance is shut down and a new one
    is created afterwards. *)
Lemma load_drops_and_reload_shuts_down_witness :
  exists pre post,
    trace (reload Sample.K (Sample.l_loaded, Sample.w_loaded)).2.2 =
      (trace Sample.w_loaded ++ pre ++ Shutdown 0 :: post)%list
    /\ (forall e, In e pre -> is_instantiation e = false)
    /\ (forall e, In e post -> is_shutdown e = false)
    /\ (forall r j,
          (reload Sample.K (Sample.l_loaded, Sample.w_loaded)).1 = Returns r ->
          instance (reload Sample.K (Sample.l_loaded, Sample.w_loaded)).2.1 = Some j ->
          In (Created j) post).
Proof.
  destruct (load_drops_and_reload_shuts_down Sample.K) as (_ & H & _).
  apply (H Sample.l_loaded Sample.w_loaded
           {| oid := 0; obj := {| class_of := Sample.WeatherSkill;
                                  attrs := Sample.attrs_named "WeatherSkill" |} |});
    vm_compute; reflexivity.
Defined.








(** A plugin class whose objects have neither flag is constructed and
    rejected. *)
Lemma object_without_flags_is_rejected_witness :
  (_create_skill_instance Sample.K None
     (Sample.plugin_loader Sample.BareSkill, Sample.w0)).1 = Returns false
  /\ instance (_create_skill_instance Sample.K None
                 (Sample.plugin_loader Sample.BareSkill, Sample.w0)).2.1 = None.
Proof.
  destruct (object_without_flags_is_rejected Sample.K) as [H _].
  apply (H None (Sample.plugin_loader Sample.BareSkill) Sample.w0
           [Construct (Some (CClass Sample.BareSkill)) true;
            Created {| oid := 0; obj := {| class_of := Sample.BareSkill;
                                           attrs := Sample.bare_attrs |} |}]
           {| oid := 0; obj := {| class_of := Sample.BareSkill;
                                  attrs := Sample.bare_attrs |} |}).
  - vm_compute. reflexivity.
  - right. left. reflexivity.
  - reflexivity.
  - reflexivity.
Defined.

(** The sample plugin class is instantiated: the first call made is the
    call of the class with keyword arguments. *)
Lemma create_skill_instance_conventions_witness :
  exists creator evs rest,
    trace (_create_skill_instance Sample.K None
             (Sample.plugin_loader Sample.WeatherSkill, Sample.w0)).2.2 =
      (trace Sample.w0 ++ evs)%list
    /\ (skill_class Sample.K
          (Sample.plugin_loader Sample.WeatherSkill, Sample.w0)).1 =
        Returns creator
    /\ evs = Construct creator true :: rest.
Proof.
  destruct (create_skill_instance_conventions Sample.K None
              (Sample.plugin_loader Sample.WeatherSkill) Sample.w0)
    as (creator & evs & Ht & _ & Hc & (rest & Hev & _) & _).
  exists creator, evs, rest. split; [exact Ht|]. split; [|exact Hev].
  apply Hc. reflexivity.
Defined.

(** ** Plugin skills *)

(** X1: [PluginSkillLoader.load].  Without a skill id the call raises a
    [TypeError] before anything is done.  When it returns, the class it
    was handed is stored, exactly one message was emitted, and the calls
    made were calls of the creator and of [_startup] only: no module is
    executed or cached and no watcher is started.  A true result comes
    with an instance created by the call and the message
    [mycroft.skills.loaded]; a false one with no instance and the message
    [mycroft.skills.loading_failure]. *)
Theorem plugin_load_reports_outcome (K : SkillBases) (c : option callable)
    (l : SkillLoader) (w : world) :
  let run := PluginSkillLoader_load K c (l, w) in
  (skill_id l = None -> run = (Raises (Exception "TypeError"), (l, w)))
  /\ (forall r, run.1 = Returns r ->
      exists m new,
        bus run.2.2 = (bus w ++ [m])%list
        /\ trace run.2.2 = (trace w ++ new)%list
        /\ forallb is_instantiation new = true
        /\ sys_modules run.2.2 = sys_modules w
        /\ _watchdog run.2.1 = _watchdog l
        /\ _skill_class run.2.1 = c
        /\ if default false r
           then (exists i, instance run.2.1 = Some i /\ In (Created i) new)
                /\ msg_type m = "mycroft.skills.loaded"
                /\ payload_keys m = ["path"; "id"; "name"]
           else instance run.2.1 = None
                /\ msg_type m = "mycroft.skills.loading_failure"
                /\ payload_keys m = ["path"; "id"]).
Proof.
  intros run. subst run.
  unfold PluginSkillLoader_load, _prepare_for_load, _skip_load. run_monad.
  destruct (skill_id l) as [id|]; cbn; [|split; [reflexivity|discriminate]].
  split; [discriminate|]. intros r.
  rewrite is_blacklisted_run; cbn.
  destruct (blacklisted _ _) eqn:Hb; cbn.
  - rewrite _communicate_load_status_run; cbn.
    destruct (default false (_loaded l)) eqn:Hl; cbn; [discriminate|].
    intros [= <-]. rewrite Hl. eexists _, []. rewrite app_nil_r.
    repeat split; reflexivity.
  - match goal with |- context [_create_skill_instance K None (?a, ?b)] =>
      destruct (_create_skill_instance_frame K None a b)
        as (x & fr & lg2 & evs2 & Hst2 & Hfr & Hev2 & Hexc2 & Hret
            & Horigin & Hok & Hcons);
      destruct (_create_skill_instance K None (a, b))
        as [[r'|e] [l' w']] eqn:Hcr
    end; cbn in Hst2; injection Hst2 as -> ->; cbn; [|discriminate].
    rewrite _communicate_load_status_run; cbn.
    specialize (Hret _ eq_refl). cbn in Hret. subst r'.
    destruct x as [i|]; cbn; intros [= <-]; cbn.
    + destruct Horigin as [Ho|[Ho|(i0 & [= <-] & Hin)]]; [discriminate..|].
      eexists _, evs2. repeat split; try reflexivity; try assumption. eauto.
    + eexists _, evs2. repeat split; try reflexivity; assumption.
Qed.

(** The sample class is loaded as a plugin. *)
Lemma plugin_load_reports_outcome_witness :
  exists m new,
    bus (PluginSkillLoader_load Sample.K (Some (CClass Sample.WeatherSkill))
           (__init__ None (Some "weather"), Sample.w0)).2.2 =
      (bus Sample.w0 ++ [m])%list
    /\ trace (PluginSkillLoader_load Sample.K (Some (CClass Sample.WeatherSkill))
                (__init__ None (Some "weather"), Sample.w0)).2.2 =
       (trace Sample.w0 ++ new)%list
    /\ msg_type m = "mycroft.skills.loaded".
Proof.
  destruct (plugin_load_reports_outcome Sample.K (Some (CClass Sample.WeatherSkill))
              (__init__ None (Some "weather")) Sample.w0) as [_ H].
  destruct (H (Some true)) as (m & new & Hb & Ht & _ & _ & _ & _ & _ & Hm & _);
    [vm_compute; reflexivity|].
  exists m, new. auto.
Defined.

(** ** Failure modes and frame of a load *)





(** X3: what a [load] leaves alone.  Whether it returns or raises, the
    configured directory, id and class of the loader and its active flag
    are unchanged, [load_attempted] is set, and the files on disk and the
    blacklist are untouched; when it returns, [last_loaded] is the reading
    of the clock taken by the call, and the result is the loaded flag. *)
Theorem load_frame (K : SkillBases) (l : SkillLoader) (w : world) :
  let run := load K (l, w) in
  _skill_directory run.2.1 = _skill_directory l
  /\ _skill_id run.2.1 = _skill_id l
  /\ _skill_class run.2.1 = _skill_class l
  /\ active run.2.1 = active l
  /\ load_attempted run.2.1 = true
  /\ disk run.2.2 = disk w
  /\ blacklisted_skills run.2.2 = blacklisted_skills w
  /\ (forall r, run.1 = Returns r ->
        r = _loaded run.2.1
        /\ last_loaded run.2.1 = clock w
        /\ clock run.2.2 = S (clock w)).
Proof.
  intros run. subst run. rewrite load_run.
  destruct (_load_cases K l (set_log (log w ++ [(INFO, "ATTEMPTING TO LOAD SKILL")]) w))
    as (evs & h & _ & _ & _ & _ & _ & Hret & _ & _ & Hla & Hd & Hid & Hc & Ha
        & Hdisk & Hbl & _ & Hlast).
  do 7 (split; [assumption|]).
  intros r Hr. destruct (Hret r Hr) as (Hl & _). split; [exact Hl|].
  exact (Hlast r Hr).
Qed.

(** The first load of the sample skill leaves the configuration of the
    loader alone. *)
Lemma load_frame_witness :
  _skill_directory (load Sample.K (Sample.l0, Sample.w0)).2.1 = Some "/skills/weather"
  /\ _skill_id (load Sample.K (Sample.l0, Sample.w0)).2.1 = None
  /\ load_attempted (load Sample.K (Sample.l0, Sample.w0)).2.1 = true.
Proof.
  destruct (load_frame Sample.K Sample.l0 Sample.w0)
    as (Hd & Hi & _ & _ & Hl & _).
  auto.
Defined.

(** ** Reloading on a file change, activation *)

(** X4: a [reload] of a loader that holds an instance which is true and
    permits reloading, when it returns, has emitted exactly two messages:
    [mycroft.skills.shutdown] first, built after the instance was
    released, and then the status message of the load; the old instance
    was shut down; a true result comes with an instance created by the
    call, a false one with none. *)
Theorem reload_reports_shutdown_then_status (K : SkillBases) (l : SkillLoader)
    (w : world) (i : live) (r : option bool) :
  instance l = Some i ->
  Skill.truth_value (attrs (obj i)) = true ->
  Skill.reload_skill (attrs (obj i)) = true ->
  (reload K (l, w)).1 = Returns r ->
  let after := (reload K (l, w)).2 in
  exists m new,
    bus after.2 =
      (bus w ++ [shutdown_message (set_instance None (set__watchdog None l)); m])%list
    /\ trace after.2 = (trace w ++ new)%list
    /\ In (Shutdown (oid i)) new
    /\ if default false r
       then msg_type m = "mycroft.skills.loaded"
            /\ exists j, instance after.1 = Some j /\ In (Created j) new
       else msg_type m = "mycroft.skills.loading_failure"
            /\ instance after.1 = None.
Proof.
  intros Hi Htrue Hrel.
  assert (Hti : true_instance l = Some i) by now apply true_instance_Some.
  rewrite (reload_run K l w i Hti Hrel), (_unload_run _ _ i Hi).
  cbv zeta.
  destruct (Skill.default_shutdown (attrs (obj i))) as [[]|[c|c]]; cbn;
    [| |discriminate].
  all: destruct (debug w); cbn.
  all: match goal with |- context [_load ?k (?a, ?b)] =>
         destruct (_load_cases k a b) as (evs & h & _ & _ & _ & _ & _ & Hret & _)
       end.
  all: intros Hr; destruct (Hret r Hr) as (_ & _ & Ht & _ & _ & Hcase).
  all: cbn in Ht, Hcase.
  all: destruct (default false r).
  all: try (destruct Hcase as (_ & j & Hj & Hin & _ & Hbus)).
  all: try (destruct Hcase as (Hj & Hbus)).
  all: eexists _, _.
  all: (split; [rewrite Hbus, <- app_assoc; reflexivity|]).
  all: (split; [rewrite Ht, <- !app_assoc; reflexivity|]).
  all: (split; [repeat (rewrite in_app_iff || cbn [In]); tauto|]).
  all: (split; [reflexivity|]).
  all: try exact Hj.
  all: exists j; split; [exact Hj|].
  all: repeat (rewrite in_app_iff || cbn [In]); tauto.
Qed.

(** The sample skill is reloaded after its load. *)
Lemma reload_reports_shutdown_then_status_witness :
  exists m new,
    bus (reload Sample.K (Sample.l_loaded, Sample.w_loaded)).2.2 =
      (bus Sample.w_loaded
       ++ [shutdown_message (set_instance None (set__watchdog None Sample.l_loaded)); m])%list
    /\ trace (reload Sample.K (Sample.l_loaded, Sample.w_loaded)).2.2 =
         (trace Sample.w_loaded ++ new)%list
    /\ In (Shutdown 0) new
    /\ msg_type m = "mycroft.skills.loaded"
    /\ exists j, instance (reload Sample.K (Sample.l_loaded, Sample.w_loaded)).2.1 = Some j
         /\ In (Created j) new.
Proof.
  apply (reload_reports_shutdown_then_status Sample.K Sample.l_loaded Sample.w_loaded
           {| oid := 0; obj := {| class_of := Sample.WeatherSkill;
                                  attrs := Sample.attrs_named "WeatherSkill" |} |}
           (Some true)); vm_compute; reflexivity.
Defined.

Lemma _handle_filechange_run K l w :
  _handle_filechange K (l, w) =
    let w1 := set_log (log w ++ [(INFO, "Skill change detected!")]) w in
    if reload_allowed l
    then match reload K (l, w1) with
         | (Returns _, s) => (Returns tt, s)
         | (Raises (Exception _), s) =>
             (Returns tt,
              (s.1, set_log (log s.2 ++ [(ERROR, "Unhandled exception occurred while reloading")]) s.2))
         | (Raises (BaseException c), s) => (Raises (BaseException c), s)
         end
    else (Returns tt, (l, w1)).
Proof.
  unfold _handle_filechange. run_monad.
  destruct (reload_allowed l); cbn; [|reflexivity].
  destruct (reload K _) as [[r|[c|c]] [l' w']]; reflexivity.
Qed.

Lemma deactivate_run l w :
  deactivate (l, w) = unload (set_active false l, w).
Proof. reflexivity. Qed.

Lemma activate_run K l w :
  activate K (l, w) =
    match load K (set_active true l, w) with
    | (Returns _, s) => (Returns tt, s)
    | (Raises e, s) => (Raises e, s)
    end.
Proof.
  unfold activate. run_monad.
  destruct (load K _) as [[r|e] s]; reflexivity.
Qed.

Arguments _handle_filechange : simpl never.
Arguments deactivate : simpl never.
Arguments activate : simpl never.

(** X5: the callback of the file watcher.  It never ends in an exception
    derived from [Exception].  When reloading is not allowed (the loader
    is not active, or its instance does not permit reloading), it writes
    one log line and does nothing else.  When reloading is allowed it is
    a [reload] whose result is dropped and whose exceptions derived from
    [Exception] are logged. *)
Theorem handle_filechange_guarded (K : SkillBases) (l : SkillLoader) (w : world) :
  let run := _handle_filechange K (l, w) in
  let w1 := set_log (log w ++ [(INFO, "Skill change detected!")]) w in
  (forall c, run.1 <> Raises (Exception c))
  /\ (reload_allowed l = false -> run = (Returns tt, (l, w1)))
  /\ (reload_allowed l = true ->
      (forall r, (reload K (l, w1)).1 = Returns r ->
         run = (Returns tt, (reload K (l, w1)).2))
      /\ (forall c, (reload K (l, w1)).1 = Raises (Exception c) ->
            run.1 = Returns tt
            /\ run.2.1 = (reload K (l, w1)).2.1
            /\ bus run.2.2 = bus (reload K (l, w1)).2.2
            /\ trace run.2.2 = trace (reload K (l, w1)).2.2)
      /\ (forall c, (reload K (l, w1)).1 = Raises (BaseException c) ->
            run = (Raises (BaseException c), (reload K (l, w1)).2))).
Proof.
  intros run w1. subst run w1. rewrite _handle_filechange_run. cbv zeta.
  destruct (reload_allowed l).
  - destruct (reload K _) as [[r|[c|c]] [l' w']]; cbn.
    all: split; [discriminate|]. all: split; [discriminate|]. all: intros _.
    all: repeat split; intros; simplify_eq; reflexivity.
  - split; [discriminate|]. split; [reflexivity|discriminate].
Qed.

(** A file of the pinned sample skill changes: nothing happens. *)
Lemma handle_filechange_guarded_witness :
  _handle_filechange Sample.K (Sample.l_pinned, Sample.w0) =
    (Returns tt,
     (Sample.l_pinned,
      set_log (log Sample.w0 ++ [(INFO, "Skill change detected!")]) Sample.w0)).
Proof.
  destruct (handle_filechange_guarded Sample.K Sample.l_pinned Sample.w0)
    as (_ & H & _).
  apply H. reflexivity.
Defined.



(** X7: a [deactivate] followed by an [activate], on a loader that holds
    an instance that is true and a watcher, when both return: the old instance is shut
    down before anything of the new load happens, the watcher is the one
    held before and none is started or shut down, the loader is active
    again, and one message is emitted, the status of the load: unlike a
    [reload], the cycle emits no [mycroft.skills.shutdown]. *)
Theorem deactivate_activate_cycle (K : SkillBases) (l : SkillLoader) (w : world)
    (i : live) (h : nat) :
  instance l = Some i ->
  Skill.truth_value (attrs (obj i)) = true ->
  _watchdog l = Some h ->
  (deactivate (l, w)).1 = Returns tt ->
  (activate K (deactivate (l, w)).2).1 = Returns tt ->
  let after := (activate K (deactivate (l, w)).2).2 in
  active after.1 = true
  /\ _watchdog after.1 = Some h
  /\ (exists new,
        trace after.2 = (trace w ++ Shutdown (oid i) :: new)%list
        /\ (forall e, In e new -> is_load_step e = true)
        /\ (forall j, instance after.1 = Some j -> In (Created j) new))
  /\ exists m,
       bus after.2 = (bus w ++ [m])%list
       /\ (msg_type m = "mycroft.skills.loaded"
           \/ msg_type m = "mycroft.skills.loading_failure").
Proof.
  intros Hi Htrue Hw. rewrite deactivate_run, unload_run.
  assert (Hti : true_instance (set_active false l) = Some i)
    by now apply true_instance_Some.
  rewrite Hti, _execute_instance_shutdown_run. cbn [instance set_active]. rewrite Hi.
  cbv zeta.
  destruct (Skill.default_shutdown (attrs (obj i))) as [[]|[c|c]]; cbn;
    intros Hd; try discriminate; clear Hd.
  all: rewrite activate_run, load_run; cbn.
  all: match goal with |- context [_load ?k (?a, ?b)] =>
         destruct (_load_cases k a b)
           as (evs & h' & Hev & _ & _ & _ & _ & Hret & _ & _ & _ & _ & _ & _ & Ha & _);
         destruct (_load k (a, b)) as [[r|e] [l' w']] eqn:Hl
       end.
  all: cbn; intros Hr; try discriminate; clear Hr.
  all: destruct (Hret r eq_refl) as (_ & _ & Ht & Hwd & _ & Hcase).
  all: cbn in Ht, Hwd, Hcase, Ha; rewrite Hw in Ht, Hwd.
  all: rewrite app_nil_r in Ht; rewrite forallb_forall in Hev.
  all: split; [exact Ha|]; split; [exact Hwd|].
  all: split;
    [exists evs; split; [rewrite Ht, <- app_assoc; reflexivity|];
     split; [exact Hev|];
     intros j Hj; destruct (default false r);
     [destruct Hcase as (_ & j' & Hj' & Hin & _); congruence
     |destruct Hcase as [Hn _]; congruence]|].
  all: destruct (default false r);
    [destruct Hcase as (_ & j & _ & _ & _ & Hbus)|destruct Hcase as (_ & Hbus)];
    eexists; (split; [exact Hbus|]); auto.
Qed.

(** The sample skill is deactivated and activated again. *)
Lemma deactivate_activate_cycle_witness :
  active (activate Sample.K (deactivate (Sample.l_loaded, Sample.w_loaded)).2).2.1 = true
  /\ _watchdog (activate Sample.K (deactivate (Sample.l_loaded, Sample.w_loaded)).2).2.1 =
       Some 1.
Proof.
  destruct (deactivate_activate_cycle Sample.K Sample.l_loaded Sample.w_loaded
              {| oid := 0; obj := {| class_of := Sample.WeatherSkill;
                                     attrs := Sample.attrs_named "WeatherSkill" |} |}
              1) as (Ha & Hw & _); try (vm_compute; reflexivity).
  auto.
Defined.

(** ** The identifier of a skill *)

Lemma string_app_nil_r (s : string) : s ++ "" = s.
Proof.
  induction s as [|c s IH]; [reflexivity|].
  change (String c s ++ "") with (String c (s ++ "")). now rewrite IH.
Qed.

Lemma string_app_assoc (a b c : string) : (a ++ b) ++ c = a ++ (b ++ c).
Proof.
  induction a as [|x a IH]; [reflexivity|].
  change ((String x a ++ b) ++ c) with (String x ((a ++ b) ++ c)).
  now rewrite IH.
Qed.

Lemma basename_from_no_slash n : forall acc,
  has_slash n = false -> basename_from acc n = acc ++ n.
Proof.
  induction n as [|c n IH]; intros acc H; cbn in *.
  - symmetry. apply string_app_nil_r.
  - apply orb_false_iff in H as [Hc Hn]. rewrite Hc, (IH _ Hn).
    now rewrite string_app_assoc.
Qed.

Lemma basename_from_after_slash d n : forall acc,
  basename_from acc (d ++ "/" ++ n) = basename_from "" n.
Proof.
  induction d as [|c d IH]; intros acc.
  - reflexivity.
  - change (String c d ++ "/" ++ n) with (String c (d ++ "/" ++ n)).
    cbn [basename_from]. destruct (Ascii.eqb c "/"); apply IH.
Qed.

Lemma append_slash_nonempty d n : String.eqb (d ++ "/" ++ n) "" = false.
Proof. now destruct d. Qed.

(** X8: the [skill_id] property.  An identifier given to the loader wins;
    without one, the identifier of an instance that is true is used;
    without either, the identifier is the name of the skill folder: what
    follows the last slash of the skill directory.  The identifier of an
    instance that is false is not used.  A skill directory written with a
    trailing slash gives the empty identifier. *)
Theorem skill_id_defaults_to_folder_name :
  (forall l id, _skill_id l = Some id -> id <> "" -> skill_id l = Some id)
  /\ (forall l i,
        truthy (_skill_id l) = false ->
        instance l = Some i ->
        Skill.truth_value (attrs (obj i)) = true ->
        Skill.skill_id (attrs (obj i)) <> "" ->
        skill_id l = Some (Skill.skill_id (attrs (obj i))))
  /\ (forall l i parent name,
        _skill_id l = None ->
        instance l = Some i ->
        Skill.truth_value (attrs (obj i)) = false ->
        _skill_directory l = Some (parent ++ "/" ++ name) ->
        has_slash name = false ->
        skill_id l = Some name)
  /\ (forall parent name,
        has_slash name = false ->
        skill_id (__init__ (Some (parent ++ "/" ++ name)) None) = Some name)
  /\ (forall parent,
        skill_id (__init__ (Some (parent ++ "/")) None) = Some "")
  /\ skill_id (__init__ None None) = None.
Proof.
  assert (Hfolder : forall parent name,
        has_slash name = false ->
        skill_id (__init__ (Some (parent ++ "/" ++ name)) None) = Some name).
  { intros parent name Hn. unfold skill_id, skill_directory. cbn.
    rewrite append_slash_nonempty. cbn. unfold basename.
    now rewrite basename_from_after_slash, basename_from_no_slash. }
  split; [|split; [|split; [|split; [exact Hfolder|split]]]].
  - intros l id Hid Hne. unfold skill_id. cbv zeta. rewrite Hid.
    assert (Ht : truthy (Some id) = true)
      by (cbn; now apply negb_true_iff, String.eqb_neq).
    rewrite !Ht. cbn [negb].
    destruct (true_instance l), (skill_directory l);
      rewrite ?Ht, ?andb_false_r; reflexivity.
  - intros l i Hid Hi Htrue Hne.
    assert (Hti : true_instance l = Some i) by now apply true_instance_Some.
    unfold skill_id. cbv zeta. rewrite Hti, Hid.
    cbn [negb].
    assert (Ht : truthy (Some (Skill.skill_id (attrs (obj i)))) = true)
      by (cbn; now apply negb_true_iff, String.eqb_neq).
    destruct (skill_directory l); rewrite ?Ht, ?andb_false_r; reflexivity.
  - intros l i parent name Hid Hi Hfalse Hd Hn.
    assert (Hti : true_instance l = None)
      by (apply true_instance_None; right; eauto).
    unfold skill_id, skill_directory. cbv zeta. rewrite Hti, Hid, Hd. cbn.
    rewrite append_slash_nonempty. cbn. unfold basename.
    now rewrite basename_from_after_slash, basename_from_no_slash.
  - intros parent. exact (Hfolder parent "" eq_refl).
  - reflexivity.
Qed.

(** The sample loader takes its identifier from its folder. *)
Lemma skill_id_defaults_to_folder_name_witness :
  skill_id Sample.l0 = Some "weather".
Proof.
  destruct skill_id_defaults_to_folder_name as (_ & _ & _ & H & _).
  apply (H "/skills" "weather"). reflexivity.
Defined.

(** ** Loading the source of a skill *)

(** X9: [_load_skill_source] on a loader with a skill directory and an
    identifier.  When the main file is missing, [None] is returned and
    nothing is executed or cached.  Otherwise the file is executed once
    under the identifier with its dots replaced; the module is returned
    when the execution ends normally, [None] when it raises an exception
    derived from [Exception], and any other exception propagates; in all
    three cases the module object, with the bindings made until then,
    stays registered in [sys.modules]: a failed execution leaves its
    partial module in the cache.  The loader itself is never changed. *)
Theorem load_skill_source_outcomes (l : SkillLoader) (w : world)
    (d id : string) :
  skill_directory l = Some d ->
  skill_id l = Some id ->
  let main_file_path := path_join d SKILL_MAIN_MODULE in
  let run := _load_skill_source (l, w) in
  run.2.1 = l
  /\ (disk w !! main_file_path = None ->
      run = (Returns None,
             (l, set_log (log w ++ [(ERROR, "Failed to load due to a missing file.")]) w)))
  /\ (forall src, disk w !! main_file_path = Some src ->
      let module_name := replace_dots id in
      let r := src module_name (cache_at_exec module_name w) in
      let m := {| mod_name := module_name; mod_dict := bound r |} in
      run.1 = match raised r with
              | None => Returns (Some m)
              | Some (Exception _) => Returns None
              | Some (BaseException c) => Raises (BaseException c)
              end
      /\ sys_modules run.2.2 !! module_name = Some m
      /\ trace run.2.2 = (trace w ++ [ExecModule module_name main_file_path])%list).
Proof.
  intros Hd Hid main_file_path run. subst run.
  unfold _load_skill_source. run_monad. rewrite Hd, Hid. cbn.
  fold main_file_path. unfold source in *.
  match goal with |- context [bool_decide (is_Some ?x)] =>
    destruct x as [src|] eqn:Hdisk
  end; cbn.
  - destruct (load_skill_module_eq main_file_path id w src Hdisk) as (Hr & Hm & Ht).
    cbv zeta in Hr, Hm, Ht.
    destruct (load_skill_module main_file_path (Some id) w) as [o w'] eqn:Hl.
    cbn in Hr, Hm, Ht. subst o.
    split; [|split; [discriminate|]].
    + destruct (raised _) as [[c|c]|]; reflexivity.
    + intros src' [= <-]. cbv zeta.
      destruct (raised _) as [[c|c]|]; cbn; rewrite ?Hm, ?Ht;
        (split; [reflexivity|split; [apply lookup_insert_eq|reflexivity]]).
  - split; [reflexivity|]. split; [reflexivity|discriminate].
Qed.

(** The broken source of the sample skill is loaded: no module is returned
    and the partial module stays in the cache. *)
Lemma load_skill_source_outcomes_witness :
  (_load_skill_source (Sample.l0, Sample.w_broken)).1 = Returns None
  /\ sys_modules (_load_skill_source (Sample.l0, Sample.w_broken)).2.2 !! "weather" =
       Some {| mod_name := "weather"; mod_dict := [] |}
  /\ trace (_load_skill_source (Sample.l0, Sample.w_broken)).2.2 =
       (trace Sample.w_broken ++ [ExecModule "weather" "/skills/weather/__init__.py"])%list.
Proof.
  destruct (load_skill_source_outcomes Sample.l0 Sample.w_broken
              "/skills/weather" "weather" eq_refl eq_refl) as (_ & _ & H).
  exact (H Sample.broken_source eq_refl).
Defined.

Lemma replace_dots_no_dot s : has_dot (replace_dots s) = false.
Proof.
  induction s as [|c s IH]; [reflexivity|]. cbn.
  rewrite IH, orb_false_r.
  destruct (Ascii.eqb c ".") eqn:E; [reflexivity|exact E].
Qed.

Lemma replace_dots_fixed s : has_dot s = false -> replace_dots s = s.
Proof.
  induction s as [|c s IH]; [reflexivity|]. cbn.
  intros [Hc Hs]%orb_false_iff. now rewrite Hc, IH.
Qed.

(** X10: the name a skill module is registered under.  The module name
    is the identifier with every dot replaced by an underscore: it has no
    dot, and an identifier without dots is its own module name.  As a
    consequence two identifiers that differ only in dots and underscores
    share one entry of [sys.modules]: loading the second skill replaces
    the module of the first. *)
Theorem module_name_is_dotless_and_shared :
  (forall id, has_dot (replace_dots id) = false)
  /\ (forall id, has_dot id = false -> replace_dots id = id)
  /\ (forall id, replace_dots (replace_dots id) = replace_dots id)
  /\ (forall path1 path2 id1 id2 w src2,
        replace_dots id1 = replace_dots id2 ->
        let w1 := (load_skill_module path1 (Some id1) w).2 in
        disk w1 !! path2 = Some src2 ->
        let name := replace_dots id1 in
        let r := src2 name (cache_at_exec name w1) in
        sys_modules (load_skill_module path2 (Some id2) w1).2 !! name =
          Some {| mod_name := name; mod_dict := bound r |}).
Proof.
  split; [exact replace_dots_no_dot|]. split; [exact replace_dots_fixed|].
  split; [intros id; apply replace_dots_fixed, replace_dots_no_dot|].
  intros path1 path2 id1 id2 w src2 Heq w1 Hdisk name r.
  destruct (load_skill_module_eq path2 id2 w1 src2 Hdisk) as (_ & Hm & _).
  cbv zeta in Hm. rewrite Hm. subst name r. rewrite Heq.
  apply lookup_insert_eq.
Qed.

(** The skills [my.skill] and [my_skill] share the module [my_skill]. *)
Lemma module_name_is_dotless_and_shared_witness :
  sys_modules
    (load_skill_module Sample.main_file (Some "my_skill")
       (load_skill_module Sample.main_file (Some "my.skill") Sample.w0).2).2
    !! "my_skill" =
  Some {| mod_name := "my_skill";
          mod_dict :=
            bound (Sample.weather_source "my_skill"
                     (cache_at_exec "my_skill"
                        (load_skill_module Sample.main_file (Some "my.skill") Sample.w0).2)) |}.
Proof.
  destruct module_name_is_dotless_and_shared as (_ & _ & _ & H).
  apply (H Sample.main_file Sample.main_file "my.skill" "my_skill" Sample.w0
           Sample.weather_source eq_refl).
  vm_compute. reflexivity.
Defined.

(** ** Launchers *)

Arguments PluginSkillLoader_load : simpl never.

Lemma deactivate_cases l w :
  let run := deactivate (l, w) in
  (forall c, run.1 <> Raises (Exception c))
  /\ bus run.2.2 = bus w
  /\ trace run.2.2 =
       (trace w ++ match true_instance l with
                   | Some i => [Shutdown (oid i)]
                   | None => []
                   end)%list
  /\ (forall i, true_instance l = Some i ->
      (forall c, Skill.default_shutdown (attrs (obj i)) <> Raises (BaseException c)) ->
      run.1 = Returns tt)
  /\ (true_instance l = None -> run.1 = Returns tt).
Proof.
  intros run. subst run. rewrite deactivate_run, unload_run.
  change (true_instance (set_active false l)) with (true_instance l).
  destruct (true_instance l) as [i|] eqn:Hti.
  - pose proof (proj1 (proj1 (true_instance_Some l i) Hti)) as Hi.
    rewrite _execute_instance_shutdown_run. cbn [instance set_active].
    rewrite Hi. cbv zeta.
    destruct (Skill.default_shutdown (attrs (obj i))) as [[]|[c|c]] eqn:Hs; cbn.
    all: repeat split; try discriminate; try reflexivity.
    all: intros i' [= <-] Hok; try reflexivity.
    exfalso. apply (Hok c). exact Hs.
  - cbn. rewrite app_nil_r. repeat split; discriminate || reflexivity.
Qed.

(** The two calls that start the bus client. *)
Lemma bus_started {A} (m : M world A) w :
  (call MessageBusClient;; call run_in_thread;; m) w =
    m (set_trace (trace w ++ [MessageBusClient; run_in_thread]) w).
Proof.
  run_monad. unfold modify, set_trace. cbn. now rewrite <- app_assoc.
Qed.

(** The body of the two launchers: a first step, then the wait, with the
    two handlers; the loader is local. *)
Lemma launch_cases (first : M state (option bool)) (wait : outcome unit)
    (l : SkillLoader) (w : world) :
  let f := first (l, w) in
  let failed := set_log (log f.2.2 ++ [(ERROR, "Load of skill failed!")]) f.2.2 in
  let run :=
    with_loader l
      (try_except_interrupt (first;; of_outcome wait) deactivate
         (lift (LOG ERROR "Load of skill failed!"))) w in
  (forall c, run.1 <> Raises (Exception c))
  /\ (forall r, f.1 = Returns r -> wait = Returns tt ->
      run = (Returns tt, f.2.2))
  /\ (forall r c, f.1 = Returns r -> wait = Raises (Exception c) ->
      run = (Returns tt, failed))
  /\ (forall c, f.1 = Raises (Exception c) -> run = (Returns tt, failed))
  /\ (f.1 = Raises (BaseException "KeyboardInterrupt")
      \/ (exists r, f.1 = Returns r
            /\ wait = Raises (BaseException "KeyboardInterrupt")) ->
      bus run.2 = bus f.2.2
      /\ trace run.2 =
           (trace f.2.2 ++ match true_instance f.2.1 with
                           | Some i => [Shutdown (oid i)]
                           | None => []
                           end)%list
      /\ (forall i, true_instance f.2.1 = Some i ->
          (forall c, Skill.default_shutdown (attrs (obj i)) <> Raises (BaseException c)) ->
          run.1 = Returns tt)
      /\ (true_instance f.2.1 = None -> run.1 = Returns tt))
  /\ (forall c, String.eqb c "KeyboardInterrupt" = false ->
      f.1 = Raises (BaseException c)
      \/ (exists r, f.1 = Returns r /\ wait = Raises (BaseException c)) ->
      run = (Raises (BaseException c), f.2.2)).
Proof.
  intros f failed run. subst f failed run.
  unfold with_loader, try_except_interrupt. run_monad.
  destruct (first (l, w)) as [[r|e] [l' w']]; cbn.
  - destruct wait as [[]|[c|c]]; cbn.
    + repeat split; intros; destruct_or?; destruct_and?;
        try (destruct_and?; simplify_eq/=); try done.
      all: match goal with H : exists _, _ |- _ => destruct H as (? & ? & ?) end;
        discriminate.
    + repeat split; intros; destruct_or?; simplify_eq/=; try done.
      all: match goal with H : exists _, _ |- _ => destruct H as (? & ? & ?) end;
        discriminate.
    + destruct (deactivate_cases l' w') as (Hexc & Hbus & Htr & Hok & Hnone).
      destruct (String.eqb c "KeyboardInterrupt") eqn:Ec; cbn.
      * apply String.eqb_eq in Ec as ->.
        destruct (deactivate (l', w')) as [o [l'' w'']]; cbn in *.
        repeat split; intros; destruct_or?; simplify_eq/=; try done; eauto.
        all: try (match goal with H : exists _, _ |- _ =>
                    destruct H as (? & ? & ?) end; simplify_eq/=).
        all: rewrite ?String.eqb_refl in *; try discriminate; eauto.
      * repeat split; intros; destruct_or?; simplify_eq/=; try done.
        all: try (match goal with H : exists _, _ |- _ =>
                    destruct H as (? & ? & ?) end; simplify_eq/=).
        all: rewrite ?Ec in *; try discriminate; try reflexivity.
  - destruct e as [c|c]; cbn.
    + repeat split; intros; destruct_or?; simplify_eq/=; try done.
      all: match goal with H : exists _, _ |- _ => destruct H as (? & ? & ?) end;
        discriminate.
    + destruct (deactivate_cases l' w') as (Hexc & Hbus & Htr & Hok & Hnone).
      destruct (String.eqb c "KeyboardInterrupt") eqn:Ec; cbn.
      * apply String.eqb_eq in Ec as ->.
        destruct (deactivate (l', w')) as [o [l'' w'']]; cbn in *.
        repeat split; intros; destruct_or?; simplify_eq/=; try done; eauto.
        all: try (match goal with H : exists _, _ |- _ =>
                    destruct H as (? & ? & ?) end; simplify_eq/=).
        all: rewrite ?String.eqb_refl in *; try discriminate; eauto.
      * repeat split; intros; destruct_or?; simplify_eq/=; try done.
        all: try (match goal with H : exists _, _ |- _ =>
                    destruct H as (? & ? & ?) end; simplify_eq/=).
        all: rewrite ?Ec in *; try discriminate; try reflexivity.
Qed.
(** X11: [launch_standalone_skill].  The bus client is created and its
    thread started, then the skill is loaded.  The launcher never ends in
    an exception derived from [Exception].  When the load returns and the
    wait returns, the launcher returns and leaves the skill as the load
    left it: nothing is shut down.  When a [KeyboardInterrupt] ends the
    load or the wait, the loader is deactivated: the instance that the
    load left is shut down when it is true, and nothing is emitted on the
    bus.  An exception derived from [Exception] raised by the load (that
    of [FileWatcher]) or by the wait is logged.  Another exception (such
    as [SystemExit]) propagates, and nothing is shut down. *)
Theorem launch_standalone_skill_outcomes (K : SkillBases) (wait : outcome unit)
    (d id : string) (w : world) :
  let w1 := set_trace (trace w ++ [MessageBusClient; run_in_thread]) w in
  let first := load K (__init__ (Some d) (Some id), w1) in
  let failed :=
    set_log (log first.2.2 ++ [(ERROR, "Load of skill failed!")]) first.2.2 in
  let run := launch_standalone_skill K wait d id w in
  (forall c, run.1 <> Raises (Exception c))
  /\ (forall r, first.1 = Returns r -> wait = Returns tt ->
      run = (Returns tt, first.2.2))
  /\ (forall r c, first.1 = Returns r -> wait = Raises (Exception c) ->
      run = (Returns tt, failed))
  /\ (forall c, first.1 = Raises (Exception c) -> run = (Returns tt, failed))
  /\ (first.1 = Raises (BaseException "KeyboardInterrupt")
      \/ (exists r, first.1 = Returns r
            /\ wait = Raises (BaseException "KeyboardInterrupt")) ->
      bus run.2 = bus first.2.2
      /\ trace run.2 =
           (trace first.2.2 ++ match true_instance first.2.1 with
                               | Some i => [Shutdown (oid i)]
                               | None => []
                               end)%list
      /\ (forall i, true_instance first.2.1 = Some i ->
          (forall c, Skill.default_shutdown (attrs (obj i)) <> Raises (BaseException c)) ->
          run.1 = Returns tt)
      /\ (true_instance first.2.1 = None -> run.1 = Returns tt))
  /\ (forall c, String.eqb c "KeyboardInterrupt" = false ->
      first.1 = Raises (BaseException c)
      \/ (exists r, first.1 = Returns r /\ wait = Raises (BaseException c)) ->
      run = (Raises (BaseException c), first.2.2)).
Proof.
  intros w1 first failed run.
  assert (Hrun : run =
    with_loader (__init__ (Some d) (Some id))
      (try_except_interrupt (load K;; of_outcome wait) deactivate
         (lift (LOG ERROR "Load of skill failed!"))) w1).
  { subst run. unfold launch_standalone_skill. apply bus_started. }
  rewrite Hrun.
  exact (launch_cases (load K) wait (__init__ (Some d) (Some id)) w1).
Qed.

(** The sample skill is launched and the wait is interrupted: the skill
    is shut down. *)
Lemma launch_standalone_skill_outcomes_witness :
  bus (launch_standalone_skill Sample.K (Raises (BaseException "KeyboardInterrupt"))
         "/skills/weather" "weather" Sample.w0).2 =
    bus (load Sample.K
           (__init__ (Some "/skills/weather") (Some "weather"),
            set_trace (trace Sample.w0 ++ [MessageBusClient; run_in_thread]) Sample.w0)).2.2
  /\ trace (launch_standalone_skill Sample.K (Raises (BaseException "KeyboardInterrupt"))
              "/skills/weather" "weather" Sample.w0).2 =
     (trace (load Sample.K
               (__init__ (Some "/skills/weather") (Some "weather"),
                set_trace (trace Sample.w0 ++ [MessageBusClient; run_in_thread]) Sample.w0)).2.2
      ++ [Shutdown 0])%list.
Proof.
  destruct (launch_standalone_skill_outcomes Sample.K
              (Raises (BaseException "KeyboardInterrupt"))
              "/skills/weather" "weather" Sample.w0) as (_ & _ & _ & _ & H & _).
  destruct H as (Hb & Ht & _).
  - right. exists (Some true). split; [vm_compute; reflexivity|reflexivity].
  - split; [exact Hb|]. rewrite Ht. f_equal.
Defined.

(** X12: [launch_plugin_skill].  The bus client is created and its thread
    started first.  An identifier that is not among the plugins found then
    raises [ValueError], nothing else having been done, and this is the
    only exception derived from [Exception] that can leave the launcher.
    For a known plugin the launcher goes on with the plugin load followed
    by the wait: when both return, the skill stays loaded; when a
    [KeyboardInterrupt] ends either, the instance left by the load is shut
    down when it is true. *)
Theorem launch_plugin_skill_outcomes (K : SkillBases)
    (plugins : gmap string callable) (wait : outcome unit) (id : string)
    (w : world) :
  let w1 := set_trace (trace w ++ [MessageBusClient; run_in_thread]) w in
  let run := launch_plugin_skill K plugins wait id w in
  (plugins !! id = None -> run = (Raises (Exception "ValueError"), w1))
  /\ (forall c, run.1 = Raises (Exception c) ->
      plugins !! id = None /\ c = "ValueError")
  /\ (forall p, plugins !! id = Some p ->
      let first := PluginSkillLoader_load K (Some p) (__init__ None (Some id), w1) in
      (forall r, first.1 = Returns r -> wait = Returns tt ->
         run = (Returns tt, first.2.2))
      /\ (first.1 = Raises (BaseException "KeyboardInterrupt")
          \/ (exists r, first.1 = Returns r
                /\ wait = Raises (BaseException "KeyboardInterrupt")) ->
          bus run.2 = bus first.2.2
          /\ trace run.2 =
               (trace first.2.2 ++ match true_instance first.2.1 with
                                   | Some i => [Shutdown (oid i)]
                                   | None => []
                                   end)%list)).
Proof.
  intros w1 run.
  assert (Hrun : run =
    match plugins !! id with
    | None => (Raises (Exception "ValueError"), w1)
    | Some p =>
        with_loader (__init__ None (Some id))
          (try_except_interrupt
             (PluginSkillLoader_load K (Some p);; of_outcome wait) deactivate
             (lift (LOG ERROR "Load of skill failed!"))) w1
    end).
  { subst run. unfold launch_plugin_skill. rewrite bus_started.
    now destruct (plugins !! id). }
  rewrite Hrun. clear Hrun run.
  destruct (plugins !! id) as [p|] eqn:Hp.
  - destruct (launch_cases (PluginSkillLoader_load K (Some p)) wait
                (__init__ None (Some id)) w1) as (H1 & H2 & _ & _ & H5 & _).
    split; [discriminate|]. split; [intros c Hc; now apply H1 in Hc|].
    intros p' [= <-]. cbv zeta in *. split; [exact H2|].
    intros Hint. destruct (H5 Hint) as (Hb & Ht & _). auto.
  - split; [reflexivity|]. split; [|discriminate].
    intros c [= <-]. auto.
Qed.

(** An unknown plugin is launched. *)
Lemma launch_plugin_skill_outcomes_witness :
  launch_plugin_skill Sample.K {[ "weather" := CClass Sample.WeatherSkill ]}
    (Returns tt) "news" Sample.w0 =
  (Raises (Exception "ValueError"),
   set_trace (trace Sample.w0 ++ [MessageBusClient; run_in_thread]) Sample.w0).
Proof.
  destruct (launch_plugin_skill_outcomes Sample.K
              {[ "weather" := CClass Sample.WeatherSkill ]}
              (Returns tt) "news" Sample.w0) as (H & _).
  apply H. vm_compute. reflexivity.
Defined.

(** ** Skill directories and the launch script *)

Lemma rev_is_reverse {A} (l : list A) : rev l = reverse l.
Proof. unfold reverse. apply rev_alt. Qed.

(** X13: [get_skill_directories].  A configuration that is given and not
    empty is used, else the configuration of the process.  Without an
    entry [skills] the call raises [KeyError]; without a folder name, and
    with at least one XDG data directory, it raises [TypeError].
    Otherwise the result lists the XDG data directories, each joined with
    the folder name, in reverse order, followed by the extra directories
    in their order.  A folder name that is an absolute path replaces
    every XDG data directory. *)
Theorem skill_directories_order (xdg : list string) (Configuration : config) :
  (forall conf, config_truthy conf = false ->
     get_skill_directories xdg Configuration (Some conf) =
     get_skill_directories xdg Configuration None)
  /\ (forall conf, config_truthy conf = true ->
     get_skill_directories xdg Configuration (Some conf) =
     get_skill_directories xdg conf None)
  /\ (skills Configuration = None ->
      get_skill_directories xdg Configuration None = Raises (Exception "KeyError"))
  /\ (forall s, skills Configuration = Some s -> directory s = None ->
      get_skill_directories xdg Configuration None =
        match xdg with
        | [] => Returns (default [] (extra_directories s))
        | _ :: _ => Raises (Exception "TypeError")
        end)
  /\ (forall s folder, skills Configuration = Some s ->
      directory s = Some folder ->
      exists dirs,
        get_skill_directories xdg Configuration None = Returns dirs
        /\ length dirs = length xdg + length (default [] (extra_directories s))
        /\ (forall k p, xdg !! k = Some p ->
              dirs !! (length xdg - S k) = Some (os_path_join p folder))
        /\ (forall k e, default [] (extra_directories s) !! k = Some e ->
              dirs !! (length xdg + k) = Some e)
        /\ (startswith folder "/" = true ->
              forall k, k < length xdg -> dirs !! k = Some folder)).
Proof.
  unfold get_skill_directories.
  split; [intros conf ->; reflexivity|].
  split; [intros conf ->; reflexivity|].
  split; [intros ->; reflexivity|].
  split.
  { intros s -> ->. unfold join_each. destruct xdg; reflexivity. }
  intros s folder -> ->.
  assert (Hj : join_each (Some folder) xdg =
               Returns (map (fun p => os_path_join p folder) xdg))
    by (destruct xdg; reflexivity).
  rewrite Hj. eexists. split; [reflexivity|].
  rewrite rev_is_reverse.
  assert (Hlen : length (reverse (map (fun p => os_path_join p folder) xdg)) = length xdg)
    by now rewrite length_reverse, length_map.
  split; [now rewrite length_app, Hlen|]. split; [|split].
  - intros k p Hk.
    assert (k < length xdg) by (eapply lookup_lt_Some; eauto).
    rewrite lookup_app_l by lia.
    apply reverse_lookup_Some. rewrite length_map. split; [|lia].
    replace (length xdg - S (length xdg - S k)) with k by lia.
    change (map (fun p0 => os_path_join p0 folder) xdg)
      with ((fun p0 => os_path_join p0 folder) <$> xdg).
    now rewrite list_lookup_fmap, Hk.
  - intros k e He. rewrite lookup_app_r by lia.
    now replace (length xdg + k - length (reverse (map (fun p => os_path_join p folder) xdg)))
      with k by lia.
  - intros Habs k Hk. rewrite lookup_app_l by lia.
    apply reverse_lookup_Some. rewrite length_map. split; [|lia].
    change (map (fun p0 => os_path_join p0 folder) xdg)
      with ((fun p0 => os_path_join p0 folder) <$> xdg).
    rewrite list_lookup_fmap.
    destruct (lookup_lt_is_Some_2 xdg (length xdg - S k)) as [p Hp]; [lia|].
    rewrite Hp. cbn. unfold os_path_join. now rewrite Habs.
Qed.

(** Two XDG data directories and one extra directory. *)
Lemma skill_directories_order_witness :
  get_skill_directories ["/usr/share"; "/home/user/.local/share"]
    {| skills := Some {| directory := Some "skills";
                         extra_directories := Some ["/opt/extra"] |};
       has_other_entries := true |} None =
  Returns ["/home/user/.local/share/skills"; "/usr/share/skills"; "/opt/extra"].
Proof.
  destruct (skill_directories_order ["/usr/share"; "/home/user/.local/share"]
              {| skills := Some {| directory := Some "skills";
                                   extra_directories := Some ["/opt/extra"] |};
                 has_other_entries := true |}) as (_ & _ & _ & _ & H).
  destruct (H _ "skills" eq_refl eq_refl) as (dirs & Hd & _).
  rewrite Hd. vm_compute in Hd. now injection Hd as <-.
Defined.

Lemma find_local_skill_spec (isdir : string -> bool) (skill_id : string) :
  forall dirs,
    match find_local_skill isdir skill_id dirs with
    | Some d =>
        exists pre p post,
          dirs = (pre ++ p :: post)%list
          /\ d = p ++ "/" ++ skill_id
          /\ isdir d = true
          /\ forall q, In q pre -> isdir (q ++ "/" ++ skill_id) = false
    | None => forall q, In q dirs -> isdir (q ++ "/" ++ skill_id) = false
    end.
Proof.
  induction dirs as [|p dirs IH]; cbn [find_local_skill].
  - intros q [].
  - destruct (isdir (p ++ "/" ++ skill_id)) eqn:E.
    + exists [], p, dirs. repeat split; [exact E|intros q []].
    + destruct (find_local_skill isdir skill_id dirs) as [d|].
      * destruct IH as (pre & p' & post & -> & -> & Hd & Hpre).
        exists (p :: pre), p', post. repeat split; [exact Hd|].
        intros q [<-|Hq]; auto.
      * intros q [<-|Hq]; auto.
Qed.

(** X14: [_launch_script].  With a number of arguments other than one or
    two, the usage line is printed and [SystemExit] is raised; nothing is
    launched.  With a skill id alone, an exception of
    [get_skill_directories] ends the script before anything is launched;
    otherwise the skill directories are searched in order and the first
    one that holds a folder named as the skill is launched as a
    standalone skill; when none does, the skill is launched as a plugin.
    With a skill id and a directory, that directory is launched as a
    standalone skill without any search. *)
Theorem launch_script_dispatch (K : SkillBases) (xdg : list string)
    (Configuration : config) (plugins : gmap string callable)
    (wait : outcome unit) (isdir : string -> bool) :
  let script := _launch_script K xdg Configuration plugins wait isdir in
  let logged (line : string) (t : terminal) :=
    {| stdout := stdout t;
       process := set_log (log (process t) ++ [(INFO, line)]) (process t) |} in
  (forall argv t, length argv <> 2 -> length argv <> 3 ->
     script argv t =
       (Raises (BaseException "SystemExit"),
        {| stdout := (stdout t
                      ++ ["USAGE: ovos-skill-launcher {skill_id} [path/to/my/skill_id]"])%list;
           process := process t |}))
  /\ (forall prog id t e,
     get_skill_directories xdg Configuration None = Raises e ->
     script [prog; id] t = (Raises e, t))
  /\ (forall prog id t dirs,
     get_skill_directories xdg Configuration None = Returns dirs ->
     match find_local_skill isdir id dirs with
     | Some d =>
         (exists pre p post,
            dirs = (pre ++ p :: post)%list
            /\ d = p ++ "/" ++ id
            /\ isdir d = true
            /\ forall q, In q pre -> isdir (q ++ "/" ++ id) = false)
         /\ script [prog; id] t =
              lift_process (launch_standalone_skill K wait d id)
                (logged "found local skill, loading" t)
     | None =>
         (forall q, In q dirs -> isdir (q ++ "/" ++ id) = false)
         /\ script [prog; id] t =
              lift_process (launch_plugin_skill K plugins wait id)
                (logged "found plugin skill" t)
     end)
  /\ (forall prog id d t,
     script [prog; id; d] t =
       lift_process (launch_standalone_skill K wait d id) t).
Proof.
  intros script logged. subst script logged. split; [|split; [|split]].
  - intros argv t H2 H3.
    destruct argv as [|a [|b [|c [|d argv]]]]; cbn in H2, H3; try lia; reflexivity.
  - intros prog id t e He. unfold _launch_script. run_monad. now rewrite He.
  - intros prog id t dirs Hd. unfold _launch_script. run_monad. rewrite Hd. cbn.
    pose proof (find_local_skill_spec isdir id dirs) as Hspec.
    destruct (find_local_skill isdir id dirs) as [d|].
    + split; [exact Hspec|]. unfold lift_process. cbn.
      destruct (launch_standalone_skill _ _ _ _ _) as [[[]|e] w']; reflexivity.
    + split; [exact Hspec|]. unfold lift_process. cbn.
      destruct (launch_plugin_skill _ _ _ _ _) as [[[]|e] w']; reflexivity.
  - reflexivity.
Qed.

(** The script is called without arguments. *)
Lemma launch_script_dispatch_witness :
  _launch_script Sample.K [] {| skills := None; has_other_entries := false |}
    ∅ (Returns tt) (fun _ => false) ["ovos-skill-launcher"]
    {| stdout := []; process := Sample.w0 |} =
  (Raises (BaseException "SystemExit"),
   {| stdout := ["USAGE: ovos-skill-launcher {skill_id} [path/to/my/skill_id]"];
      process := Sample.w0 |}).
Proof.
  destruct (launch_script_dispatch Sample.K []
              {| skills := None; has_other_entries := false |}
              ∅ (Returns tt) (fun _ => false)) as (H & _).
  apply (H ["ovos-skill-launcher"] {| stdout := []; process := Sample.w0 |});
    cbn; lia.
Defined.

(** ** More on reloading and on the messages *)

(** X15: a file change on an active loader that holds no instance, as
    after a failed load, starts a new load: no instance and no watcher is
    shut down, no [mycroft.skills.shutdown] is emitted, and at most one
    message is emitted, the status of the load. *)
Theorem filechange_retries_failed_load (K : SkillBases) (l : SkillLoader)
    (w : world) :
  instance l = None ->
  active l = true ->
  let run := _handle_filechange K (l, w) in
  (forall c, run.1 <> Raises (Exception c))
  /\ load_attempted run.2.1 = true
  /\ (exists new,
        trace run.2.2 = (trace w ++ new)%list
        /\ forall e, In e new ->
             is_load_step e = true \/ is_watcher_start e = true)
  /\ (bus run.2.2 = bus w
      \/ exists m, bus run.2.2 = (bus w ++ [m])%list
           /\ (msg_type m = "mycroft.skills.loaded"
               \/ msg_type m = "mycroft.skills.loading_failure")).
Proof.
  intros Hi Ha run. subst run. rewrite _handle_filechange_run. cbv zeta.
  unfold reload_allowed. rewrite Hi, Ha. cbn [andb].
  rewrite (reload_fresh K l _ (proj2 (true_instance_None l) (or_introl Hi))).
  match goal with |- context [_load K (?a, ?b)] =>
    destruct (_load_cases K a b)
      as (evs & h & Hev & _ & _ & _ & _ & Hret & Hexc & _ & Hla & _);
    destruct (_load_trace K a b) as (new & Ht & Hnew & _);
    destruct (_load K (a, b)) as [[r|[c|c]] [l' w']] eqn:Hl
  end; cbn in *.
  all: split; [discriminate|]. all: split; [exact Hla|].
  all: split; [exists new; split; [exact Ht|];
               intros e He; destruct (Hnew e He) as [H|[H _]]; auto|].
  - destruct (Hret r eq_refl) as (_ & _ & _ & _ & _ & Hcase).
    right. destruct (default false r).
    + destruct Hcase as (_ & i & _ & _ & _ & Hb). eexists. split; [exact Hb|auto].
    + destruct Hcase as (_ & Hb). eexists. split; [exact Hb|auto].
  - destruct (Hexc _ eq_refl) as (_ & _ & [Hb|(_ & _ & Hst & _)]); [now left|].
    right. unfold status_reported in Hst.
    destruct (default false _);
      [destruct Hst as (i & _ & Hst)|destruct Hst as (_ & Hst)];
      eexists; (split; [exact Hst|auto]).
  - destruct (Hexc _ eq_refl) as (_ & _ & [Hb|(_ & _ & Hst & _)]); [now left|].
    right. unfold status_reported in Hst.
    destruct (default false _);
      [destruct Hst as (i & _ & Hst)|destruct Hst as (_ & Hst)];
      eexists; (split; [exact Hst|auto]).
Qed.

(** A file of the broken sample skill changes after its failed load. *)
Lemma filechange_retries_failed_load_witness :
  load_attempted
    (_handle_filechange Sample.K
       ((load Sample.K (Sample.l0, Sample.w_broken)).2.1,
        (load Sample.K (Sample.l0, Sample.w_broken)).2.2)).2.1 = true.
Proof.
  destruct (filechange_retries_failed_load Sample.K
              (load Sample.K (Sample.l0, Sample.w_broken)).2.1
              (load Sample.K (Sample.l0, Sample.w_broken)).2.2) as (_ & H & _);
    [vm_compute; reflexivity|vm_compute; reflexivity|exact H].
Defined.

(** X16: the payloads.  The message of a [load] that returned a true
    value carries the skill directory and the skill id as the loader
    reports them with the new instance, and the name of the instance; the
    message of a load that returned a false value carries the directory
    and the id as the loader reports them without instance.  The
    [mycroft.skills.shutdown] message of [_unload] is built after the
    instance was released: its path is the directory that the loader was
    given, [None] when it was given none, and its id is the one that the
    loader reports without instance. *)
Theorem message_payloads (K : SkillBases) :
  (forall l w r,
     (load K (l, w)).1 = Returns r ->
     let after := (load K (l, w)).2 in
     exists m,
       bus after.2 = (bus w ++ [m])%list
       /\ data m =
            (("path", skill_directory after.1) :: ("id", skill_id after.1)
             :: match instance after.1 with
                | Some i => [("name", Some (Skill.name (attrs (obj i))))]
                | None => []
                end))
  /\ (forall l w i,
     instance l = Some i ->
     (_unload (l, w)).1 = Returns tt ->
     exists m,
       bus (_unload (l, w)).2.2 = (bus w ++ [m])%list
       /\ data m = [("path", _skill_directory l);
                    ("id", skill_id (set_instance None l))]).
Proof.
  split.
  - intros l w r. rewrite load_run. intros Hr after. subst after.
    destruct (_load_cases K l (set_log (log w ++ [(INFO, "ATTEMPTING TO LOAD SKILL")]) w))
      as (evs & h & _ & _ & _ & _ & _ & Hret & _).
    destruct (Hret r Hr) as (_ & _ & _ & _ & _ & Hcase). cbn in Hcase.
    destruct (default false r).
    + destruct Hcase as (_ & i & Hi & _ & _ & Hb).
      eexists. split; [exact Hb|]. now rewrite Hi.
    + destruct Hcase as (Hi & Hb).
      eexists. split; [exact Hb|]. now rewrite Hi.
  - intros l w i Hi. rewrite (_unload_run l w i Hi). cbv zeta.
    destruct (Skill.default_shutdown (attrs (obj i))) as [[]|[c|c]]; cbn;
      intros Hr; try discriminate.
    all: destruct (debug w); cbn.
    all: eexists; split; [reflexivity|]; reflexivity.
Qed.

(** The first load of the sample skill: the payload of its message. *)
Lemma message_payloads_witness :
  exists m,
    bus (load Sample.K (Sample.l0, Sample.w0)).2.2 = (bus Sample.w0 ++ [m])%list
    /\ data m =
         [("path", Some "/skills/weather"); ("id", Some "weather");
          ("name", Some "WeatherSkill")].
Proof.
  destruct (message_payloads Sample.K) as (H & _).
  destruct (H Sample.l0 Sample.w0 (Some true)) as (m & Hb & Hd);
    [vm_compute; reflexivity|].
  exists m. split; [exact Hb|]. rewrite Hd. vm_compute. reflexivity.
Defined.

(** X17: [remove_submodule_refs].  It removes from [sys.modules] exactly
    the keys that start with the module name followed by a dot: the entry
    of the module itself and every other entry stay as they are.  It
    writes one log line, and one more for each key removed, and touches
    nothing else.  Running it again removes nothing more. *)
Theorem remove_submodule_refs_exact (module_name : string) (w : world) :
  let run := remove_submodule_refs module_name w in
  run.1 = Returns tt
  /\ (forall k, sys_modules run.2 !! k =
        if startswith k (module_name ++ ".") then None else sys_modules w !! k)
  /\ sys_modules run.2 !! module_name = sys_modules w !! module_name
  /\ length (log run.2) =
       S (length (log w) + length (collect_submodules module_name (sys_modules w)))
  /\ bus run.2 = bus w /\ trace run.2 = trace w /\ disk run.2 = disk w
  /\ sys_modules (remove_submodule_refs module_name run.2).2 = sys_modules run.2.
Proof.
  intros run. subst run.
  assert (Hl : forall w' k, sys_modules (remove_submodule_refs module_name w').2 !! k =
        if startswith k (module_name ++ ".") then None else sys_modules w' !! k)
    by (intros; apply remove_submodule_refs_lookup).
  split; [reflexivity|]. split; [apply Hl|]. split.
  { rewrite Hl. now rewrite startswith_self_dot. }
  split.
  { unfold remove_submodule_refs. run_monad.
    rewrite !length_app, length_map. cbn. lia. }
  split; [reflexivity|]. split; [reflexivity|]. split; [reflexivity|].
  apply map_eq. intros k. rewrite !Hl.
  now destruct (startswith k (module_name ++ ".")).
Qed.

(** The purge of the stale sample cache. *)
Lemma remove_submodule_refs_exact_witness :
  sys_modules (remove_submodule_refs "weather" Sample.w_stale).2 !! "weather.helpers" = None
  /\ sys_modules (remove_submodule_refs "weather" Sample.w_stale).2 !! "weather" =
       sys_modules Sample.w_stale !! "weather".
Proof.
  destruct (remove_submodule_refs_exact "weather" Sample.w_stale)
    as (_ & H & Hself & _).
  split; [|exact Hself]. rewrite H. reflexivity.
Defined.

(** * Properties of [OVOSSkill] *)

Lemma dict_get_set_same k v d : OVOSSkill.dict_get k (OVOSSkill.dict_set k v d) = Some v.
Proof.
  induction d as [|[k' v'] d IH]; cbn.
  - now rewrite String.eqb_refl.
  - destruct (String.eqb k' k) eqn:E; cbn; rewrite E; [reflexivity|exact IH].
Qed.

Lemma dict_get_set_other k k' v d :
  k' <> k -> OVOSSkill.dict_get k' (OVOSSkill.dict_set k v d) = OVOSSkill.dict_get k' d.
Proof.
  intros Hne. induction d as [|[k0 v0] d IH]; cbn.
  - apply String.eqb_neq in Hne. rewrite String.eqb_sym in Hne. now rewrite Hne.
  - destruct (String.eqb k0 k) eqn:E; cbn.
    + apply String.eqb_eq in E as ->.
      apply String.eqb_neq in Hne. rewrite String.eqb_sym in Hne. now rewrite Hne.
    + destruct (String.eqb k0 k'); [reflexivity|exact IH].
Qed.

(** X18: the callbacks of [add_event].  [on_error] records the exception
    in the dict that the three callbacks share, and keeps its other
    entries; it speaks the error dialog once, except for an abort, which
    is only logged.  [on_start] and [on_end] leave the dict as it is, so
    the messages they emit afterwards, also for later runs of the handler,
    carry the exception recorded last.  Without handler info neither
    emits anything.  [on_end] saves the settings exactly when they differ
    from the settings remembered, and remembers them: a second [on_end]
    saves nothing. *)
Theorem callbacks_share_skill_data {Settings : Type} `{EqDecision Settings}
    (camel_case_split : string -> string) (dialog_get : string -> string -> string)
    (repr : exn -> string) (is_AbortEvent : exn -> bool) :
  let on_error := OVOSSkill.on_error camel_case_split dialog_get repr is_AbortEvent in
  let on_start := @OVOSSkill.on_start Settings in
  let on_end := @OVOSSkill.on_end Settings _ in
  (forall e s,
     OVOSSkill.dict_get "exception" (OVOSSkill.skill_data (on_error e s)) = Some (repr e)
     /\ (forall k, k <> "exception" ->
           OVOSSkill.dict_get k (OVOSSkill.skill_data (on_error e s)) =
           OVOSSkill.dict_get k (OVOSSkill.skill_data s))
     /\ OVOSSkill.emitted (on_error e s) = OVOSSkill.emitted s
     /\ OVOSSkill.spoken (on_error e s) =
          if is_AbortEvent e then OVOSSkill.spoken s
          else (OVOSSkill.spoken s
                ++ [dialog_get (OVOSSkill.lang s)
                      (camel_case_split (OVOSSkill.name s))])%list)
  /\ (forall info s,
        OVOSSkill.skill_data (on_start info s) = OVOSSkill.skill_data s
        /\ OVOSSkill.skill_data (on_end info s) = OVOSSkill.skill_data s)
  /\ (forall e info s, info <> "" ->
        OVOSSkill.emitted (on_start (Some info) (on_error e s)) =
          (OVOSSkill.emitted s
           ++ [((info ++ ".start")%string, OVOSSkill.skill_data (on_error e s))])%list
        /\ exists data,
             OVOSSkill.emitted (on_end (Some info) (on_start (Some info) (on_error e s))) =
               (OVOSSkill.emitted (on_start (Some info) (on_error e s))
                ++ [((info ++ ".complete")%string, data)])%list
             /\ OVOSSkill.dict_get "exception" data = Some (repr e))
  /\ (forall info s, truthy info = false ->
        on_start info s = s
        /\ OVOSSkill.emitted (on_end info s) = OVOSSkill.emitted s)
  /\ (forall info s,
        OVOSSkill.saved (on_end info s) =
          (if bool_decide (OVOSSkill.settings s <> OVOSSkill._initial_settings s)
           then (OVOSSkill.saved s ++ [OVOSSkill.settings s])%list
           else OVOSSkill.saved s)
        /\ OVOSSkill._initial_settings (on_end info s) = OVOSSkill.settings s
        /\ OVOSSkill.settings (on_end info s) = OVOSSkill.settings s
        /\ forall info', OVOSSkill.saved (on_end info' (on_end info s)) =
                         OVOSSkill.saved (on_end info s)).
Proof.
  intros on_error on_start on_end. subst on_error on_start on_end.
  assert (Hstart : forall info (s : @OVOSSkill.env Settings),
            OVOSSkill.skill_data (OVOSSkill.on_start info s) = OVOSSkill.skill_data s).
  { intros [info|] s; cbn; [|reflexivity]. now destruct (negb _). }
  assert (Hend : forall info (s : @OVOSSkill.env Settings),
            OVOSSkill.skill_data (OVOSSkill.on_end info s) = OVOSSkill.skill_data s).
  { intros [info|] s; unfold OVOSSkill.on_end; cbn;
      repeat case_match; reflexivity. }
  assert (Hsave : forall info (s : @OVOSSkill.env Settings),
        OVOSSkill.saved (OVOSSkill.on_end info s) =
          (if bool_decide (OVOSSkill.settings s <> OVOSSkill._initial_settings s)
           then (OVOSSkill.saved s ++ [OVOSSkill.settings s])%list
           else OVOSSkill.saved s)
        /\ OVOSSkill._initial_settings (OVOSSkill.on_end info s) = OVOSSkill.settings s
        /\ OVOSSkill.settings (OVOSSkill.on_end info s) = OVOSSkill.settings s).
  { intros info s. unfold OVOSSkill.on_end.
    destruct (bool_decide_reflect (OVOSSkill.settings s <> OVOSSkill._initial_settings s))
      as [Hne|Heq]; destruct info as [info|]; cbn; repeat case_match; cbn;
      repeat split; try reflexivity.
    all: destruct (decide (OVOSSkill.settings s = OVOSSkill._initial_settings s));
      [congruence|contradiction]. }
  split; [|split; [|split; [|split; [|]]]].
  - intros e s. unfold OVOSSkill.on_error.
    destruct (is_AbortEvent e); cbn.
    all: split; [apply dict_get_set_same|].
    all: split; [intros k Hk; now apply dict_get_set_other|].
    all: split; reflexivity.
  - intros info s. split; [apply Hstart|apply Hend].
  - intros e info s Hne.
    assert (Ht : truthy (Some info) = true)
      by (cbn; now apply negb_true_iff, String.eqb_neq).
    split.
    + unfold OVOSSkill.on_start. rewrite Ht. cbn.
      unfold OVOSSkill.on_error. now destruct (is_AbortEvent e).
    + exists (OVOSSkill.skill_data
                (OVOSSkill.on_start (Some info)
                   (OVOSSkill.on_error camel_case_split dialog_get repr is_AbortEvent e s))).
      split.
      * generalize (OVOSSkill.on_start (Some info)
                      (OVOSSkill.on_error camel_case_split dialog_get repr
                         is_AbortEvent e s)).
        intros s'. unfold OVOSSkill.on_end. rewrite Ht.
        now destruct (bool_decide (OVOSSkill.settings s' <> OVOSSkill._initial_settings s')).
      * rewrite Hstart. unfold OVOSSkill.on_error.
        destruct (is_AbortEvent e); cbn; apply dict_get_set_same.
  - intros info s Hf. split.
    + destruct info as [info|]; cbn in *; [|reflexivity]. now rewrite Hf.
    + unfold OVOSSkill.on_end.
      destruct info as [info|]; cbn in *; rewrite ?Hf;
        now destruct (bool_decide (OVOSSkill.settings s <> OVOSSkill._initial_settings s)).
  - intros info s. destruct (Hsave info s) as (H1 & H2 & H3).
    split; [exact H1|]. split; [exact H2|]. split; [exact H3|].
    intros info'. destruct (Hsave info' (OVOSSkill.on_end info s)) as (H1' & _).
    rewrite H1', H2, H3. rewrite bool_decide_eq_false_2; [reflexivity|].
    intros Hc. now apply Hc.
Qed.

(** A handler fails, then runs again: the start message of the second run
    still carries the exception of the first. *)
Lemma callbacks_share_skill_data_witness :
  OVOSSkill.emitted
    (OVOSSkill.on_start (Some "weather.handler")
       (OVOSSkill.on_error (fun n => n) (fun _ n => n) (fun _ => "ValueError()")
          (fun _ => false) (Exception "ValueError")
          {| OVOSSkill.name := "WeatherSkill"; OVOSSkill.lang := "en-us";
             OVOSSkill.settings := 1; OVOSSkill._initial_settings := 1;
             OVOSSkill.skill_data := OVOSSkill.new_skill_data "handle_weather";
             OVOSSkill.emitted := []; OVOSSkill.spoken := [];
             OVOSSkill.saved := []; OVOSSkill.logged := [] |})) =
  [("weather.handler.start",
    [("name", "handle_weather"); ("exception", "ValueError()")])].
Proof.
  destruct (@callbacks_share_skill_data nat _ (fun n => n) (fun _ n => n)
              (fun _ => "ValueError()") (fun _ => false)) as (_ & _ & H & _).
  destruct (H (Exception "ValueError") "weather.handler"
              {| OVOSSkill.name := "WeatherSkill"; OVOSSkill.lang := "en-us";
                 OVOSSkill.settings := 1; OVOSSkill._initial_settings := 1;
                 OVOSSkill.skill_data := OVOSSkill.new_skill_data "handle_weather";
                 OVOSSkill.emitted := []; OVOSSkill.spoken := [];
                 OVOSSkill.saved := []; OVOSSkill.logged := [] |})
    as [Hs _]; [discriminate|].
  rewrite Hs. reflexivity.
Defined.

(** ** Waiting for a response *)

(** When the loop ends, the slot holds a response; a string it holds was
    accepted by the validator or came from outside. *)
Lemma real_wait_loop_result is_cancel validator on_fail num_retries :
  forall events num_fails c c',
    OVOSSkill.real_wait_loop is_cancel validator on_fail num_retries
      events num_fails c = Some c' ->
    (exists v, OVOSSkill._response c' = OVOSSkill.Given v
       /\ (OVOSSkill._response c = OVOSSkill.Unset ->
           forall r, v = Some r ->
             validator r = true \/ In (OVOSSkill.Overridden (Some r)) events)).
Proof.
  induction events as [|ev events IH]; intros num_fails c c'; cbn.
  - destruct (OVOSSkill._response c) as [|v] eqn:Hc; [discriminate|].
    intros [= <-]. exists v. split; [exact Hc|discriminate].
  - destruct (OVOSSkill._response c) as [|v] eqn:Hc.
    2: { intros [= <-]. exists v. split; [exact Hc|discriminate]. }
    destruct ev as [us|  |v]; cbn.
    + destruct us as [|r us]; cbn.
      * repeat case_match; intros Hr; simplify_eq/=;
          try (eexists; split; [reflexivity|discriminate]).
        all: apply IH in Hr as (v & Hv & Hok); exists v; split; [exact Hv|].
        all: intros _ r' ->; cbn in Hok; destruct (Hok Hc r' eq_refl); auto.
      * repeat case_match; intros Hr; simplify_eq/=;
          try (eexists; split; [reflexivity|intros _ ? [= <-]; auto]);
          try (eexists; split; [reflexivity|discriminate]).
        all: apply IH in Hr as (v & Hv & Hok); exists v; split; [exact Hv|].
        all: intros _ r' ->; cbn in Hok; destruct (Hok Hc r' eq_refl); auto.
    + repeat case_match; intros Hr; simplify_eq/=;
        try (eexists; split; [reflexivity|discriminate]).
      all: apply IH in Hr as (v & Hv & Hok); exists v; split; [exact Hv|].
      all: intros _ r' ->; cbn in Hok; destruct (Hok Hc r' eq_refl); auto.
    + destruct v as [r|]; cbn.
      * repeat case_match; intros Hr; simplify_eq/=;
          try (eexists; split; [reflexivity|intros _ ? [= <-]; auto]);
          try (eexists; split; [reflexivity|discriminate]).
        all: rewrite orb_true_r in *; discriminate.
      * repeat case_match; intros Hr; simplify_eq/=;
          try (eexists; split; [reflexivity|discriminate]).
        all: rewrite orb_true_r in *; discriminate.
Qed.

(** X19: the result of [_wait_response].  When the loop of
    [_real_wait_response] ends, [self._response] is no longer [False], so
    [_wait_response] returns it without waiting further.  A string that is
    returned was accepted by the validator, unless it was put into
    [self._response] from outside while the skill was listening.  After
    [_handle_killed_wait_response] the loop ends at its next check, with
    [None]. *)
Theorem wait_response_validated (is_cancel validator : string -> bool)
    (on_fail : option string -> option string) (num_retries : Z) :
  let wait := OVOSSkill._wait_response is_cancel validator on_fail num_retries in
  let loop := OVOSSkill._real_wait_response is_cancel validator on_fail num_retries in
  (forall events c c0,
     loop events (OVOSSkill.set_response OVOSSkill.Unset c) = Some c0 ->
     exists v, OVOSSkill._response c0 = OVOSSkill.Given v
       /\ wait events c = Some (v, c0))
  /\ (forall events c v c',
     wait events c = Some (v, c') ->
     OVOSSkill._response c' = OVOSSkill.Given v
     /\ forall r, v = Some r ->
          validator r = true \/ In (OVOSSkill.Overridden (Some r)) events)
  /\ (forall events c,
     loop events (OVOSSkill._handle_killed_wait_response c) =
       Some (OVOSSkill._handle_killed_wait_response c)
     /\ OVOSSkill._response (OVOSSkill._handle_killed_wait_response c) =
          OVOSSkill.Given None).
Proof.
  intros wait loop. subst wait loop.
  unfold OVOSSkill._wait_response, OVOSSkill._real_wait_response.
  split; [|split; [|intros [|ev events] c; split; reflexivity]].
  - intros events c c0 Hl. rewrite Hl.
    apply real_wait_loop_result in Hl as (v & Hv & _).
    exists v. now rewrite Hv.
  - intros events c v c' Hw.
    destruct (OVOSSkill.real_wait_loop _ _ _ _ events 0 _) as [c0|] eqn:Hl;
      [|discriminate].
    apply real_wait_loop_result in Hl as (v0 & Hv & Hok).
    rewrite Hv in Hw. injection Hw as <- <-. split; [exact Hv|].
    intros r Hr. exact (Hok eq_refl r Hr).
Qed.

(** The user answers [maybe], which the validator rejects, then [yes]. *)
Lemma wait_response_validated_witness :
  String.eqb "yes" "yes" = true
  \/ In (OVOSSkill.Overridden (Some "yes"))
       [OVOSSkill.Heard ["maybe"]; OVOSSkill.Heard ["yes"]].
Proof.
  destruct (wait_response_validated (fun _ => false) (String.eqb "yes")
              (fun _ => None) 3) as (_ & H & _).
  destruct (H [OVOSSkill.Heard ["maybe"]; OVOSSkill.Heard ["yes"]]
              {| OVOSSkill._response := OVOSSkill.Unset; OVOSSkill.outputs := [] |}
              (Some "yes")
              {| OVOSSkill._response := OVOSSkill.Given (Some "yes");
                 OVOSSkill.outputs :=
                   [OVOSSkill.MakeActive; OVOSSkill.Listen; OVOSSkill.MakeActive] |})
    as [_ Hok]; [reflexivity|].
  exact (Hok "yes" eq_refl).
Defined.

(** More rounds do not change a loop that has ended. *)
Lemma real_wait_loop_app is_cancel validator on_fail num_retries more :
  forall events num_fails c c',
    OVOSSkill.real_wait_loop is_cancel validator on_fail num_retries
      events num_fails c = Some c' ->
    OVOSSkill.real_wait_loop is_cancel validator on_fail num_retries
      (events ++ more) num_fails c = Some c'.
Proof.
  induction events as [|ev events IH]; intros num_fails c c'.
  - cbn [OVOSSkill.real_wait_loop app].
    destruct (OVOSSkill._response c) eqn:Hc; [discriminate|].
    intros [= <-]. destruct more; cbn; now rewrite Hc.
  - cbn [app OVOSSkill.real_wait_loop].
    destruct (OVOSSkill._response c); [|auto].
    destruct (OVOSSkill.__get_response ev c) as [[r|] c1];
      repeat case_match; auto.
Qed.

(** With a positive number of retries, the loop ends within that number
    of rounds plus one. *)
Lemma real_wait_loop_ends is_cancel validator on_fail num_retries :
  (0 < num_retries)%Z ->
  forall events num_fails c,
    (0 <= num_fails <= num_retries)%Z ->
    (num_retries - num_fails < Z.of_nat (length events))%Z ->
    exists c',
      OVOSSkill.real_wait_loop is_cancel validator on_fail num_retries
        events num_fails c = Some c'.
Proof.
  intros Hn. induction events as [|ev events IH]; intros num_fails c Hf Hlen.
  - cbn in Hlen. lia.
  - cbn [OVOSSkill.real_wait_loop].
    destruct (OVOSSkill._response c); [|eauto].
    destruct (OVOSSkill.__get_response ev c) as [[r|] c1].
    all: repeat case_match; eauto.
    all: apply IH; [|rewrite length_cons in Hlen; lia].
    all: match goal with
         | H : _ || _ = false |- _ => apply orb_false_iff in H as [H _];
             apply andb_false_iff in H as [H|H]; lia
         end.
Qed.

(** X20: the retries of [_wait_response].  With a positive [num_retries]
    the wait ends after at most [num_retries + 1] rounds of listening:
    later rounds are never reached.  With [num_retries] zero or negative,
    answers that are rejected never end the wait.  With [num_retries]
    zero, a round in which nothing is heard ends the wait at once with
    [None], before [on_fail] is called.  With a negative [num_retries], a
    first silent round is followed by one more prompt, and a second silent
    round ends the wait with [None]. *)
Theorem wait_response_retries (is_cancel validator : string -> bool)
    (on_fail : option string -> option string) (num_retries : Z) :
  let wait := OVOSSkill._wait_response is_cancel validator on_fail num_retries in
  let prompt (said : option string) :=
    match on_fail said with
    | Some text => if truthy (Some text) then OVOSSkill.Speak text else OVOSSkill.Listen
    | None => OVOSSkill.Listen
    end in
  ((0 < num_retries)%Z ->
     forall events c,
       (num_retries < Z.of_nat (length events))%Z ->
       exists result,
         wait events c = Some result
         /\ wait (firstn (Z.to_nat num_retries + 1) events) c = Some result)
  /\ ((num_retries <= 0)%Z ->
      forall events c,
        Forall (rejected is_cancel validator) events ->
        wait events c = None)
  /\ (num_retries = 0%Z ->
      forall events c,
        wait (OVOSSkill.TimedOut :: events) c =
          Some (None,
                {| OVOSSkill._response := OVOSSkill.Given None;
                   OVOSSkill.outputs :=
                     (OVOSSkill.outputs c ++ [OVOSSkill.MakeActive])%list |}))
  /\ ((num_retries < 0)%Z ->
      forall events c,
        wait [OVOSSkill.TimedOut] c = None
        /\ wait (OVOSSkill.TimedOut :: OVOSSkill.TimedOut :: events) c =
             Some (None,
                   {| OVOSSkill._response := OVOSSkill.Given None;
                      OVOSSkill.outputs :=
                        (OVOSSkill.outputs c
                         ++ [OVOSSkill.MakeActive; prompt None;
                             OVOSSkill.MakeActive])%list |})).
Proof.
  intros wait prompt. subst wait prompt.
  unfold OVOSSkill._wait_response, OVOSSkill._real_wait_response.
  split; [|split; [|split]].
  - intros Hn events c Hlen.
    set (k := Z.to_nat num_retries + 1).
    destruct (real_wait_loop_ends is_cancel validator on_fail num_retries Hn
                (firstn k events) 0 (OVOSSkill.set_response OVOSSkill.Unset c))
      as [c' Hc']; [lia|rewrite length_firstn; subst k; lia|].
    pose proof (real_wait_loop_app is_cancel validator on_fail num_retries
                  (skipn k events) _ _ _ _ Hc') as Hall.
    rewrite firstn_skipn in Hall. rewrite Hall, Hc'.
    destruct (real_wait_loop_result _ _ _ _ _ _ _ _ Hc') as (v & Hv & _).
    rewrite Hv. eauto.
  - intros Hn events c Hrej.
    assert (Hloop : forall num_fails c0,
              OVOSSkill._response c0 = OVOSSkill.Unset ->
              OVOSSkill.real_wait_loop is_cancel validator on_fail num_retries
                events num_fails c0 = None).
    { induction Hrej as [|ev events (u & us & -> & Hv & Hc) _ IH];
        intros num_fails c0 H0; cbn [OVOSSkill.real_wait_loop]; rewrite H0;
        [reflexivity|].
      cbn. rewrite Hv, Hc, H0. cbn.
      replace (0 <? num_retries)%Z with false by (symmetry; apply Z.ltb_ge; lia).
      cbn. repeat case_match; apply IH; exact H0. }
    now rewrite Hloop.
  - intros -> events c. reflexivity.
  - intros Hn events c.
    assert (H1 : (num_retries <? 0)%Z = true) by now apply Z.ltb_lt.
    assert (H2 : (0 <? num_retries)%Z = false) by (apply Z.ltb_ge; lia).
    cbn. rewrite H1, H2. cbn.
    destruct (on_fail None) as [text|]; cbn;
      [destruct (String.eqb text ""); cbn|]; rewrite ?H1; cbn;
      change (1 <=? 0 + 1)%Z with true; cbn;
      unfold OVOSSkill.out, OVOSSkill.set_response; cbn;
      rewrite <- ?app_assoc; split; reflexivity.
Qed.

(** Three retries and four rejected answers: the wait has ended, with
    [None]. *)
Lemma wait_response_retries_witness :
  exists result,
    OVOSSkill._wait_response (fun _ => false) (fun _ => false) (fun _ => None) 3
      [OVOSSkill.Heard ["a"]; OVOSSkill.Heard ["b"]; OVOSSkill.Heard ["c"];
       OVOSSkill.Heard ["d"]; OVOSSkill.Heard ["e"]]
      {| OVOSSkill._response := OVOSSkill.Unset; OVOSSkill.outputs := [] |} =
      Some result
    /\ OVOSSkill._wait_response (fun _ => false) (fun _ => false) (fun _ => None) 3
         (firstn (Z.to_nat 3 + 1)
            [OVOSSkill.Heard ["a"]; OVOSSkill.Heard ["b"]; OVOSSkill.Heard ["c"];
             OVOSSkill.Heard ["d"]; OVOSSkill.Heard ["e"]])
         {| OVOSSkill._response := OVOSSkill.Unset; OVOSSkill.outputs := [] |} =
       Some result.
Proof.
  destruct (wait_response_retries (fun _ => false) (fun _ => false)
              (fun _ => None) 3) as [H _].
  apply H; cbn; lia.
Defined.
